(** * Stock-Assistant: prompt resolution, instrument search and analysis dispatch

    A shallow embedding of the Python sources

      - [src/processors/prompt_processor.py]   (module [PromptProcessor])
      - [src/utils/instrument_mapper.py]       (module [InstrumentMapper])
      - [src/market/instrument_mapper.py]      (module [MarketInstrumentMapper])
      - [src/processors/stock_processor.py]    (module [StockProcessor])
      - [src/processors/analysis_processor.py] (module [AnalysisProcessor])

    Python dictionaries are [gmap string _], exceptions are an explicit
    error monad, [re] patterns are parsed from the very pattern strings of
    the source and run by a backtracking matcher, [datetime] values are
    microseconds since 0001-01-01 with the range checks of the [datetime]
    module.  Text is modelled as ASCII. *)

From Stdlib Require Import ZArith QArith Lqa String Ascii List Sorted Bool Lia.
From stdpp Require Import gmap strings list pretty.

Open Scope Z_scope.
Open Scope string_scope.
Open Scope list_scope.

(* ===================================================================== *)
(** ** Python values, exceptions, strings *)
(* ===================================================================== *)

Module Py.

(** Exceptions: the class and [str(e)]. *)
Inductive exn_class :=
  AttributeError | KeyError | TypeError | ValueError | OverflowError | IndexError.

Record exn := Exn { exn_cls : exn_class; exn_str : string }.

Inductive result (A : Type) : Type :=
| Ok (a : A)
| Raise (e : exn).
Arguments Ok {A} a.
Arguments Raise {A} e.

#[global] Instance result_ret : MRet result := fun _ a => Ok a.
#[global] Instance result_bind : MBind result := fun _ _ f m =>
  match m with Ok a => f a | Raise e => Raise e end.

Definition is_ok {A} (r : result A) : bool :=
  match r with Ok _ => true | Raise _ => false end.

(** JSON-sourced values held by instrument records. *)
Inductive jval := JNull | JStr (s : string) | JInt (n : Z).

#[global] Instance jval_eq_dec : EqDecision jval.
Proof. solve_decision. Defined.

(** [str(v)] as used by f-strings. *)
Definition jstr (v : jval) : string :=
  match v with JNull => "None" | JStr s => s | JInt n => pretty n end.

(** Values held by the parameters of a parsed request; a datetime is the
    number of microseconds since 0001-01-01T00:00:00. *)
Inductive pyval := PNone | PStr (s : string) | PInt (n : Z) | PDate (t : Z).

#[global] Instance pyval_eq_dec : EqDecision pyval.
Proof. solve_decision. Defined.

Definition of_json (v : jval) : pyval :=
  match v with JNull => PNone | JStr s => PStr s | JInt n => PInt n end.

(** [type(v).__name__] *)
Definition type_name (v : pyval) : string :=
  match v with
  | PNone => "NoneType"
  | PStr _ => "str"
  | PInt _ => "int"
  | PDate _ => "datetime.datetime"
  end.

(** Truth value of an object, as tested by [if x:]. *)
Definition truthy (v : pyval) : bool :=
  match v with
  | PNone => false
  | PStr s => negb (String.eqb s "")
  | PInt n => negb (n =? 0)%Z
  | PDate _ => true
  end.

(** [d[k]] on a dict. *)
Definition getitem {V} (d : gmap string V) (k : string) : result V :=
  match d !! k with
  | Some v => Ok v
  | None => Raise (Exn KeyError ("'" +:+ k +:+ "'"))
  end.

(** *** Characters *)

Definition code (c : ascii) : N := N_of_ascii c.

Definition in_range (lo hi : ascii) (c : ascii) : bool :=
  ((code lo <=? code c) && (code c <=? code hi))%N.

(** [str.isspace] on ASCII: TAB..CR, FS..US and SPACE. *)
Definition is_space (c : ascii) : bool :=
  ((9 <=? code c) && (code c <=? 13) || (28 <=? code c) && (code c <=? 32))%N.

Definition is_digit (c : ascii) : bool := in_range "0" "9" c.
Definition is_upper (c : ascii) : bool := in_range "A" "Z" c.
Definition is_lower (c : ascii) : bool := in_range "a" "z" c.

Definition upper_char (c : ascii) : ascii :=
  if is_lower c then ascii_of_N (code c - 32) else c.
Definition lower_char (c : ascii) : ascii :=
  if is_upper c then ascii_of_N (code c + 32) else c.

(** *** Strings *)

Fixpoint map_string (f : ascii -> ascii) (s : string) : string :=
  match s with
  | EmptyString => EmptyString
  | String c s' => String (f c) (map_string f s')
  end.

Definition upper : string -> string := map_string upper_char.
Definition lower : string -> string := map_string lower_char.

Fixpoint lstrip (s : string) : string :=
  match s with
  | String c s' => if is_space c then lstrip s' else s
  | EmptyString => EmptyString
  end.

Fixpoint rstrip (s : string) : string :=
  match s with
  | String c s' =>
      match rstrip s' with
      | EmptyString => if is_space c then EmptyString else String c EmptyString
      | r => String c r
      end
  | EmptyString => EmptyString
  end.

Definition strip (s : string) : string := rstrip (lstrip s).

(** [s.startswith(p)] *)
Fixpoint startswith (p s : string) : bool :=
  match p, s with
  | EmptyString, _ => true
  | String a p', String b s' => Ascii.eqb a b && startswith p' s'
  | String _ _, EmptyString => false
  end.

(** [sub in s] for two strings. *)
Fixpoint contains (sub s : string) : bool :=
  startswith sub s ||
  match s with
  | String _ s' => contains sub s'
  | EmptyString => false
  end.

(** [s.split()]: the maximal runs of non-whitespace characters. *)
Fixpoint split_ws_aux (cur : string) (s : string) : list string :=
  match s with
  | EmptyString => if String.eqb cur "" then [] else [cur]
  | String c s' =>
      if is_space c
      then (if String.eqb cur "" then split_ws_aux "" s' else cur :: split_ws_aux "" s')
      else split_ws_aux (cur +:+ String c "") s'
  end.

Definition split (s : string) : list string := split_ws_aux "" s.

Definition str_in (x : string) (l : list string) : bool :=
  existsb (String.eqb x) l.

(** *** [int(s)] for a string: optional surrounding whitespace, optional
    sign, decimal digits with single underscores between digits. *)

Definition digit_val (c : ascii) : Z := Z.of_N (code c) - 48.

Fixpoint int_digits (s : string) (acc : Z) (after_digit : bool) : option Z :=
  match s with
  | EmptyString => if after_digit then Some acc else None
  | String c s' =>
      if is_digit c then int_digits s' (10 * acc + digit_val c) true
      else if Ascii.eqb c "_" && after_digit then int_digits s' acc false
      else None
  end.

Definition int_literal (s : string) : option Z :=
  match strip s with
  | String "-" r => Z.opp <$> int_digits r 0 false
  | String "+" r => int_digits r 0 false
  | r => int_digits r 0 false
  end.

Definition int_of_str (s : string) : result Z :=
  match int_literal s with
  | Some n => Ok n
  | None =>
      Raise (Exn ValueError
               ("invalid literal for int() with base 10: '" +:+ s +:+ "'"))
  end.

(** [int(x)] where [x] is a regex group ([None] or a string). *)
Definition int_of_group (g : option string) : result Z :=
  match g with
  | Some s => int_of_str s
  | None =>
      Raise (Exn TypeError
        "int() argument must be a string, a bytes-like object or a real number, not 'NoneType'")
  end.

(** [x.strip()] where [x] is a regex group. *)
Definition strip_group (g : option string) : result string :=
  match g with
  | Some s => Ok (strip s)
  | None => Raise (Exn AttributeError "'NoneType' object has no attribute 'strip'")
  end.

(** [query in v] *)
Definition str_in_val (query : string) (v : jval) : result bool :=
  match v with
  | JStr s => Ok (contains query s)
  | JNull => Raise (Exn TypeError "argument of type 'NoneType' is not iterable")
  | JInt _ => Raise (Exn TypeError "argument of type 'int' is not iterable")
  end.

(** [v.upper()] *)
Definition upper_val (v : jval) : result string :=
  match v with
  | JStr s => Ok (upper s)
  | JNull => Raise (Exn AttributeError "'NoneType' object has no attribute 'upper'")
  | JInt _ => Raise (Exn AttributeError "'int' object has no attribute 'upper'")
  end.

(** Lookup in a dict kept in insertion order. *)
Fixpoint assoc {A} (k : string) (l : list (string * A)) : option A :=
  match l with
  | [] => None
  | (k', v) :: rest => if String.eqb k k' then Some v else assoc k rest
  end.

(** The exception of a failed tuple unpacking. *)
Definition unpack_error {A} (expected : nat) (m : list (option string)) : result A :=
  if (length m <? expected)%nat
  then Raise (Exn ValueError ("not enough values to unpack (expected " +:+ pretty expected
                              +:+ ", got " +:+ pretty (length m) +:+ ")"))
  else Raise (Exn ValueError ("too many values to unpack (expected " +:+ pretty expected +:+ ")")).

(** [seq[:n]] on a list. *)
Definition slice_to {A} (n : Z) (l : list A) : list A :=
  if (0 <=? n)%Z then take (Z.to_nat n) l
  else take (Z.to_nat (Z.of_nat (length l) + n)) l.

(** [seq[-n:]] for a positive literal [n]. *)
Definition slice_last {A} (n : nat) (l : list A) : list A :=
  drop (length l - n)%nat l.

End Py.

(* ===================================================================== *)
(** ** The fragment of Python's [re] used by the prompt patterns *)
(* ===================================================================== *)

Module Re.
Import Py.

(** Items of a bracket class such as [[A-Za-z\s]]. *)
Inductive citem := CRange (lo hi : ascii) | CSpace | CDigit | CChar (c : ascii).

Inductive regex :=
| Eps
| Lit (c : ascii)
| Cls (items : list citem)
| Cat (r1 r2 : regex)
| Alt (r1 r2 : regex)
| Opt (r : regex)
| Star (r : regex)
| Plus (r : regex)
| Grp (n : nat) (r : regex).

(** A compiled pattern: the [(?i)] flag, the number of capturing groups
    and the expression. *)
Record pattern := Pattern { ignorecase : bool; ngroups : nat; body : regex }.

(** *** Parsing a pattern string *)

Definition metachar (c : ascii) : bool :=
  existsb (Ascii.eqb c) ["."; "^"; "$"; "*"; "+"; "?"; "{"; "}"; "["; "]"; "("; ")"; "|"; "\"]%char.

Fixpoint parse_class (s : string) (acc : list citem) : option (list citem * string) :=
  match s with
  | String "]" rest => Some (rev acc, rest)
  | String "\" (String "s" rest) => parse_class rest (CSpace :: acc)
  | String "\" (String "d" rest) => parse_class rest (CDigit :: acc)
  | String "\" _ => None
  | String lo (String "-" (String hi rest)) =>
      if Ascii.eqb hi "]" then Some (rev (CChar "-" :: CChar lo :: acc), rest)
      else parse_class rest (CRange lo hi :: acc)
  | String c rest => parse_class rest (CChar c :: acc)
  | EmptyString => None
  end.

Definition quantified (r : regex) (s : string) : regex * string :=
  match s with
  | String "+" rest => (Plus r, rest)
  | String "?" rest => (Opt r, rest)
  | String "*" rest => (Star r, rest)
  | _ => (r, s)
  end.

(** Recursive descent; [n] counts the capturing groups opened so far. *)
Fixpoint parse_alt (fuel : nat) (s : string) (n : nat) : option (regex * string * nat) :=
  match fuel with
  | O => None
  | S fuel =>
      '(r1, s1, n1) ← parse_seq fuel s n;
      match s1 with
      | String "|" rest =>
          '(r2, s2, n2) ← parse_alt fuel rest n1;
          Some (Alt r1 r2, s2, n2)
      | _ => Some (r1, s1, n1)
      end
  end
with parse_seq (fuel : nat) (s : string) (n : nat) : option (regex * string * nat) :=
  match fuel with
  | O => None
  | S fuel =>
      match s with
      | EmptyString | String ")" _ | String "|" _ => Some (Eps, s, n)
      | _ =>
          '(a, s1, n1) ← parse_atom fuel s n;
          let '(q, s2) := quantified a s1 in
          '(r, s3, n3) ← parse_seq fuel s2 n1;
          Some (match r with Eps => q | _ => Cat q r end, s3, n3)
      end
  end
with parse_atom (fuel : nat) (s : string) (n : nat) : option (regex * string * nat) :=
  match fuel with
  | O => None
  | S fuel =>
      match s with
      | String "(" (String "?" (String ":" rest)) =>
          '(r, s1, n1) ← parse_alt fuel rest n;
          match s1 with String ")" s2 => Some (r, s2, n1) | _ => None end
      | String "(" (String "?" _) => None
      | String "(" rest =>
          '(r, s1, n1) ← parse_alt fuel rest (S n);
          match s1 with String ")" s2 => Some (Grp (S n) r, s2, n1) | _ => None end
      | String "[" rest =>
          '(items, s1) ← parse_class rest [];
          Some (Cls items, s1, n)
      | String "\" (String "s" rest) => Some (Cls [CSpace], rest, n)
      | String "\" (String "d" rest) => Some (Cls [CDigit], rest, n)
      | String c rest => if metachar c then None else Some (Lit c, rest, n)
      | EmptyString => None
      end
  end.

(** [re.compile]: an optional leading [(?i)], then the expression. *)
Definition compile (src : string) : option pattern :=
  let '(ic, s) :=
    match src with
    | String "(" (String "?" (String "i" (String ")" rest))) => (true, rest)
    | _ => (false, src)
    end in
  match parse_alt (3 * String.length s + 3) s 0 with
  | Some (r, EmptyString, n) => Some (Pattern ic n r)
  | _ => None
  end.

(** *** Matching *)

Definition item_has (i : citem) (c : ascii) : bool :=
  match i with
  | CRange lo hi => in_range lo hi c
  | CSpace => is_space c
  | CDigit => is_digit c
  | CChar x => Ascii.eqb x c
  end.

Definition class_has (ic : bool) (items : list citem) (c : ascii) : bool :=
  existsb (fun i => item_has i c ||
                    (ic && (item_has i (lower_char c) || item_has i (upper_char c))))
          items.

Definition lit_eq (ic : bool) (x c : ascii) : bool :=
  if ic then Ascii.eqb (lower_char x) (lower_char c) else Ascii.eqb x c.

(** The groups of a match: entry [i] is [match.group(i+1)]. *)
Abbreviation groups := (list (option string)).

(** The text consumed between [s] and its suffix [s']. *)
Definition consumed (s s' : string) : string :=
  substring 0 (String.length s - String.length s') s.

(** Greedy repetition of [step], a matcher in continuation-passing style:
    try one more iteration, which must consume input, and fall back to
    the continuation.  [fuel] bounds the iterations by the length of the
    text. *)
Fixpoint star_loop (step : string -> groups -> (string -> groups -> option groups) -> option groups)
    (k : string -> groups -> option groups) (fuel : nat) (s : string) (gs : groups)
    : option groups :=
  match fuel with
  | O => k s gs
  | S fuel =>
      match step s gs (fun s' gs' =>
              if (String.length s' <? String.length s)%nat
              then star_loop step k fuel s' gs' else None) with
      | Some g => Some g
      | None => k s gs
      end
  end.

(** Backtracking matcher in continuation-passing style: alternatives are
    tried left to right, quantifiers are greedy. *)
Fixpoint run (ic : bool) (r : regex) (s : string) (gs : groups)
    (k : string -> groups -> option groups) {struct r} : option groups :=
  match r with
  | Eps => k s gs
  | Lit x =>
      match s with
      | String c s' => if lit_eq ic x c then k s' gs else None
      | EmptyString => None
      end
  | Cls items =>
      match s with
      | String c s' => if class_has ic items c then k s' gs else None
      | EmptyString => None
      end
  | Cat r1 r2 => run ic r1 s gs (fun s' gs' => run ic r2 s' gs' k)
  | Alt r1 r2 =>
      match run ic r1 s gs k with
      | Some g => Some g
      | None => run ic r2 s gs k
      end
  | Opt r1 =>
      match run ic r1 s gs k with
      | Some g => Some g
      | None => k s gs
      end
  | Star r1 => star_loop (run ic r1) k (String.length s) s gs
  | Plus r1 =>
      run ic r1 s gs (fun s1 gs1 => star_loop (run ic r1) k (String.length s1) s1 gs1)
  | Grp n r1 =>
      run ic r1 s gs (fun s' gs' => k s' (<[pred n := Some (consumed s s')]> gs'))
  end.

(** [pattern.match(s)]: a match anchored at the start of [s]. *)
Definition match_at (p : pattern) (s : string) : option groups :=
  run (ignorecase p) (body p) s (replicate (ngroups p) None) (fun _ gs => Some gs).

(** [re.search]: the leftmost start position at which the pattern matches. *)
Fixpoint search (p : pattern) (s : string) : option groups :=
  match match_at p s with
  | Some g => Some g
  | None =>
      match s with
      | String _ s' => search p s'
      | EmptyString => None
      end
  end.

(** [match.group(i)] for [i >= 1]. *)
Definition group (m : groups) (i : nat) : result (option string) :=
  match m !! pred i with
  | Some g => Ok g
  | None => Raise (Exn IndexError "no such group")
  end.

End Re.

(* ===================================================================== *)
(** ** [datetime] and [timedelta] *)
(* ===================================================================== *)

Module Datetime.
Import Py.

Definition us_per_day : Z := 86400000000.

(** [date.max.toordinal()], the ordinal of 9999-12-31. *)
Definition max_ordinal : Z := 3652059.

(** [datetime.max] = 9999-12-31T23:59:59.999999; [datetime.min] is 0. *)
Definition datetime_max : Z := max_ordinal * us_per_day - 1.

Definition valid (t : Z) : Prop := 0 <= t <= datetime_max.

(** [timedelta(days=d)], in microseconds. *)
Definition timedelta_days (d : Z) : result Z :=
  if (Z.abs d <=? 999999999)%Z then Ok (d * us_per_day)
  else Raise (Exn OverflowError
                ("days=" +:+ pretty d +:+ "; must have magnitude <= 999999999")).

(** [timedelta(weeks=w)] *)
Definition timedelta_weeks (w : Z) : result Z := timedelta_days (7 * w).

(** [t - delta] for a datetime [t]. *)
Definition sub (t delta : Z) : result Z :=
  let r := t - delta in
  if ((0 <=? r) && (r <=? datetime_max))%Z then Ok r
  else Raise (Exn OverflowError "date value out of range").

(** Calendar helpers, to write datetimes down. *)
Definition is_leap (y : Z) : bool :=
  ((y mod 4 =? 0) && (negb (y mod 100 =? 0) || (y mod 400 =? 0)))%Z.

Definition days_before_year (y : Z) : Z :=
  let p := y - 1 in p * 365 + p / 4 - p / 100 + p / 400.

Definition days_before_month (y m : Z) : Z :=
  nth (Z.to_nat (m - 1)) [0; 31; 59; 90; 120; 151; 181; 212; 243; 273; 304; 334] 0
  + (if ((2 <? m) && is_leap y)%Z then 1 else 0).

(** [datetime(y, m, d, hh, mm, ss)] *)
Definition mk (y m d hh mm ss : Z) : Z :=
  ((days_before_year y + days_before_month y m + d - 1) * 86400
   + hh * 3600 + mm * 60 + ss) * 1000000.

End Datetime.

(* ===================================================================== *)
(** ** [processors/prompt_processor.py] *)
(* ===================================================================== *)

Module PromptProcessor.
Import Py.

(** The pattern table of [__init__], in insertion order. *)
Definition pattern_sources : list (string * string) :=
  [ ("historical", "(?i)(?:get|show|display)\s+(\d+)\s+(year|month|day|week)s?\s+(?:data|history)\s+(?:of\s+)?([A-Za-z\s]+)");
    ("top_performers", "(?i)(?:show|get|display)\s+top\s+(\d+)\s+(?:performing\s+)?stocks\s+(?:in|for|over)\s+(?:the\s+)?(?:last\s+)?(\d+)\s+(day|month|week)s?");
    ("trend_analysis", "(?i)(?:show|get|analyze|give)\s+(?:me\s+)?(?:a\s+)?trend\s+analysis\s+(?:of\s+)?([A-Za-z\s]+)?");
    ("stock_details", "(?i)(?:get|show|display)\s+(?:me\s+)?(?:the\s+)?(?:stock\s+)?(?:details|data|info)\s+(?:of\s+)?([A-Za-z\s]+)");
    ("price_movement", "(?i)(?:analyze|show)\s+(?:the\s+)?price\s+movement\s+(?:of\s+)?([A-Za-z\s]+)\s+(?:in|for|over)\s+(?:the\s+)?(?:last\s+)?(\d+)\s+(day|month|week)s?");
    ("market_sentiment", "(?i)(?:what|how)\s+is\s+(?:the\s+)?market\s+sentiment\s+(?:for\s+)?([A-Za-z\s]+)?");
    ("volume_analysis", "(?i)(?:analyze|show)\s+(?:the\s+)?volume\s+(?:analysis|data)\s+(?:of\s+)?([A-Za-z\s]+)");
    ("sector_performance", "(?i)(?:how|what)\s+is\s+(?:the\s+)?([A-Za-z\s]+)\s+sector\s+(?:performance|doing)");
    ("comparison", "(?i)(?:compare|show)\s+(?:the\s+)?(?:performance\s+)?(?:of\s+)?([A-Za-z\s]+)\s+(?:with|and|vs)\s+([A-Za-z\s]+)");
    ("support_resistance", "(?i)(?:show|get|find)\s+(?:the\s+)?support\s+and\s+resistance\s+(?:levels\s+)?(?:for\s+)?([A-Za-z\s]+)");
    ("moving_averages", "(?i)(?:show|get|calculate)\s+(?:the\s+)?(?:(\d+)\s+day\s+)?moving\s+average\s+(?:for\s+)?([A-Za-z\s]+)");
    ("rsi_analysis", "(?i)(?:show|get|calculate)\s+(?:the\s+)?rsi\s+(?:analysis\s+)?(?:for\s+)?([A-Za-z\s]+)");
    ("dividend_history", "(?i)(?:show|get)\s+(?:the\s+)?dividend\s+history\s+(?:of\s+)?([A-Za-z\s]+)");
    ("news_sentiment", "(?i)(?:show|get)\s+(?:the\s+)?news\s+sentiment\s+(?:for\s+)?([A-Za-z\s]+)") ].

Definition compile_all (l : list (string * string)) : option (list (string * Re.pattern)) :=
  mapM (fun '(name, src) => p ← Re.compile src; Some (name, p)) l.

(** [self.patterns] with every pattern compiled. *)
Definition patterns : list (string * Re.pattern) :=
  Eval vm_compute in default [] (compile_all pattern_sources).

(** An entry of [matches], built by [find_matching_instruments]. *)
Record candidate := Candidate {
  c_symbol : jval;
  c_name : jval;
  c_exchange : jval;
  c_instrument_type : jval;
  c_token : jval
}.

(** [result['matches']]: a list, or for a comparison a dict of two lists. *)
Inductive matches_t :=
| MList (l : list candidate)
| MPair (symbol1 symbol2 : list candidate).

(** The dict built by [process_prompt] when no exception escapes. *)
Record parsed := Parsed {
  action : option string;
  parameters : gmap string pyval;
  matches : matches_t;
  query_type : option string;
  original_prompt : string
}.

(** What [process_prompt] returns: the parsed dict, or the dict of the
    [except] branch, which has the keys [action] (None), [error] and
    [original_prompt] only. *)
Inductive prompt_result :=
| Success (p : parsed)
| Failure (error : string) (prompt : string).

(** [result.get('query_type')] *)
Definition result_query_type (r : prompt_result) : option string :=
  match r with Success p => query_type p | Failure _ _ => None end.

(** [_calculate_date_range], reading the clock as [now]. *)
Definition unit_mapping (u : string) : option (Z -> result Z) :=
  if String.eqb u "day" then Some Datetime.timedelta_days
  else if String.eqb u "week" then Some Datetime.timedelta_weeks
  else if String.eqb u "month" then Some (fun x => Datetime.timedelta_days (x * 30))
  else if String.eqb u "year" then Some (fun x => Datetime.timedelta_days (x * 365))
  else None.

Definition _calculate_date_range (now : Z) (duration : Z) (unit : string) : result Z :=
  let today := now in
  match unit_mapping (lower unit) with
  | Some f => delta ← f duration; Datetime.sub today delta
  | None => Raise (Exn KeyError ("'" +:+ lower unit +:+ "'"))
  end.

(** The same with the unit as captured: [None.lower()] raises. *)
Definition date_range_of_group (now : Z) (duration : Z) (unit : option string) : result Z :=
  match unit with
  | Some u => _calculate_date_range now duration u
  | None => Raise (Exn AttributeError "'NoneType' object has no attribute 'lower'")
  end.

Definition group_val (g : option string) : pyval :=
  match g with Some s => PStr s | None => PNone end.

(** [a, b, c = match.groups()] and [a, b = match.groups()] *)
Definition unpack3 (m : Re.groups) : result (option string * option string * option string) :=
  match m with
  | [a; b; c] => Ok (a, b, c)
  | _ => unpack_error 3 m
  end.

Definition unpack2 (m : Re.groups) : result (option string * option string) :=
  match m with
  | [a; b] => Ok (a, b)
  | _ => unpack_error 2 m
  end.

Definition _extract_basic_parameters (now : Z) (m : Re.groups) (query_type : string)
    : result (gmap string pyval) :=
  if str_in query_type ["historical"; "price_movement"] then
    '(duration, unit, symbol) ← unpack3 m;
    d ← int_of_group duration;
    s ← strip_group symbol;
    _ ← int_of_group duration;
    from_date ← date_range_of_group now d unit;
    Ok (list_to_map [("duration", PInt d); ("unit", group_val unit);
                     ("symbol", PStr s); ("from_date", PDate from_date)])
  else if String.eqb query_type "top_performers" then
    '(count, duration, unit) ← unpack3 m;
    c ← int_of_group count;
    d ← int_of_group duration;
    from_date ← date_range_of_group now d unit;
    Ok (list_to_map [("count", PInt c); ("duration", PInt d);
                     ("unit", group_val unit); ("from_date", PDate from_date)])
  else
    symbol ← Re.group m 1;
    let sym := match symbol with
               | Some s => if String.eqb s "" then PNone else PStr (strip s)
               | None => PNone
               end in
    from_date ← _calculate_date_range now 30 "day";
    Ok (list_to_map [("symbol", sym); ("duration", PInt 30);
                     ("unit", PStr "day"); ("from_date", PDate from_date)]).

Section WithMapper.

(** The outcome of [self.instrument_mapper.get_all_instruments()]: the
    list of instrument dicts, or the exception of the call. *)
Variable get_all_instruments : result (list (gmap string jval)).

(** The condition of the loop body; [or] does not evaluate its second
    operand when the first holds. *)
Definition instrument_matches (query : string) (i : gmap string jval) : result bool :=
  ts ← getitem i "tradingsymbol";
  in_symbol ← str_in_val query ts;
  if in_symbol : bool then Ok true
  else
    cn ← upper_val (default (JStr "") (i !! "company_name"));
    Ok (contains query cn).

Definition to_candidate (i : gmap string jval) : result candidate :=
  sym ← getitem i "tradingsymbol";
  nm ← (match i !! "company_name" with Some v => Ok v | None => getitem i "tradingsymbol" end);
  ex ← getitem i "exchange";
  ty ← getitem i "instrument_type";
  Ok (Candidate sym nm ex ty (default JNull (i !! "instrument_token"))).

Fixpoint collect (query : string) (insts : list (gmap string jval)) : result (list candidate) :=
  match insts with
  | [] => Ok []
  | i :: rest =>
      b ← instrument_matches query i;
      if b : bool then
        c ← to_candidate i;
        cs ← collect query rest;
        Ok (c :: cs)
      else collect query rest
  end.

(** The [try] block of [find_matching_instruments]. *)
Definition find_matching_body (query : pyval) : result (list candidate) :=
  q ← (match query with
       | PStr s => Ok (upper (strip s))
       | v => Raise (Exn AttributeError
                       ("'" +:+ type_name v +:+ "' object has no attribute 'strip'"))
       end);
  insts ← get_all_instruments;
  collect q insts.

Definition find_matching_instruments (query : pyval) : list candidate :=
  match find_matching_body query with
  | Ok l => l
  | Raise _ => []
  end.

(** Lines 74-132: the parameters (and, for a comparison, the matches) of
    the rule that matched. *)
Definition extract (now : Z) (query_type : string) (m : Re.groups)
    : result (gmap string pyval * matches_t) :=
  if String.eqb query_type "moving_averages" then
    g1 ← Re.group m 1;
    let period := match g1 with
                  | Some s => if String.eqb s "" then "50" else s
                  | None => "50"
                  end in
    symbol ← Re.group m 2;
    s ← strip_group symbol;
    p ← int_of_str period;
    from_date ← _calculate_date_range now p "day";
    Ok (list_to_map [("symbol", PStr s); ("period", PInt p);
                     ("from_date", PDate from_date)], MList [])
  else if String.eqb query_type "comparison" then
    '(symbol1, symbol2) ← unpack2 m;
    s1 ← strip_group symbol1;
    s2 ← strip_group symbol2;
    Ok (list_to_map [("symbol1", PStr s1); ("symbol2", PStr s2);
                     ("duration", PInt 30); ("unit", PStr "day")],
        MPair (find_matching_instruments (group_val symbol1))
              (find_matching_instruments (group_val symbol2)))
  else if String.eqb query_type "sector_performance" then
    sector ← Re.group m 1;
    s ← strip_group sector;
    Ok (list_to_map [("sector", PStr s); ("duration", PInt 30);
                     ("unit", PStr "day")], MList [])
  else if String.eqb query_type "support_resistance" then
    symbol ← Re.group m 1;
    s ← strip_group symbol;
    Ok (list_to_map [("symbol", PStr s); ("duration", PInt 90);
                     ("unit", PStr "day")], MList [])
  else if String.eqb query_type "rsi_analysis" then
    symbol ← Re.group m 1;
    s ← strip_group symbol;
    Ok (list_to_map [("symbol", PStr s); ("period", PInt 14);
                     ("duration", PInt 30); ("unit", PStr "day")], MList [])
  else if String.eqb query_type "volume_analysis" then
    symbol ← Re.group m 1;
    s ← strip_group symbol;
    Ok (list_to_map [("symbol", PStr s); ("duration", PInt 30);
                     ("unit", PStr "day")], MList [])
  else
    ps ← _extract_basic_parameters now m query_type;
    Ok (ps, MList []).

(** Lines 134-142: look the symbol up and, on exactly one candidate,
    rewrite it. *)
Definition resolve_symbol (ps : gmap string pyval) (ms : matches_t)
    : gmap string pyval * matches_t :=
  match ps !! "symbol" with
  | Some sym =>
      if truthy sym then
        let found := find_matching_instruments sym in
        match found with
        | [c] =>
            (<["instrument_token" := of_json (c_token c)]>
               (<["symbol" := of_json (c_symbol c)]> ps), MList found)
        | _ => (ps, MList found)
        end
      else (ps, ms)
  | None => (ps, ms)
  end.

(** The body of [if match:], up to the [break]. *)
Definition commit (now : Z) (prompt query_type : string) (m : Re.groups) : result parsed :=
  '(ps, ms) ← extract now query_type m;
  let '(ps', ms') := resolve_symbol ps ms in
  Ok (Parsed (Some ("get_" +:+ query_type)) ps' ms' (Some query_type) prompt).

(** The [for] loop over [self.patterns.items()].  Besides the outcome it
    returns the names of the rules that [re.search] was called on. *)
Fixpoint scan (now : Z) (prompt : string) (pats : list (string * Re.pattern))
    : list string * result parsed :=
  match pats with
  | [] => ([], Ok (Parsed None ∅ (MList []) None prompt))
  | (qt, pat) :: rest =>
      match Re.search pat prompt with
      | Some m => ([qt], commit now prompt qt m)
      | None => let '(tried, r) := scan now prompt rest in (qt :: tried, r)
      end
  end.

Definition process_prompt (now : Z) (prompt : string) : prompt_result :=
  match snd (scan now prompt patterns) with
  | Ok p => Success p
  | Raise e => Failure (exn_str e) prompt
  end.

(** The rules tried by [process_prompt]. *)
Definition rules_tried (now : Z) (prompt : string) : list string :=
  fst (scan now prompt patterns).

End WithMapper.

End PromptProcessor.

(* ===================================================================== *)
(** ** [utils/instrument_mapper.py] *)
(* ===================================================================== *)

Module InstrumentMapper.
Import Py.

(** The mapper object, with the field the lookups read.  [__init__] sets
    [_instruments_cache] to the empty list; [initialize] replaces it. *)
Record mapper := Mapper { _instruments_cache : list (gmap string jval) }.

Definition new : mapper := Mapper [].

(** The class defines no method [get_all_instruments]: looking the
    attribute up on an instance raises. *)
Definition get_all_instruments (self : mapper) : result (list (gmap string jval)) :=
  Raise (Exn AttributeError "'InstrumentMapper' object has no attribute 'get_all_instruments'").

(** [d.get(k)] *)
Definition get (d : gmap string jval) (k : string) : jval := default JNull (d !! k).

Definition jeq (a b : jval) : bool := bool_decide (a = b).

(** An entry of the list returned by [smart_search]. *)
Record search_match := SearchMatch {
  instrument : gmap string jval;
  score : Q;
  display_text : string
}.

Definition _format_instrument_display (i : gmap string jval) : string :=
  "Symbol: " +:+ jstr (get i "trading_symbol") +:+ " | " +:+
  "Name: " +:+ jstr (get i "name") +:+ " | " +:+
  "Type: " +:+ jstr (get i "instrument_type") +:+ " | " +:+
  "Exchange: " +:+ jstr (get i "exchange").

Definition Qgtb (a b : Q) : bool := negb (Qle_bool a b).

(** [list.sort(key=score, reverse=True)]: stable, descending. *)
Fixpoint insert_desc (x : search_match) (l : list search_match) : list search_match :=
  match l with
  | [] => [x]
  | y :: l' => if Qgtb (score y) (score x) then y :: insert_desc x l' else x :: y :: l'
  end.

Definition sort_desc (l : list search_match) : list search_match :=
  foldr insert_desc [] l.

Section WithFuzz.

(** [fuzz.partial_ratio] of the fuzzywuzzy package, an integer in 0..100. *)
Variable partial_ratio : string -> string -> Z.

Definition instrument_types : list (string * string) :=
  [("EQ", "EQUITY"); ("FUT", "FUTURES"); ("OPT", "OPTIONS"); ("IDX", "INDEX")].

Definition exchanges : list string := ["NSE"; "BSE"].

(** The score of one instrument: the body of the loop of [smart_search]
    down to the threshold test. *)
Definition score_of (query : string) (parts : list string) (i : gmap string jval) : result Q :=
  let score := 0%Q in
  let score :=
    if jeq (get i "trading_symbol") (JStr query) then (score + 100)%Q
    else if existsb (fun part => jeq (JStr part) (get i "trading_symbol")) parts
         then (score + 80)%Q else score in
  name ← upper_val (default (JStr "") (i !! "name"));
  let name_score := partial_ratio query name in
  let score := (score + inject_Z name_score * (1 # 2))%Q in
  let score :=
    if jeq (get i "short_name") (JStr query) then (score + 90)%Q
    else if existsb (fun part => jeq (JStr part) (get i "short_name")) parts
         then (score + 70)%Q else score in
  let score :=
    if startswith "IN" query && (String.length query =? 12)%nat
    then (if jeq (get i "isin") (JStr query) then (score + 100)%Q else score)
    else score in
  let score :=
    fold_left (fun score '(short_type, full_type) =>
      if str_in short_type parts || str_in full_type parts
      then (if existsb (jeq (get i "instrument_type")) [JStr short_type; JStr full_type]
            then (score + 50)%Q else score)
      else score) instrument_types score in
  let score :=
    fold_left (fun score exchange =>
      if str_in exchange parts && jeq (get i "exchange") (JStr exchange)
      then (score + 50)%Q else score) exchanges score in
  Ok score.

Fixpoint scored (query : string) (parts : list string) (insts : list (gmap string jval))
    : result (list search_match) :=
  match insts with
  | [] => Ok []
  | i :: rest =>
      score ← score_of query parts i;
      ms ← scored query parts rest;
      if Qgtb score 50
      then Ok (SearchMatch i score (_format_instrument_display i) :: ms)
      else Ok ms
  end.

Definition smart_search (self : mapper) (query : string) (limit : Z)
    : result (list search_match) :=
  let query := strip (upper query) in
  let parts := split query in
  ms ← scored query parts (_instruments_cache self);
  Ok (slice_to limit (sort_desc ms)).

End WithFuzz.

Definition get_instrument_by_token (self : mapper) (token : jval) : option (gmap string jval) :=
  List.find (fun i => jeq (get i "token") token) (_instruments_cache self).

Definition get_instruments_by_type (self : mapper) (instrument_type : jval)
    : list (gmap string jval) :=
  List.filter (fun i => jeq (get i "instrument_type") instrument_type) (_instruments_cache self).

Definition get_instruments_by_exchange (self : mapper) (exchange : jval)
    : list (gmap string jval) :=
  List.filter (fun i => jeq (get i "exchange") exchange) (_instruments_cache self).

Definition get_instrument_by_isin (self : mapper) (isin : jval) : option (gmap string jval) :=
  List.find (fun i => jeq (get i "isin") isin) (_instruments_cache self).

End InstrumentMapper.

(* ===================================================================== *)
(** ** [market/instrument_mapper.py] *)
(* ===================================================================== *)

Module MarketInstrumentMapper.
Import Py.

(** [self.df], the frame that [pd.DataFrame(data)] builds from the master
    records, for string-valued records: one map per row, an absent key
    being a missing cell.  A failed load leaves [pd.DataFrame()], the frame
    without rows. *)
Record mapper := Mapper { df : list (gmap string string) }.

Definition unloaded : mapper := Mapper [].

Definition has_column (c : string) (frame : list (gmap string string)) : bool :=
  existsb (fun row => bool_decide (is_Some (row !! c))) frame.

(** [df.empty]: no rows, or no columns. *)
Definition empty (frame : list (gmap string string)) : bool :=
  forallb (fun row => bool_decide (row = ∅)) frame.

(** [df[c]] *)
Definition column (c : string) (frame : list (gmap string string)) : result unit :=
  if has_column c frame then Ok tt else Raise (Exn KeyError ("'" +:+ c +:+ "'")).

(** [str(row[c])] for a column of the frame; a missing cell prints as nan. *)
Definition cell (c : string) (row : gmap string string) : string :=
  default "nan" (row !! c).

Definition search_body (self : mapper) (segment trading_symbol : string) : result (option string) :=
  _ ← column "segment" (df self);
  _ ← column "trading_symbol" (df self);
  let filtered_df :=
    List.filter (fun row =>
      match row !! "segment", row !! "trading_symbol" with
      | Some s, Some t =>
          String.eqb (upper s) (upper segment) &&
          String.eqb (upper (strip t)) (upper (strip trading_symbol))
      | _, _ => false
      end) (df self) in
  match filtered_df with
  | instrument :: _ =>
      _ ← column "isin" (df self);
      Ok (Some (cell "segment" instrument +:+ "|" +:+ cell "isin" instrument))
  | [] => Ok None
  end.

Definition search_by_trading_symbol (self : mapper) (segment trading_symbol : string)
    : option string :=
  if empty (df self) then None
  else match search_body self segment trading_symbol with
       | Ok r => r
       | Raise _ => None
       end.

(** [s.split('|')] *)
Fixpoint split_bar_aux (cur : string) (s : string) : list string :=
  match s with
  | EmptyString => [cur]
  | String c s' =>
      if Ascii.eqb c "|" then cur :: split_bar_aux "" s'
      else split_bar_aux (cur +:+ String c "") s'
  end.

Definition get_instrument_details (self : mapper) (instrument_key : string)
    : result (option (gmap string string)) :=
  if empty (df self) then Ok None
  else
    '(segment, isin) ← (match split_bar_aux "" instrument_key with
                        | [a; b] => Ok (a, b)
                        | l => unpack_error 2 (map Some l)
                        end);
    _ ← column "segment" (df self);
    _ ← column "isin" (df self);
    Ok (List.find (fun row => bool_decide (row !! "segment" = Some segment) &&
                              bool_decide (row !! "isin" = Some isin)) (df self)).

End MarketInstrumentMapper.

(* ===================================================================== *)
(** ** [processors/stock_processor.py]: support and resistance *)
(* ===================================================================== *)

Module StockProcessor.
Import Py.

(** A row of the OHLCV frame.  Prices are rationals: the function only
    compares them, so no rounding is involved. *)
Record bar := Bar {
  timestamp : Z;
  open : Q;
  high : Q;
  low : Q;
  close : Q;
  volume : Z
}.

(** A sequence object with its run-time type: [Series.unique()] gives a
    numpy array, the built-in [sorted] gives a list, and slicing keeps the
    type. *)
Inductive seq_obj := NdArray (l : list Q) | PyList (l : list Q).

Definition elements (o : seq_obj) : list Q :=
  match o with NdArray l | PyList l => l end.

(** [o.tolist()]: a method of numpy arrays, not of lists. *)
Definition tolist (o : seq_obj) : result (list Q) :=
  match o with
  | NdArray l => Ok l
  | PyList _ => Raise (Exn AttributeError "'list' object has no attribute 'tolist'")
  end.

Fixpoint insert_asc (x : Q) (l : list Q) : list Q :=
  match l with
  | [] => [x]
  | y :: l' => if Qle_bool x y then x :: y :: l' else y :: insert_asc x l'
  end.

(** [sorted(o)] *)
Definition sorted (o : seq_obj) : seq_obj := PyList (foldr insert_asc [] (elements o)).

(** [o[-5:]] and [o[:5]] *)
Definition last5 (o : seq_obj) : seq_obj :=
  match o with
  | NdArray l => NdArray (slice_last 5 l)
  | PyList l => PyList (slice_last 5 l)
  end.

Definition first5 (o : seq_obj) : seq_obj :=
  match o with
  | NdArray l => NdArray (slice_to 5 l)
  | PyList l => PyList (slice_to 5 l)
  end.

(** [Series.unique()]: the distinct values in order of first appearance. *)
Fixpoint unique_aux (seen : list Q) (l : list Q) : list Q :=
  match l with
  | [] => []
  | x :: r =>
      if existsb (Qeq_bool x) seen then unique_aux seen r
      else x :: unique_aux (x :: seen) r
  end.

Definition unique (l : list Q) : seq_obj := NdArray (unique_aux [] l).

Definition qmax (a b : Q) : Q := if Qle_bool a b then b else a.
Definition qmin (a b : Q) : Q := if Qle_bool a b then a else b.

Definition aggregate (f : Q -> Q -> Q) (w : list Q) : option Q :=
  match w with
  | [] => None
  | x :: r => Some (fold_left f r x)
  end.

(** [xs.rolling(window=window, center=True)] aggregated by [f]: the window
    of row [i] ends (exclusively) at [i + 1 + (window - 1) // 2], starts
    [window] rows earlier, and is clipped to the series; with fewer than
    [window] rows in it the value is missing. *)
Definition rolling_center (window : nat) (f : Q -> Q -> Q) (xs : list Q) : list (option Q) :=
  let n := length xs in
  let offset := ((window - 1) / 2)%nat in
  map (fun i =>
         let stop := (i + 1 + offset)%nat in
         let start := (stop - window)%nat in
         let w := take (Nat.min stop n - start)%nat (drop start xs) in
         if (length w <? window)%nat then None else aggregate f w)
      (seq 0 n).

(** [df[df[col] == df[local]][col]] *)
Definition where_equal (xs : list Q) (local : list (option Q)) : list Q :=
  omap (fun '(x, l) =>
          match l with
          | Some v => if Qeq_bool x v then Some x else None
          | None => None
          end) (zip xs local).

Record levels := Levels { support : list Q; resistance : list Q }.

(** Lines 172-180: the two sequences held by [resistance_levels] and
    [support_levels] when the [return] statement is reached. *)
Definition resistance_levels (data : list bar) (window : nat) : seq_obj :=
  let highs := map high data in
  last5 (sorted (unique (where_equal highs (rolling_center window qmax highs)))).

Definition support_levels (data : list bar) (window : nat) : seq_obj :=
  let lows := map low data in
  first5 (sorted (unique (where_equal lows (rolling_center window qmin lows)))).

Definition find_support_resistance (data : list bar) (window : nat) : levels :=
  match (s ← tolist (support_levels data window);
         r ← tolist (resistance_levels data window);
         Ok (Levels s r)) with
  | Ok l => l
  | Raise _ => Levels [] []
  end.

End StockProcessor.

(* ===================================================================== *)
(** ** [processors/analysis_processor.py] *)
(* ===================================================================== *)

Module AnalysisProcessor.
Import Py.

(** What a call does to the outside, in order: a call of
    [stock_processor.get_stock_data], the entry into a handler, and the
    start of the indicator computations that follow a successful fetch. *)
Inductive event :=
| Fetch (symbol from_date : pyval)
| Invoke (handler : string)
| Analyse (handler : string).

Section WithCollaborators.

(** The contents of a [data] entry. *)
Variable payload : Type.

(** The dict [{success, data | error}] returned by [get_stock_data] and
    by every handler. *)
Record response := Response {
  success : bool;
  data : option payload;
  error : option string
}.

(** [StockProcessor.get_stock_data]: cache and HTTP calls inside a
    [try/except] that turns every exception into a failure dict. *)
Variable get_stock_data : pyval -> pyval -> response.

(** The pandas and numpy computations of a handler after a successful
    fetch, assembling its [data]; they may raise. *)
Variable analysis : string -> list response -> gmap string pyval -> result payload.

(** Computations that log events and may raise. *)
Definition M (A : Type) : Type := list event -> result A * list event.

#[local] Instance M_ret : MRet M := fun _ a tr => (Ok a, tr).
#[local] Instance M_bind : MBind M := fun _ _ f m tr =>
  match m tr with
  | (Ok a, tr') => f a tr'
  | (Raise e, tr') => (Raise e, tr')
  end.

Definition lift {A} (r : result A) : M A := fun tr => (r, tr).
Definition emit (e : event) : M unit := fun tr => (Ok tt, (tr ++ [e])%list).

Definition failure (msg : string) : response := Response false None (Some msg).

(** [try: ... except Exception as e: return {'success': False, 'error': str(e)}] *)
Definition try_except (m : M response) : M response := fun tr =>
  match m tr with
  | (Ok r, tr') => (Ok r, tr')
  | (Raise e, tr') => (Ok (failure (exn_str e)), tr')
  end.

Definition fetch (symbol from_date : pyval) : M response :=
  _ ← emit (Fetch symbol from_date);
  mret (get_stock_data symbol from_date).

Definition analyse (handler : string) (inputs : list response) (params : gmap string pyval)
    : M payload :=
  _ ← emit (Analyse handler);
  lift (analysis handler inputs params).

(** The shape shared by the handlers of one symbol: fetch, give the
    failure dict back as it is, otherwise compute. *)
Definition single_symbol (handler : string) (params : gmap string pyval) : M response :=
  try_except (
    symbol ← lift (getitem params "symbol");
    from_date ← lift (getitem params "from_date");
    stock_data ← fetch symbol from_date;
    if negb (success stock_data) then mret stock_data
    else
      d ← analyse handler [stock_data] params;
      mret (Response true (Some d) None)).

Definition _analyze_price_movement := single_symbol "_analyze_price_movement".
Definition _analyze_market_sentiment := single_symbol "_analyze_market_sentiment".
Definition _analyze_volume := single_symbol "_analyze_volume".
Definition _analyze_support_resistance := single_symbol "_analyze_support_resistance".
Definition _analyze_moving_averages := single_symbol "_analyze_moving_averages".
Definition _analyze_rsi := single_symbol "_analyze_rsi".
Definition _get_stock_details := single_symbol "_get_stock_details".

(** [_get_sector_stocks] returns the empty list. *)
Definition _get_sector_stocks (sector : pyval) : list pyval := [].

Fixpoint fetch_sector (symbols : list pyval) (params : gmap string pyval) : M (list response) :=
  match symbols with
  | [] => mret []
  | symbol :: rest =>
      from_date ← lift (getitem params "from_date");
      d ← fetch symbol from_date;
      ds ← fetch_sector rest params;
      mret (if success d then d :: ds else ds)
  end.

Definition _analyze_sector (params : gmap string pyval) : M response :=
  try_except (
    sector ← lift (getitem params "sector");
    sector_data ← fetch_sector (_get_sector_stocks sector) params;
    d ← analyse "_analyze_sector" sector_data params;
    mret (Response true (Some d) None)).

Definition _analyze_comparison (params : gmap string pyval) : M response :=
  try_except (
    symbol1 ← lift (getitem params "symbol1");
    from_date ← lift (getitem params "from_date");
    stock1_data ← fetch symbol1 from_date;
    symbol2 ← lift (getitem params "symbol2");
    from_date ← lift (getitem params "from_date");
    stock2_data ← fetch symbol2 from_date;
    if negb (success stock1_data) || negb (success stock2_data)
    then mret (failure "Failed to fetch comparison data")
    else
      d ← analyse "_analyze_comparison" [stock1_data; stock2_data] params;
      mret (Response true (Some d) None)).

(** The methods that the class defines, by name. *)
Definition methods : list (string * (gmap string pyval -> M response)) :=
  [ ("_analyze_price_movement", _analyze_price_movement);
    ("_analyze_market_sentiment", _analyze_market_sentiment);
    ("_analyze_volume", _analyze_volume);
    ("_analyze_sector", _analyze_sector);
    ("_analyze_comparison", _analyze_comparison);
    ("_analyze_support_resistance", _analyze_support_resistance);
    ("_analyze_moving_averages", _analyze_moving_averages);
    ("_analyze_rsi", _analyze_rsi);
    ("_get_stock_details", _get_stock_details) ].

(** [self.<name>] *)
Definition getattr (name : string) : result (gmap string pyval -> M response) :=
  match assoc name methods with
  | Some h => Ok h
  | None => Raise (Exn AttributeError
                     ("'AnalysisProcessor' object has no attribute '" +:+ name +:+ "'"))
  end.

(** The entries of the dict literal [analysis_methods], in source order:
    the key and the attribute it is bound to. *)
Definition analysis_method_names : list (string * string) :=
  [ ("historical", "_analyze_historical_data");
    ("top_performers", "_analyze_top_performers");
    ("trend_analysis", "_analyze_trend");
    ("price_movement", "_analyze_price_movement");
    ("market_sentiment", "_analyze_market_sentiment");
    ("volume_analysis", "_analyze_volume");
    ("sector_performance", "_analyze_sector");
    ("comparison", "_analyze_comparison");
    ("support_resistance", "_analyze_support_resistance");
    ("moving_averages", "_analyze_moving_averages");
    ("rsi_analysis", "_analyze_rsi");
    ("stock_details", "_get_stock_details") ].

(** Evaluating the dict literal looks every attribute up, in order. *)
Fixpoint build_methods (names : list (string * string))
    : result (list (string * (gmap string pyval -> M response))) :=
  match names with
  | [] => Ok []
  | (key, attr) :: rest =>
      h ← getattr attr;
      hs ← build_methods rest;
      Ok ((key, h) :: hs)
  end.

(** The request dict: [request.get('query_type')] and, when the key is
    there, [request['parameters']]. *)
Record request := Request {
  r_query_type : option string;
  r_parameters : option (gmap string pyval)
}.

(** [f"{query_type}"] *)
Definition show_query_type (q : option string) : string := default "None" q.

Definition process_analysis_request (req : request) : M response :=
  try_except (
    let query_type := r_query_type req in
    analysis_methods ← lift (build_methods analysis_method_names);
    match query_type ≫= (fun q => assoc q analysis_methods) with
    | Some handler =>
        params ← lift (match r_parameters req with
                       | Some ps => Ok ps
                       | None => Raise (Exn KeyError "'parameters'")
                       end);
        _ ← emit (Invoke (show_query_type query_type));
        handler params
    | None =>
        mret (failure ("Unsupported analysis type: " +:+ show_query_type query_type))
    end).

End WithCollaborators.

(** The request that [main] passes on: the dict of [process_prompt]. *)
Definition request_of (r : PromptProcessor.prompt_result) : request :=
  match r with
  | PromptProcessor.Success p =>
      Request (PromptProcessor.query_type p) (Some (PromptProcessor.parameters p))
  | PromptProcessor.Failure _ _ => Request None None
  end.

End AnalysisProcessor.

(* ===================================================================== *)
(** ** Vocabulary of the statements *)
(* ===================================================================== *)

Module Spec.
Import Py.

(** [sub] occurs in [s] as a substring. *)
Definition substring_of (sub s : string) : Prop :=
  exists a b, s = a +:+ sub +:+ b.

(** The groups (as list positions) that every match of [r] has set. *)
Fixpoint must_set (r : Re.regex) : list nat :=
  match r with
  | Re.Eps | Re.Lit _ | Re.Cls _ | Re.Opt _ | Re.Star _ => []
  | Re.Cat r1 r2 => must_set r1 ++ must_set r2
  | Re.Alt r1 r2 =>
      List.filter (fun i => existsb (Nat.eqb i) (must_set r2)) (must_set r1)
  | Re.Plus r1 => must_set r1
  | Re.Grp n r1 => pred n :: must_set r1
  end.

(** A group list of [n] entries in which the positions of [D] are set. *)
Definition groups_inv (n : nat) (D : list nat) (gs : Re.groups) : Prop :=
  length gs = n /\ forall i, In i D -> (i < n)%nat -> exists s, gs !! i = Some (Some s).

(** The first rule of [pats], in order, whose pattern matches [text],
    with the groups of that match. *)
Fixpoint first_match_in (pats : list (string * Re.pattern)) (text : string)
    : option (string * Re.groups) :=
  match pats with
  | [] => None
  | (name, pat) :: rest =>
      match Re.search pat text with
      | Some m => Some (name, m)
      | None => first_match_in rest text
      end
  end.

Definition first_match (text : string) : option (string * Re.groups) :=
  first_match_in PromptProcessor.patterns text.

(** The rule does not match [text]. *)
Definition no_match (text : string) (rule : string * Re.pattern) : Prop :=
  Re.search (snd rule) text = None.

(** The dict that [process_prompt] returns for the outcome of its [try]
    block. *)
Definition outcome (r : result PromptProcessor.parsed) (prompt : string)
    : PromptProcessor.prompt_result :=
  match r with
  | Ok p => PromptProcessor.Success p
  | Raise e => PromptProcessor.Failure (exn_str e) prompt
  end.

(** The number of groups of the rule named [qt] and the groups that each
    of its matches sets. *)
Definition rule_groups (qt : string) : option (nat * list nat) :=
  (fun p => (Re.ngroups p, must_set (Re.body p))) <$> assoc qt PromptProcessor.patterns.


(** The string held under a key, or the empty string. *)
Definition text_of (v : option jval) : string :=
  match v with Some (JStr s) => s | _ => "" end.

(** The trading symbol, or the upper-cased company name, of [i] contains
    [q] as a substring. *)
Definition mentions (q : string) (i : gmap string jval) : Prop :=
  substring_of q (text_of (i !! "tradingsymbol")) \/
  substring_of q (upper (text_of (i !! "company_name"))).

Definition mentions_b (q : string) (i : gmap string jval) : bool :=
  contains q (text_of (i !! "tradingsymbol")) ||
  contains q (upper (text_of (i !! "company_name"))).

(** An instrument dict with the keys that [find_matching_instruments]
    reads: a string trading symbol, a company name that is absent or a
    string, an exchange and an instrument type. *)
Definition well_formed (i : gmap string jval) : Prop :=
  (exists ts, i !! "tradingsymbol" = Some (JStr ts)) /\
  (i !! "company_name" = None \/ exists n, i !! "company_name" = Some (JStr n)) /\
  is_Some (i !! "exchange") /\ is_Some (i !! "instrument_type").

(** The candidate entry built from an instrument dict. *)
Definition candidate_of (i : gmap string jval) : PromptProcessor.candidate :=
  PromptProcessor.Candidate
    (default JNull (i !! "tradingsymbol"))
    (default (default JNull (i !! "tradingsymbol")) (i !! "company_name"))
    (default JNull (i !! "exchange"))
    (default JNull (i !! "instrument_type"))
    (default JNull (i !! "instrument_token")).

(** The handlers of the dispatcher that fetch the data of one symbol. *)
Definition single_symbol_handlers (payload : Type)
    (get_stock_data : pyval -> pyval -> AnalysisProcessor.response payload)
    (analysis : string -> list (AnalysisProcessor.response payload) ->
                gmap string pyval -> result payload)
    : list (gmap string pyval -> AnalysisProcessor.M (AnalysisProcessor.response payload)) :=
  [ AnalysisProcessor._analyze_price_movement payload get_stock_data analysis;
    AnalysisProcessor._analyze_market_sentiment payload get_stock_data analysis;
    AnalysisProcessor._analyze_volume payload get_stock_data analysis;
    AnalysisProcessor._analyze_support_resistance payload get_stock_data analysis;
    AnalysisProcessor._analyze_moving_averages payload get_stock_data analysis;
    AnalysisProcessor._analyze_rsi payload get_stock_data analysis;
    AnalysisProcessor._get_stock_details payload get_stock_data analysis ].

(** The unit table of the specification, in days. *)
Definition unit_days (unit : string) : option Z :=
  if String.eqb unit "day" then Some 1
  else if String.eqb unit "week" then Some 7
  else if String.eqb unit "month" then Some 30
  else if String.eqb unit "year" then Some 365
  else None.

End Spec.

(** Sample data for the worked instances below. *)
Module Samples.
Import Py.

(** 2024-06-15 10:30:00 *)
Definition now : Z := Eval vm_compute in Datetime.mk 2024 6 15 10 30 0.

(** A directory as [find_matching_instruments] reads it. *)
Definition listing : list (gmap string jval) :=
  [ list_to_map [("tradingsymbol", JStr "INFY"); ("company_name", JStr "Infosys Limited");
                 ("exchange", JStr "NSE"); ("instrument_type", JStr "EQ");
                 ("instrument_token", JInt 1594)];
    list_to_map [("tradingsymbol", JStr "TCS"); ("company_name", JStr "Tata Consultancy Services");
                 ("exchange", JStr "NSE"); ("instrument_type", JStr "EQ")];
    list_to_map [("tradingsymbol", JStr "TATAMOTORS"); ("company_name", JStr "Tata Motors");
                 ("exchange", JStr "NSE"); ("instrument_type", JStr "EQ");
                 ("instrument_token", JInt 3456)] ].

(** A cache as [smart_search] reads it. *)
Definition cache : list (gmap string jval) :=
  [ list_to_map [("trading_symbol", JStr "INFY"); ("name", JStr "Infosys Limited");
                 ("exchange", JStr "NSE"); ("instrument_type", JStr "EQ");
                 ("short_name", JStr "INFY"); ("isin", JStr "INE009A01021")];
    list_to_map [("trading_symbol", JStr "TCS"); ("name", JStr "Tata Consultancy Services");
                 ("exchange", JStr "NSE"); ("instrument_type", JStr "EQ");
                 ("short_name", JStr "TCS")] ].

(** A stand-in for [fuzz.partial_ratio]: 100 when one string contains the
    other, 0 otherwise. *)
Definition ratio (a b : string) : Z :=
  if contains a b || contains b a then 100 else 0.

(** Twenty-five bars whose highs climb to 13 at bar 12 and fall again,
    while the lows fall to 0 at bar 12 and climb again. *)
Definition bars : list StockProcessor.bar :=
  map (fun i => let d := Z.abs (Z.of_nat i - 12) in
                StockProcessor.Bar (Z.of_nat i) 0 (inject_Z (13 - d)) (inject_Z d) 0 0)
      (seq 0 25).

(** A market data client whose every fetch fails with the error "boom". *)
Definition failing_fetch (symbol from_date : pyval) : AnalysisProcessor.response unit :=
  AnalysisProcessor.Response unit false None (Some "boom").

Definition no_analysis (h : string) (inputs : list (AnalysisProcessor.response unit))
    (params : gmap string pyval) : result unit := Ok tt.

Definition rsi_params : gmap string pyval :=
  list_to_map [("symbol", PStr "TCS"); ("from_date", PDate now);
               ("duration", PInt 30); ("unit", PStr "day")].

Definition comparison_params : gmap string pyval :=
  list_to_map [("symbol1", PStr "HDFC"); ("symbol2", PStr "ICICI");
               ("from_date", PDate now);
               ("duration", PInt 30); ("unit", PStr "day")].

End Samples.

(* ===================================================================== *)
(** ** What the groups of a match hold *)
(* ===================================================================== *)

Module Captures.
Import Py Re.

#[global] Instance citem_eq_dec : EqDecision citem.
Proof. solve_decision. Defined.

(** Every character of [s] satisfies [P]. *)
Fixpoint string_forall (P : ascii -> bool) (s : string) : bool :=
  match s with
  | EmptyString => true
  | String c s' => P c && string_forall P s'
  end.

(** The groups of [r] whose body is a repeated bracket class, such as
    [(\d+)] and [([A-Za-z\s]+)], by list position, with the class. *)
Fixpoint class_groups (r : regex) : list (nat * list citem) :=
  match r with
  | Grp n (Plus (Cls items)) => [(pred n, items)]
  | Grp n r1 => class_groups r1
  | Cat r1 r2 | Alt r1 r2 => class_groups r1 ++ class_groups r2
  | Opt r1 | Star r1 | Plus r1 => class_groups r1
  | Eps | Lit _ | Cls _ => []
  end.

Definition class_of (T : list (nat * list citem)) (j : nat) : option (list citem) :=
  snd <$> List.find (fun p => Nat.eqb (fst p) j) T.

(** Every group of [r] listed in [T] is a repetition of the class that
    [T] gives it. *)
Fixpoint respects (T : list (nat * list citem)) (r : regex) : bool :=
  match r with
  | Grp n r1 =>
      match class_of T (pred n) with
      | None => respects T r1
      | Some items =>
          match r1 with
          | Plus (Cls items') => bool_decide (items' = items)
          | _ => false
          end
      end
  | Cat r1 r2 | Alt r1 r2 => respects T r1 && respects T r2
  | Opt r1 | Star r1 | Plus r1 => respects T r1
  | Eps | Lit _ | Cls _ => true
  end.

(** The groups listed in [T] that are set hold a non-empty text of
    characters of their class. *)
Definition captures_ok (ic : bool) (T : list (nat * list citem)) (gs : groups) : Prop :=
  forall j items w,
    class_of T j = Some items -> gs !! j = Some (Some w) ->
    w <> "" /\ string_forall (class_has ic items) w = true.

(** The flag and the class groups of the rule named [qt]. *)
Definition rule_classes (qt : string) : option (bool * list (nat * list citem)) :=
  (fun p => (ignorecase p, class_groups (body p))) <$> assoc qt PromptProcessor.patterns.

Definition is_letter (c : ascii) : bool := is_upper c || is_lower c.

End Captures.

(* ===================================================================== *)
(** ** [main.py]: the message handler *)
(* ===================================================================== *)

Module Main.
Import Py.

(** What the handler sends to the chat. *)
Inductive sent (payload : Type) :=
| Message (content : string)
| Chart (data : payload).
Arguments Message {payload} content.
Arguments Chart {payload} data.

Definition not_understood : string :=
  "❌ I couldn't understand your request. Please try rephrasing it.".
Definition no_instruments : string := "❌ No matching instruments found for ".
Definition processing : string := "🔄 Processing your request...".
Definition error_prefix : string := "❌ Error: ".
Definition no_data : string := "❌ No data available for analysis.".
Definition crash_prefix : string := "❌ An error occurred: ".

Section WithComponents.

Variable payload : Type.

(** The components built by [start]: the instrument mapper as the prompt
    processor sees it, and the collaborators of the analysis processor. *)
Variable get_all_instruments : result (list (gmap string jval)).
Variable get_stock_data : pyval -> pyval -> AnalysisProcessor.response payload.
Variable analysis :
  string -> list (AnalysisProcessor.response payload) -> gmap string pyval -> result payload.

(** What the handler reads off the data of a successful analysis: its
    truth value, whether it has the key chart_data, and the text of
    [format_analysis_result]. *)
Variable data_truthy : payload -> bool.
Variable has_chart_data : payload -> bool.
Variable format_analysis_result : payload -> string.

(** [str] of a datetime. *)
Variable str_datetime : Z -> string.

(** [f"{v}"] *)
Definition pystr (v : pyval) : string :=
  match v with
  | PNone => "None"
  | PStr s => s
  | PInt n => pretty n
  | PDate t => str_datetime t
  end.

(** [not matches] for the matches of a parsed request: an empty list is
    false, the two-key dict of a comparison is true. *)
Definition matches_truthy (ms : PromptProcessor.matches_t) : bool :=
  match ms with
  | PromptProcessor.MList l => negb (bool_decide (l = []))
  | PromptProcessor.MPair _ _ => true
  end.

Definition action_truthy (a : option string) : bool :=
  match a with Some s => negb (String.eqb s "") | None => false end.

(** The part of [main] after a successful analysis. *)
Definition deliver (r : AnalysisProcessor.response payload) : list (sent payload) :=
  if negb (AnalysisProcessor.success payload r) then
    [Message (error_prefix +:+ default "Unknown error" (AnalysisProcessor.error payload r))]
  else
    match AnalysisProcessor.data payload r with
    | Some d =>
        if data_truthy d then
          (if has_chart_data d then [Chart d] else [])
          ++ [Message (format_analysis_result d)]
        else [Message no_data]
    | None => [Message no_data]
    end.

(** [main(message)]: what is sent, and what the analysis did. *)
Definition main (now : Z) (content : string)
    : list (sent payload) * list AnalysisProcessor.event :=
  let prompt_result := PromptProcessor.process_prompt get_all_instruments now content in
  match prompt_result with
  | PromptProcessor.Failure _ _ => ([Message not_understood], [])
  | PromptProcessor.Success p =>
      if negb (action_truthy (PromptProcessor.action p)) then ([Message not_understood], [])
      else
        let symbol := default PNone (PromptProcessor.parameters p !! "symbol") in
        if negb (matches_truthy (PromptProcessor.matches p)) && truthy symbol
        then ([Message (no_instruments +:+ pystr symbol)], [])
        else
          match AnalysisProcessor.process_analysis_request payload get_stock_data analysis
                  (AnalysisProcessor.request_of prompt_result) [] with
          | (Ok r, events) => (Message processing :: deliver r, events)
          | (Raise e, events) =>
              ([Message processing; Message (crash_prefix +:+ exn_str e)], events)
          end
  end.

End WithComponents.

(** The handler that the mapping of the dispatcher names for an intent:
    the attribute bound to the key, looked up among the methods of the
    class. *)
Definition intended_handler (payload : Type)
    (get_stock_data : pyval -> pyval -> AnalysisProcessor.response payload)
    (analysis : string -> list (AnalysisProcessor.response payload) ->
                gmap string pyval -> result payload)
    (query_type : string)
    : option (gmap string pyval -> AnalysisProcessor.M (AnalysisProcessor.response payload)) :=
  attr ← assoc query_type AnalysisProcessor.analysis_method_names;
  assoc attr (AnalysisProcessor.methods payload get_stock_data analysis).

End Main.

(* ===================================================================== *)
(** ** [utils/instrument_mapper.py]: loading the directory *)
(* ===================================================================== *)

Module MasterData.
Import Py InstrumentMapper.

(** The record that [_process_master_data] builds from one entry of the
    master file. *)
Definition process_instrument (instrument : gmap string jval) : gmap string jval :=
  list_to_map
    [ ("instrument_key",
       JStr (jstr (get instrument "exchange") +:+ "-" +:+ jstr (get instrument "symbol")));
      ("exchange", get instrument "exchange");
      ("trading_symbol", get instrument "symbol");
      ("name", get instrument "name");
      ("instrument_type", get instrument "type");
      ("short_name", get instrument "symbol");
      ("isin", get instrument "isin");
      ("lot_size", get instrument "lot_size");
      ("tick_size", get instrument "tick_size");
      ("strike", get instrument "strike");
      ("expiry", get instrument "expiry");
      ("token", get instrument "token") ].

(** [_process_master_data] on a list of dicts: [dict.get] does not raise,
    so the [except] branch of the loop is never taken. *)
Definition _process_master_data (raw_data : list (gmap string jval))
    : list (gmap string jval) :=
  map process_instrument raw_data.

(** The mapper after [refresh_master_data] has stored the processed data. *)
Definition loaded (raw_data : list (gmap string jval)) : mapper :=
  Mapper (_process_master_data raw_data).

(** Entry [a] does not score below entry [b]. *)
Definition by_score (a b : search_match) : Prop := (score b <= score a)%Q.

(** A master file of three records, the last without a name. *)
Definition master : list (gmap string jval) :=
  [ list_to_map [("exchange", JStr "NSE"); ("symbol", JStr "INFY");
                 ("name", JStr "Infosys Limited"); ("type", JStr "EQ");
                 ("isin", JStr "INE009A01021"); ("lot_size", JInt 1);
                 ("token", JInt 1594)];
    list_to_map [("exchange", JStr "NSE"); ("symbol", JStr "TCS");
                 ("name", JStr "Tata Consultancy Services"); ("type", JStr "EQ");
                 ("isin", JStr "INE467B01029"); ("lot_size", JInt 1);
                 ("token", JInt 2953)];
    list_to_map [("exchange", JStr "BSE"); ("symbol", JStr "XYZ");
                 ("type", JStr "EQ"); ("token", JInt 7)] ].

End MasterData.

(* ===================================================================== *)
(** ** Vocabulary for the keys of [market/instrument_mapper.py] *)
(* ===================================================================== *)

Module Keys.
Import Py.

(** [s.count(c)] for a character. *)
Fixpoint count_char (c : ascii) (s : string) : nat :=
  match s with
  | EmptyString => O
  | String a s' => (if Ascii.eqb a c then 1 else 0) + count_char c s'
  end.

(** Text of ASCII characters only, on which [str.upper], [str.lower] and
    [str.strip] act as [upper], [lower] and [strip] do. *)
Definition is_ascii (c : ascii) : bool := (code c <? 128)%N.

Definition ascii_text (s : string) : bool := Captures.string_forall is_ascii s.

(** A frame whose cells are all ASCII text. *)
Definition ascii_frame (frame : list (gmap string string)) : Prop :=
  forall row c v, In row frame -> row !! c = Some v -> ascii_text v = true.

(** A row with a segment and an ISIN, neither holding a bar. *)
Definition keyed (row : gmap string string) : Prop :=
  exists s i, row !! "segment" = Some s /\ row !! "isin" = Some i /\
              count_char "|" s = O /\ count_char "|" i = O.

Definition frame : list (gmap string string) :=
  [ list_to_map [("segment", "NSE_EQ"); ("trading_symbol", "INFY "); ("isin", "INE009A01021")];
    list_to_map [("segment", "NSE_EQ"); ("trading_symbol", "TCS"); ("isin", "INE467B01029")] ].

End Keys.

(* ===================================================================== *)
(** ** The clock, the HTTP client and the caches *)
(* ===================================================================== *)

Module Net.
Import Py.

(** A decoded JSON body; an object keeps its members in order, each key
    once. *)
#[warnings="-register-all"]
Inductive json :=
| JNone
| JBool (b : bool)
| JNum (n : Z)
| JFloat (q : Q)
| JText (s : string)
| JArr (l : list json)
| JObj (l : list (string * json)).

Definition json_type_name (v : json) : string :=
  match v with
  | JNone => "NoneType" | JBool _ => "bool" | JNum _ => "int" | JFloat _ => "float"
  | JText _ => "str" | JArr _ => "list" | JObj _ => "dict"
  end.

(** [bool(v)] *)
Definition json_truthy (v : json) : bool :=
  match v with
  | JNone => false
  | JBool b => b
  | JNum n => negb (n =? 0)%Z
  | JFloat q => negb (Qeq_bool q 0)
  | JText s => negb (String.eqb s "")
  | JArr l => match l with [] => false | _ => true end
  | JObj l => match l with [] => false | _ => true end
  end.

(** A call of [requests.get(url, headers=..., params=...)]. *)
Record request := Request {
  url : string;
  headers : list (string * string);
  params : list (string * string)
}.

(** What [requests.get], [raise_for_status] and [response.json()] give
    together: the decoded body, or [str(e)] of the exception raised. *)
Inductive reply := Body (j : json) | Refused (message : string).

(** A computation inside a [try] block ends with a value or with [str(e)]
    of the exception that left it. *)
Inductive attempt (A : Type) : Type :=
| Done (a : A)
| Failed (message : string).
Arguments Done {A} a.
Arguments Failed {A} message.

(** The object's cache, each entry with the time it was stored, the
    number of clock readings taken so far and the requests sent so far. *)
Record state (D : Type) := State {
  cache : gmap string (D * Z);
  ticks : nat;
  sent : list request
}.
Arguments State {D} cache ticks sent.
Arguments cache {D} s.
Arguments ticks {D} s.
Arguments sent {D} s.

Definition IO (D A : Type) : Type := state D -> attempt A * state D.

#[global] Instance IO_ret {D} : MRet (IO D) := fun _ a st => (Done a, st).
#[global] Instance IO_bind {D} : MBind (IO D) := fun _ _ f m st =>
  match m st with
  | (Done a, st') => f a st'
  | (Failed msg, st') => (Failed msg, st')
  end.

Definition raise {D A} (msg : string) : IO D A := fun st => (Failed msg, st).

Definition lift {D A} (r : result A) : IO D A :=
  match r with Ok a => mret a | Raise e => raise (exn_str e) end.

Definition lookup_cache {D} (key : string) : IO D (option (D * Z)) :=
  fun st => (Done (cache st !! key), st).

Definition store {D} (key : string) (entry : D * Z) : IO D unit :=
  fun st => (Done tt, State (<[key := entry]> (cache st)) (ticks st) (sent st)).

Definition evict {D} (key : string) : IO D unit :=
  fun st => (Done tt, State (delete key (cache st)) (ticks st) (sent st)).

Section WithEnvironment.

(** The successive readings of [datetime.now()]. *)
Variable clock : nat -> Z.

(** The server: its reply to a request, given how many were sent before. *)
Variable http : nat -> request -> reply.

(** [repr] of a string, as [str(KeyError(k))] prints the key. *)
Variable repr : string -> string.

Definition now {D} : IO D Z :=
  fun st => (Done (clock (ticks st)), State (cache st) (S (ticks st)) (sent st)).

Definition requests_get {D} (r : request) : IO D json :=
  fun st =>
    let st' := State (cache st) (ticks st) (sent st ++ [r]) in
    match http (length (sent st)) r with
    | Body j => (Done j, st')
    | Refused msg => (Failed msg, st')
    end.

(** [v[k]] for a string [k]. *)
Definition subscript {D} (v : json) (k : string) : IO D json :=
  match v with
  | JObj l => match assoc k l with
              | Some x => mret x
              | None => raise (repr k)
              end
  | JArr _ => raise "list indices must be integers or slices, not str"
  | JText _ => raise "string indices must be integers, not 'str'"
  | _ => raise ("'" +:+ json_type_name v +:+ "' object is not subscriptable")
  end.

(** [v.get(k)] for a string [k]. *)
Definition json_get {D} (v : json) (k : string) : IO D json :=
  match v with
  | JObj l => mret (default JNone (assoc k l))
  | _ => raise ("'" +:+ json_type_name v +:+ "' object has no attribute 'get'")
  end.

End WithEnvironment.

End Net.

(* ===================================================================== *)
(** ** [processors/stock_processor.py]: fetching *)
(* ===================================================================== *)

Module StockData.
Import Py Net.

(** The dict that [get_stock_data] returns. *)
Inductive stock_result :=
| StockData (symbol : string) (current historical : json) (timestamp : string)
| StockError (error : string).

Definition succeeded (r : stock_result) : bool :=
  match r with StockData _ _ _ _ => true | StockError _ => false end.

Definition base_url : string := "https://api-v2.upstox.com".

(** In microseconds. *)
Definition _cache_timeout : Z := 300 * 1000000.

Section WithEnvironment.

Variable clock : nat -> Z.
Variable http : nat -> request -> reply.
Variable repr : string -> string.

(** [d.strftime(format)] *)
Variable strftime : string -> Z -> string.

Variable access_token : string.

Definition get_headers : list (string * string) :=
  [ ("Accept", "application/json"); ("Api-Version", "2.0");
    ("Authorization", "Bearer " +:+ access_token) ].

Definition cache_key (symbol : string) (from_date : Z) : string :=
  symbol +:+ "_" +:+ strftime "%Y%m%d" from_date.

(** The [try] block after the cache check, down to the result dict. *)
Definition fetch (symbol : string) (from_date : Z) : IO stock_result stock_result :=
  let formatted_symbol := "NSE_EQ|" +:+ symbol in
  quote_data ← requests_get http
    (Request (base_url +:+ "/market-quote/quotes") get_headers
       [("symbol", formatted_symbol); ("interval", "1day")]);
  to_date ← now clock;
  historical_data ← requests_get http
    (Request (base_url +:+ "/historical-candle/intraday") get_headers
       [("symbol", formatted_symbol); ("interval", "1day");
        ("from_date", strftime "%Y-%m-%d" from_date);
        ("to_date", strftime "%Y-%m-%d" to_date)]);
  quotes ← subscript repr quote_data "data";
  current ← subscript repr quotes formatted_symbol;
  historical ← subscript repr historical_data "data";
  timestamp ← now clock;
  mret (StockData symbol current historical (strftime "%Y-%m-%d %H:%M:%S" timestamp)).

Definition fetch_and_store (symbol : string) (from_date : Z)
    : IO stock_result stock_result :=
  result ← fetch symbol from_date;
  timestamp ← now clock;
  _ ← store (cache_key symbol from_date) (result, timestamp);
  mret result.

Definition body (symbol : string) (from_date : Z) : IO stock_result stock_result :=
  entry ← lookup_cache (cache_key symbol from_date);
  match entry with
  | Some (data, timestamp) =>
      t ← now clock;
      if (t - timestamp <? _cache_timeout)%Z then mret data
      else fetch_and_store symbol from_date
  | None => fetch_and_store symbol from_date
  end.

Definition get_stock_data (symbol : string) (from_date : Z) (st : state stock_result)
    : stock_result * state stock_result :=
  match body symbol from_date st with
  | (Done r, st') => (r, st')
  | (Failed msg, st') => (StockError msg, st')
  end.

(** The coroutines hold no [await], so [asyncio.gather] runs them one
    after the other, in the order of the list. *)
Fixpoint gather (symbols : list string) (from_date : Z) (st : state stock_result)
    : list stock_result * state stock_result :=
  match symbols with
  | [] => ([], st)
  | symbol :: rest =>
      let '(r, st1) := get_stock_data symbol from_date st in
      let '(rs, st2) := gather rest from_date st1 in
      (r :: rs, st2)
  end.

(** [{symbol: result for symbol, result in zip(symbols, results)}] *)
Definition zip_dict (symbols : list string) (results : list stock_result)
    : gmap string stock_result :=
  foldl (fun d '(symbol, result) => <[symbol := result]> d) ∅ (zip symbols results).

(** The [data] of the dict returned, which always has [success] True. *)
Definition get_multiple_stocks_data (symbols : list string) (from_date : Z)
    (st : state stock_result) : gmap string stock_result * state stock_result :=
  let '(results, st') := gather symbols from_date st in
  (zip_dict symbols results, st').

End WithEnvironment.

(** No entry of the cache holds a failure. *)
Definition no_failure (c : gmap string (stock_result * Z)) : Prop :=
  forall k r t, c !! k = Some (r, t) -> succeeded r = true.

(** The result is a failure or carries the symbol [s]. *)
Definition about (s : string) (r : stock_result) : Prop :=
  match r with StockData s' _ _ _ => s' = s | StockError _ => True end.

(** Every entry is a data record stored under a key of its own symbol. *)
Definition well_keyed (strftime : string -> Z -> string)
    (c : gmap string (stock_result * Z)) : Prop :=
  forall k r t, c !! k = Some (r, t) ->
    exists s current historical timestamp d,
      r = StockData s current historical timestamp /\ k = cache_key strftime s d.

(** A clock that advances one second per reading, a server that answers
    the quote and the candle request for TCS, and stand-ins for [repr]
    and [strftime]. *)
Definition sample_clock (n : nat) : Z := Samples.now + Z.of_nat n * 1000000.

Definition sample_http (n : nat) (r : request) : reply :=
  if String.eqb (url r) (base_url +:+ "/market-quote/quotes")
  then Body (JObj [("data", JObj [("NSE_EQ|TCS", JObj [("ltp", JNum 3900)])])])
  else Body (JObj [("data", JArr [])]).

Definition sample_down (n : nat) (r : request) : reply := Refused "503 Server Error".

Definition sample_repr (s : string) : string := "'" +:+ s +:+ "'".

Definition sample_strftime (format : string) (t : Z) : string := "20240615".

Definition fresh : state stock_result := State ∅ 0 [].

End StockData.

(* ===================================================================== *)
(** ** [utils/historical_data.py] *)
(* ===================================================================== *)

Module HistoricalDataFetcher.
Import Py Net.

(** The dict that [_process_historical_data] returns: [success] True with
    the processed [data], or [success] False with an [error]. *)
Inductive hist_result (payload : Type) : Type :=
| Success (data : payload)
| Failure (error : string).
Arguments Success {payload} data.
Arguments Failure {payload} error.

Definition base_url : string := "https://api-v2.upstox.com".

(** [timedelta(minutes=5)], in microseconds. *)
Definition _cache_duration : Z := 5 * 60 * 1000000.

(** [t.replace(hour=9, minute=15, second=0, microsecond=0)] *)
Definition at_market_open (t : Z) : Z :=
  t / Datetime.us_per_day * Datetime.us_per_day + (9 * 3600 + 15 * 60) * 1000000.

(** The class [InstrumentMapper] of [utils/instrument_mapper.py] defines
    no method [get_instrument_by_symbol]. *)
Definition missing_lookup (symbol : string) : result (option (gmap string jval)) :=
  Raise (Exn AttributeError
           "'InstrumentMapper' object has no attribute 'get_instrument_by_symbol'").

Section WithEnvironment.

Variable payload : Type.
Variable clock : nat -> Z.
Variable http : nat -> request -> reply.
Variable repr : string -> string.
Variable strftime : string -> Z -> string.
Variable access_token : string.

(** [self.instrument_mapper.get_instrument_by_symbol] *)
Variable get_instrument_by_symbol : string -> result (option (gmap string jval)).

(** The pandas computations, inside their own [try/except]. *)
Variable _process_historical_data : json -> gmap string jval -> hist_result payload.

Definition get_headers : list (string * string) :=
  [ ("Accept", "application/json"); ("Api-Version", "2.0");
    ("Authorization", "Bearer " +:+ access_token) ].

Definition _get_from_cache (key : string)
    : IO (hist_result payload) (option (hist_result payload)) :=
  entry ← lookup_cache key;
  match entry with
  | Some (data, timestamp) =>
      t ← now clock;
      if (t - timestamp <? _cache_duration)%Z then mret (Some data)
      else (_ ← evict key; mret None)
  | None => mret None
  end.

Definition _add_to_cache (key : string) (data : hist_result payload)
    : IO (hist_result payload) unit :=
  t ← now clock;
  store key (data, t).

Definition cache_key (symbol : string) (from_date to_date : Z) (interval : string) : string :=
  symbol +:+ "_" +:+ strftime "%Y%m%d" from_date +:+ "_" +:+
  strftime "%Y%m%d" to_date +:+ "_" +:+ interval.

(** [not instrument] *)
Definition falsy (instrument : option (gmap string jval)) : bool :=
  match instrument with
  | None => true
  | Some d => bool_decide (d = ∅)
  end.

Definition body (symbol : string) (from_date : Z) (to_date : option Z) (interval : string)
    : IO (hist_result payload) (hist_result payload) :=
  instrument ← lift (get_instrument_by_symbol symbol);
  if falsy instrument then mret (Failure ("Invalid symbol: " +:+ symbol))
  else
    to_date ← match to_date with Some t => mret t | None => now clock end;
    let key := cache_key symbol from_date to_date interval in
    cached_data ← _get_from_cache key;
    match cached_data with
    | Some data => mret data
    | None =>
        let params :=
          [ ("symbol", "NSE_EQ|" +:+ symbol); ("interval", interval);
            ("from_date", strftime "%Y-%m-%d" from_date);
            ("to_date", strftime "%Y-%m-%d" to_date) ] in
        let url :=
          if String.eqb interval "1day"
          then base_url +:+ "/historical-candle/historical"
          else base_url +:+ "/historical-candle/intraday" in
        data ← requests_get http (Request url get_headers params);
        received ← json_get data "data";
        if negb (json_truthy received) then mret (Failure "No data received from API")
        else
          raw ← subscript repr data "data";
          let processed_data :=
            _process_historical_data raw (default ∅ instrument) in
          _ ← _add_to_cache key processed_data;
          mret processed_data
    end.

(** [try: ... except Exception as e: return {'success': False, 'error': str(e)}] *)
Definition try_except (m : IO (hist_result payload) (hist_result payload))
    (st : state (hist_result payload)) : hist_result payload * state (hist_result payload) :=
  match m st with
  | (Done r, st') => (r, st')
  | (Failed msg, st') => (Failure msg, st')
  end.

Definition get_historical_data (symbol : string) (from_date : Z) (to_date : option Z)
    (interval : string) :=
  try_except (body symbol from_date to_date interval).

(** A call of a method that returns its dict and never raises. *)
Definition call (f : state (hist_result payload)
                     -> hist_result payload * state (hist_result payload))
    : IO (hist_result payload) (hist_result payload) :=
  fun st => let '(r, st') := f st in (Done r, st').

Definition get_intraday_data (symbol interval : string) :=
  try_except
    (t ← now clock;
     call (get_historical_data symbol (at_market_open t) None interval)).

Definition get_daily_data (symbol : string) (days : Z) :=
  try_except
    (t ← now clock;
     delta ← lift (Datetime.timedelta_days days);
     from_date ← lift (Datetime.sub t delta);
     call (get_historical_data symbol from_date None "1day")).

End WithEnvironment.

(** A mapper that knows every symbol, a server that returns one candle,
    and a processing step that fails. *)
Definition sample_lookup (symbol : string) : result (option (gmap string jval)) :=
  Ok (Some (list_to_map [("tradingsymbol", JStr symbol); ("exchange", JStr "NSE")])).

Definition sample_candles (n : nat) (r : request) : reply :=
  Body (JObj [("data", JArr [JArr [JNum 1718409600000; JNum 3900]])]).

Definition sample_process (raw : json) (instrument : gmap string jval) : hist_result unit :=
  Failure "'instrument_type'".

Definition fresh : state (hist_result unit) := State ∅ 0 [].

End HistoricalDataFetcher.

(* ===================================================================== *)
(** ** Facts about the matcher *)
(* ===================================================================== *)

Section MatcherFacts.
Import Py Re Spec.

Lemma groups_inv_mono n D D' gs :
  (forall i, In i D' -> In i D) -> groups_inv n D gs -> groups_inv n D' gs.
Proof.
  intros Hsub [Hlen Hset]. split; [exact Hlen|].
  intros i Hi Hlt. apply Hset; auto.
Qed.

Lemma groups_inv_insert n D j v gs :
  groups_inv n D gs -> groups_inv n (j :: D) (<[j := Some v]> gs).
Proof.
  intros [Hlen Hset]. split.
  - rewrite length_insert. exact Hlen.
  - intros i Hi Hlt. destruct (decide (i = j)) as [->|Hne].
    + exists v. apply list_lookup_insert_eq. lia.
    + destruct Hi as [Hi|Hi]; [congruence|].
      destruct (Hset i Hi Hlt) as [s Hs]. exists s.
      rewrite list_lookup_insert_ne; auto.
Qed.

Lemma star_loop_inv n (Q : groups -> Prop) step k D Dstep :
  (forall s gs k' g, groups_inv n D gs ->
     (forall s' gs' g', groups_inv n (Dstep ++ D) gs' -> k' s' gs' = Some g' -> Q g') ->
     step s gs k' = Some g -> Q g) ->
  (forall s' gs' g', groups_inv n D gs' -> k s' gs' = Some g' -> Q g') ->
  forall fuel s gs g, groups_inv n D gs -> star_loop step k fuel s gs = Some g -> Q g.
Proof.
  intros Hstep Hk. induction fuel as [|fuel IH]; intros s gs g Hinv Hrun; simpl in Hrun.
  - eapply Hk; eauto.
  - destruct (step s gs _) as [g0|] eqn:E.
    + inversion Hrun; subst g0; clear Hrun.
      eapply Hstep; [exact Hinv| |exact E].
      intros s' gs' g' Hinv' Hk'. simpl in Hk'.
      destruct (String.length s' <? String.length s)%nat; [|discriminate].
      eapply IH; [|exact Hk'].
      eapply groups_inv_mono; [|exact Hinv']. intros i Hi. apply in_or_app. now right.
    + eapply Hk; eauto.
Qed.

(** Whatever a successful run hands to its continuation has the groups
    of [must_set r] set, and as many entries as it started with. *)
Lemma run_inv n ic (Q : groups -> Prop) r :
  forall D s gs k g,
    groups_inv n D gs ->
    (forall s' gs' g', groups_inv n (must_set r ++ D) gs' -> k s' gs' = Some g' -> Q g') ->
    run ic r s gs k = Some g -> Q g.
Proof.
  induction r as [| c | items | r1 IH1 r2 IH2 | r1 IH1 r2 IH2 | r1 IH1 | r1 IH1 | r1 IH1 | j r1 IH1];
    intros D s gs k g Hinv Hk Hrun; simpl in Hrun.
  - eapply Hk; eauto.
  - destruct s as [|c' s']; [discriminate|].
    destruct (lit_eq ic c c'); [|discriminate]. eapply Hk; eauto.
  - destruct s as [|c' s']; [discriminate|].
    destruct (class_has ic items c'); [|discriminate]. eapply Hk; eauto.
  - eapply (IH1 D); [exact Hinv| |exact Hrun].
    intros s' gs' g' Hinv' Hrun'. simpl in Hrun'.
    eapply (IH2 (must_set r1 ++ D)); [exact Hinv'| |exact Hrun'].
    intros s2 gs2 g2 Hinv2 Hk2. eapply Hk; [|exact Hk2].
    eapply groups_inv_mono; [|exact Hinv2]. simpl. intros i Hi.
    rewrite !in_app_iff in *. tauto.
  - destruct (run ic r1 s gs k) as [g0|] eqn:E.
    + inversion Hrun; subst g0.
      eapply (IH1 D); [exact Hinv| |exact E].
      intros s' gs' g' Hinv' Hk'. eapply Hk; [|exact Hk'].
      eapply groups_inv_mono; [|exact Hinv']. simpl. intros i Hi.
      rewrite in_app_iff in *. rewrite filter_In in Hi. tauto.
    + eapply (IH2 D); [exact Hinv| |exact Hrun].
      intros s' gs' g' Hinv' Hk'. eapply Hk; [|exact Hk'].
      eapply groups_inv_mono; [|exact Hinv']. simpl. intros i Hi.
      rewrite in_app_iff in *. rewrite filter_In in Hi.
      destruct Hi as [[_ Hi]|Hi]; [left|now right].
      apply existsb_exists in Hi. destruct Hi as [x [Hx Hxi]].
      apply Nat.eqb_eq in Hxi. now subst.
  - destruct (run ic r1 s gs k) as [g0|] eqn:E.
    + inversion Hrun; subst g0.
      eapply (IH1 D); [exact Hinv| |exact E].
      intros s' gs' g' Hinv' Hk'. eapply Hk; [|exact Hk'].
      eapply groups_inv_mono; [|exact Hinv']. simpl. intros i Hi.
      apply in_or_app. now right.
    + eapply Hk; eauto.
  - eapply (star_loop_inv n Q (run ic r1) k D (must_set r1)); [| |exact Hinv|exact Hrun].
    + intros s0 gs0 k' g0 Hinv0 Hk' Hrun0. eapply (IH1 D); eauto.
    + intros s' gs' g' Hinv' Hk'. eapply Hk; eauto.
  - eapply (IH1 D); [exact Hinv| |exact Hrun].
    intros s1 gs1 g1 Hinv1 Hloop. simpl in Hloop.
    eapply (star_loop_inv n Q (run ic r1) k (must_set r1 ++ D) (must_set r1));
      [| |exact Hinv1|exact Hloop].
    + intros s0 gs0 k' g0 Hinv0 Hk' Hrun0. eapply (IH1 (must_set r1 ++ D)); eauto.
    + intros s' gs' g' Hinv' Hk'. eapply Hk; eauto.
  - eapply (IH1 D); [exact Hinv| |exact Hrun].
    intros s' gs' g' Hinv' Hk'. simpl in Hk'. eapply Hk; [|exact Hk'].
    simpl. apply groups_inv_insert. exact Hinv'.
Qed.

Lemma match_at_groups p s m :
  match_at p s = Some m -> groups_inv (ngroups p) (must_set (body p)) m.
Proof.
  unfold match_at. intros Hrun.
  eapply (run_inv (ngroups p) (ignorecase p) (groups_inv (ngroups p) (must_set (body p)))
                  (body p) []); [| |exact Hrun].
  - split; [apply length_replicate|]. intros i [].
  - intros s' gs' g' Hinv Hk. inversion Hk; subst g'.
    eapply groups_inv_mono; [|exact Hinv]. intros i Hi. apply in_or_app. now left.
Qed.

(** The groups of a successful [search]. *)
Lemma search_groups p s m :
  search p s = Some m -> groups_inv (ngroups p) (must_set (body p)) m.
Proof.
  induction s as [|c s IH]; simpl; intros H.
  - destruct (match_at p "") eqn:E; [|discriminate].
    inversion H; subst. eapply match_at_groups; eauto.
  - destruct (match_at p (String c s)) eqn:E.
    + inversion H; subst. eapply match_at_groups; eauto.
    + auto.
Qed.

End MatcherFacts.

(* ===================================================================== *)
(** ** The intent matcher *)
(* ===================================================================== *)

Section PromptFacts.
Import Py Spec PromptProcessor.

(** The loop stops at the first rule that matches. *)
Lemma scan_first_match src now text pats :
  snd (scan src now text pats) =
  match first_match_in pats text with
  | Some (qt, m) => commit src now text qt m
  | None => Ok (Parsed None ∅ (MList []) None text)
  end.
Proof.
  induction pats as [|[qt pat] rest IH]; simpl; [reflexivity|].
  destruct (Re.search pat text) as [m|]; [reflexivity|].
  destruct (scan src now text rest) as [tried r]. exact IH.
Qed.

Lemma process_prompt_first_match src now text :
  process_prompt src now text =
  match first_match text with
  | Some (qt, m) => outcome (commit src now text qt m) text
  | None => Success (Parsed None ∅ (MList []) None text)
  end.
Proof.
  unfold process_prompt, first_match. rewrite scan_first_match.
  destruct (first_match_in patterns text) as [[qt m]|]; reflexivity.
Qed.

Lemma first_match_in_split pats text qt m :
  first_match_in pats text = Some (qt, m) ->
  exists pre pat post,
    pats = pre ++ (qt, pat) :: post /\ Forall (no_match text) pre /\
    Re.search pat text = Some m.
Proof.
  induction pats as [|[qt' pat'] rest IH]; simpl; [discriminate|].
  destruct (Re.search pat' text) as [m'|] eqn:E.
  - intros H. inversion H; subst. exists [], pat', rest. auto.
  - intros H. destruct (IH H) as (pre & pat & post & -> & Hpre & Hm).
    exists ((qt', pat') :: pre), pat, post. repeat split; auto.
Qed.

Lemma first_match_in_complete pats text pre qt pat post m :
  pats = pre ++ (qt, pat) :: post -> Forall (no_match text) pre ->
  Re.search pat text = Some m ->
  first_match_in pats text = Some (qt, m).
Proof.
  intros -> Hpre Hm. induction Hpre as [|[qt' pat'] pre Hx Hpre IH]; simpl.
  - now rewrite Hm.
  - unfold no_match in Hx. simpl in Hx. now rewrite Hx.
Qed.

(** The outcome of the rule that matched. *)
Lemma commit_outcome src now text qt m :
  match extract src now qt m with
  | Ok (ps, ms) =>
      commit src now text qt m =
      Ok (Parsed (Some ("get_" +:+ qt)) (fst (resolve_symbol src ps ms))
                 (snd (resolve_symbol src ps ms)) (Some qt) text)
  | Raise e => commit src now text qt m = Raise e
  end.
Proof.
  unfold commit. destruct (extract src now qt m) as [[ps ms]|e]; simpl; [|reflexivity].
  destruct (resolve_symbol src ps ms); reflexivity.
Qed.

Lemma scan_split src now text pats :
  (exists pre qt pat post m,
     pats = pre ++ (qt, pat) :: post /\ Forall (no_match text) pre /\
     Re.search pat text = Some m /\
     scan src now text pats = (map fst pre ++ [qt], commit src now text qt m))
  \/ (Forall (no_match text) pats /\
      scan src now text pats = (map fst pats, Ok (Parsed None ∅ (MList []) None text))).
Proof.
  induction pats as [|[qt pat] rest IH].
  - right. split; [constructor|reflexivity].
  - simpl. destruct (Re.search pat text) as [m|] eqn:E.
    + left. exists [], qt, pat, rest, m. repeat split; auto.
    + destruct IH as [(pre & qt' & pat' & post & m & -> & Hpre & Hm & Hscan)|[Hall Hscan]].
      * left. exists ((qt, pat) :: pre), qt', pat', post, m.
        rewrite Hscan. repeat split; auto.
      * right. rewrite Hscan. split; [|reflexivity]. constructor; auto.
Qed.

(** C1, as amended.  [process_prompt] calls [re.search] on the rules in
    their declared order and stops at the first one that matches: when the
    parameter extraction of that rule completes, the returned query_type
    (and action) is that rule's; when it raises, the error dict is
    returned, which has no query_type.  When no rule matches, every rule
    was tried and query_type is None. *)
Theorem first_match_wins (src : result (list (gmap string jval))) (now : Z) (text : string) :
  (exists pre qt pat post m,
     patterns = pre ++ (qt, pat) :: post /\
     Forall (no_match text) pre /\
     Re.search pat text = Some m /\
     rules_tried src now text = map fst pre ++ [qt] /\
     match extract src now qt m with
     | Ok _ =>
         exists p, process_prompt src now text = Success p /\
                   query_type p = Some qt /\ action p = Some ("get_" +:+ qt)
     | Raise e => process_prompt src now text = Failure (exn_str e) text
     end)
  \/ (Forall (no_match text) patterns /\
      rules_tried src now text = map fst patterns /\
      process_prompt src now text = Success (Parsed None ∅ (MList []) None text)).
Proof.
  unfold rules_tried, process_prompt.
  destruct (scan_split src now text patterns)
    as [(pre & qt & pat & post & m & Hsplit & Hpre & Hm & Hscan)|[Hall Hscan]].
  - left. exists pre, qt, pat, post, m. rewrite Hscan. simpl.
    repeat split; auto.
    pose proof (commit_outcome src now text qt m) as Hc.
    destruct (extract src now qt m) as [[ps ms]|e]; rewrite Hc; [|reflexivity].
    eexists. repeat split.
  - right. rewrite Hscan. auto.
Qed.

(** C1, as stated, fails: the text below matches the rule "historical"
    first, but 99999 years before now is no datetime, the extraction
    raises OverflowError and the result carries no query_type. *)
Lemma query_type_lost_when_extraction_raises :
  first_match "get 99999 year data of TCS"
    = Some ("historical", [Some "99999"; Some "year"; Some "TCS"]) /\
  process_prompt (Ok []) (Datetime.mk 2024 6 15 10 30 0) "get 99999 year data of TCS"
    = Failure "date value out of range" "get 99999 year data of TCS" /\
  result_query_type
    (process_prompt (Ok []) (Datetime.mk 2024 6 15 10 30 0) "get 99999 year data of TCS")
    = None.
Proof. vm_compute. repeat split. Qed.

(** The same loss happens on every match of the rule "price_movement":
    its groups are (symbol, duration, unit) and [_extract_basic_parameters]
    unpacks them as (duration, unit, symbol), so [int] is applied to the
    symbol. *)
Lemma price_movement_extraction_raises :
  first_match "analyze price movement of TCS in last 5 days"
    = Some ("price_movement", [Some "TCS"; Some "5"; Some "day"]) /\
  process_prompt (Ok []) (Datetime.mk 2024 6 15 10 30 0)
                 "analyze price movement of TCS in last 5 days"
    = Failure "invalid literal for int() with base 10: 'TCS'"
              "analyze price movement of TCS in last 5 days".
Proof. vm_compute. repeat split. Qed.

End PromptFacts.

Section ResolutionFacts.
Import Py Spec PromptProcessor.



(** On the sample directory the text resolves to the one instrument whose
    company name contains INFOSYS. *)
Example resolution_of_infosys :
  exists p,
    process_prompt (Ok Samples.listing) Samples.now "Show 200 day moving average for Infosys"
      = Success p /\
    parameters p !! "symbol" = Some (PStr "INFY") /\
    parameters p !! "instrument_token" = Some (PInt 1594) /\
    parameters p !! "period" = Some (PInt 200) /\
    parameters p !! "from_date" = Some (PDate (Datetime.mk 2023 11 28 10 30 0)).
Proof. eexists. split; [vm_compute; reflexivity|]. vm_compute. repeat split. Qed.

End ResolutionFacts.

Section DateRangeFacts.
Import Py Spec PromptProcessor.

Lemma unit_mapping_days unit k :
  unit_days unit = Some k ->
  exists f, unit_mapping unit = Some f /\
            forall x, f x = Datetime.timedelta_days (x * k).
Proof.
  unfold unit_days, unit_mapping.
  destruct (String.eqb unit "day").
  { intros [= <-]. eexists; split; [reflexivity|]. intros x. now rewrite Z.mul_1_r. }
  destruct (String.eqb unit "week").
  { intros [= <-]. eexists; split; [reflexivity|]. intros x.
    unfold Datetime.timedelta_weeks. now rewrite Z.mul_comm. }
  destruct (String.eqb unit "month").
  { intros [= <-]. eexists; split; [reflexivity|]. reflexivity. }
  destruct (String.eqb unit "year").
  { intros [= <-]. eexists; split; [reflexivity|]. reflexivity. }
  discriminate.
Qed.

(** Within the limits of [timedelta] and [datetime] the date is computed. *)
Lemma calculate_date_range_ok now duration unit k :
  unit_days (lower unit) = Some k ->
  Z.abs (duration * k) <= 999999999 ->
  0 <= now - duration * k * Datetime.us_per_day <= Datetime.datetime_max ->
  _calculate_date_range now duration unit
    = Ok (now - duration * k * Datetime.us_per_day).
Proof.
  intros Hunit Hdays Hrange. unfold _calculate_date_range.
  destruct (unit_mapping_days _ _ Hunit) as (f & -> & Hf). rewrite Hf.
  unfold Datetime.timedelta_days.
  destruct (Z.leb_spec (Z.abs (duration * k)) 999999999); [|lia]. simpl.
  unfold Datetime.sub.
  destruct (Z.leb_spec 0 (now - duration * k * Datetime.us_per_day)); [|lia].
  destruct (Z.leb_spec (now - duration * k * Datetime.us_per_day) Datetime.datetime_max); [|lia].
  reflexivity.
Qed.

(** Beyond them it raises OverflowError. *)
Lemma calculate_date_range_overflow now duration unit k :
  unit_days (lower unit) = Some k ->
  ~ (Z.abs (duration * k) <= 999999999 /\
     0 <= now - duration * k * Datetime.us_per_day <= Datetime.datetime_max) ->
  exists msg, _calculate_date_range now duration unit = Raise (Exn OverflowError msg).
Proof.
  intros Hunit Hout. unfold _calculate_date_range.
  destruct (unit_mapping_days _ _ Hunit) as (f & -> & Hf). rewrite Hf.
  unfold Datetime.timedelta_days.
  destruct (Z.leb_spec (Z.abs (duration * k)) 999999999); simpl.
  - unfold Datetime.sub.
    destruct (Z.leb_spec 0 (now - duration * k * Datetime.us_per_day));
      destruct (Z.leb_spec (now - duration * k * Datetime.us_per_day) Datetime.datetime_max);
      simpl; eauto.
    exfalso. apply Hout. lia.
  - eauto.
Qed.

(** C3, as amended.  For a non-negative duration and a unit of the table
    (day = 1, week = 7, month = 30, year = 365 days, in any letter case):
    when the span is at most 999999999 days and does not reach back before
    0001-01-01, from_date is now minus the span, hence not later than now
    and a datetime; otherwise OverflowError is raised and there is no
    from_date. *)
Theorem from_date_is_now_minus_span (now duration : Z) (unit : string) (k : Z) :
  Datetime.valid now ->
  0 <= duration ->
  unit_days (lower unit) = Some k ->
  let span := duration * k * Datetime.us_per_day in
  (duration * k <= 999999999 -> span <= now ->
     _calculate_date_range now duration unit = Ok (now - span) /\
     now - span <= now /\ Datetime.valid (now - span)) /\
  (~ (duration * k <= 999999999 /\ span <= now) ->
     exists msg, _calculate_date_range now duration unit = Raise (Exn OverflowError msg)).
Proof.
  intros [Hlo Hhi] Hdur Hunit span.
  assert (Hk : 0 < k).
  { revert Hunit. unfold unit_days.
    repeat (match goal with |- context [String.eqb ?a ?b] => destruct (String.eqb a b) end;
            [intros [= <-]; lia|]).
    discriminate. }
  assert (Hspan : 0 <= span) by (unfold span, Datetime.us_per_day; nia).
  split.
  - intros Hdays Hnow. split; [|split].
    + apply calculate_date_range_ok; auto.
      * rewrite Z.abs_eq by nia. exact Hdays.
      * fold span. lia.
    + lia.
    + unfold Datetime.valid. lia.
  - intros Hout. eapply calculate_date_range_overflow; eauto.
    intros [Ha Hb]. apply Hout. rewrite Z.abs_eq in Ha by nia. fold span in Hb. lia.
Qed.

Lemma from_date_is_now_minus_span_witness :
  let span := 200 * 1 * Datetime.us_per_day in
  (200 * 1 <= 999999999 -> span <= Samples.now ->
     _calculate_date_range Samples.now 200 "Day" = Ok (Samples.now - span) /\
     Samples.now - span <= Samples.now /\ Datetime.valid (Samples.now - span)) /\
  (~ (200 * 1 <= 999999999 /\ span <= Samples.now) ->
     exists msg, _calculate_date_range Samples.now 200 "Day" = Raise (Exn OverflowError msg)).
Proof.
  apply (from_date_is_now_minus_span Samples.now 200 "Day" 1).
  - unfold Datetime.valid. vm_compute. split; discriminate.
  - lia.
  - reflexivity.
Defined.

(** C3, as stated, fails: 3000 years before 15 June 2024 is before
    [datetime.min], and the subtraction raises. *)
Lemma from_date_overflow :
  Datetime.valid Samples.now /\ 0 <= 3000 /\ unit_days "year" = Some 365 /\
  _calculate_date_range Samples.now 3000 "year"
    = Raise (Exn OverflowError "date value out of range") /\
  _calculate_date_range Samples.now 3000 "year"
    <> Ok (Samples.now - 3000 * 365 * Datetime.us_per_day).
Proof.
  repeat split; try (vm_compute; congruence).
Qed.

End DateRangeFacts.

Section DefaultFacts.
Import Py Spec PromptProcessor.

Lemma us_per_day_eq : Datetime.us_per_day = 86400000000.
Proof. reflexivity. Qed.

Lemma datetime_max_eq : Datetime.datetime_max = 315537897599999999.
Proof. reflexivity. Qed.

Ltac date_lia :=
  unfold Datetime.valid in *;
  pose proof us_per_day_eq; pose proof datetime_max_eq; lia.

Lemma assoc_app_fresh {A} (k : string) (pre : list (string * A)) v post :
  ~ In k (map fst pre) -> assoc k (pre ++ (k, v) :: post) = Some v.
Proof.
  induction pre as [|[k' v'] pre IH]; simpl; intros Hfresh.
  - now rewrite String.eqb_refl.
  - destruct (String.eqb_spec k k') as [->|Hne]; [tauto|]. apply IH. tauto.
Qed.

Lemma patterns_names_distinct : NoDup (map fst patterns).
Proof. apply (bool_decide_unpack _). vm_compute. exact I. Qed.

(** A first match comes with the groups that its rule promises. *)
Lemma first_match_groups text qt m :
  first_match text = Some (qt, m) ->
  exists n D, rule_groups qt = Some (n, D) /\ groups_inv n D m.
Proof.
  intros H. apply first_match_in_split in H.
  destruct H as (pre & pat & post & Hsplit & _ & Hm).
  exists (Re.ngroups pat), (must_set (Re.body pat)). split.
  - unfold rule_groups. rewrite Hsplit. rewrite assoc_app_fresh; [reflexivity|].
    pose proof patterns_names_distinct as Hnd. rewrite Hsplit in Hnd.
    rewrite map_app in Hnd. simpl in Hnd.
    apply NoDup_app in Hnd. destruct Hnd as (_ & Hdisj & _).
    intros Hin. apply (Hdisj qt).
    + apply list_elem_of_In. exact Hin.
    + left.
  - eapply search_groups; eauto.
Qed.

Lemma groups_one n D (m : Re.groups) :
  groups_inv n D m -> n = 1%nat -> exists g, m = [g].
Proof.
  intros [Hlen _] ->. destruct m as [|g [|g' m]]; try discriminate. eauto.
Qed.

Lemma groups_one_set n D (m : Re.groups) :
  groups_inv n D m -> n = 1%nat -> In 0%nat D -> exists s, m = [Some s].
Proof.
  intros Hinv -> H0. destruct (groups_one _ _ _ Hinv eq_refl) as [g ->].
  destruct Hinv as [_ Hset]. destruct (Hset 0%nat H0 ltac:(lia)) as [s Hs].
  simpl in Hs. inversion Hs. eauto.
Qed.

Lemma groups_two n D (m : Re.groups) :
  groups_inv n D m -> n = 2%nat -> exists g1 g2, m = [g1; g2].
Proof.
  intros [Hlen _] ->. destruct m as [|g1 [|g2 [|g3 m]]]; try discriminate. eauto.
Qed.

(** The resolution step touches the keys symbol and instrument_token only. *)
Lemma resolve_symbol_other src ps ms k :
  k <> "symbol" -> k <> "instrument_token" ->
  fst (resolve_symbol src ps ms) !! k = ps !! k.
Proof.
  intros H1 H2. unfold resolve_symbol.
  destruct (ps !! "symbol") as [sym|]; [|reflexivity].
  destruct (truthy sym); [|reflexivity].
  destruct (find_matching_instruments src sym) as [|c [|c' l]]; simpl; try reflexivity.
  rewrite lookup_insert_ne by congruence. now rewrite lookup_insert_ne by congruence.
Qed.

Lemma process_prompt_parameters src now text qt m ps ms :
  first_match text = Some (qt, m) ->
  extract src now qt m = Ok (ps, ms) ->
  exists p, process_prompt src now text = Success p /\
            query_type p = Some qt /\
            forall k, k <> "symbol" -> k <> "instrument_token" ->
                      parameters p !! k = ps !! k.
Proof.
  intros Hfirst Hext. rewrite process_prompt_first_match, Hfirst.
  pose proof (commit_outcome src now text qt m) as Hc. rewrite Hext in Hc.
  rewrite Hc. simpl. eexists. split; [reflexivity|]. split; [reflexivity|].
  intros k H1 H2. simpl. now apply resolve_symbol_other.
Qed.

Lemma thirty_days_back now :
  30 * Datetime.us_per_day <= now <= Datetime.datetime_max ->
  _calculate_date_range now 30 "day" = Ok (now - 30 * 1 * Datetime.us_per_day).
Proof.
  intros H. apply calculate_date_range_ok; [reflexivity|lia|date_lia].
Qed.

Ltac use_extract E :=
  match goal with
  | Hf : first_match ?text = Some (?qt, ?m) |- context [process_prompt ?src ?now ?text] =>
      destruct (process_prompt_parameters src now text qt m _ _ Hf E)
        as (p & Hp & Hq & Hk);
      exists p; split; [exact Hp|]; rewrite ?Hk by discriminate
  end.

(** C5.  The defaults of the rule that matched: period 50 for
    moving_averages without an explicit period; period 14 and 30 days for
    rsi_analysis; 90 days for support_resistance; 30 days for comparison,
    sector_performance, volume_analysis and for the rules handled by the
    default branch.  Where a from_date is computed as well, now has to be
    that many days after 0001-01-01. *)
Theorem intent_defaults
    (src : result (list (gmap string jval))) (now : Z) (text qt : string) (m : Re.groups) :
  first_match text = Some (qt, m) ->
  Datetime.valid now ->
  (qt = "moving_averages" -> Re.group m 1 = Ok None ->
   50 * Datetime.us_per_day <= now ->
   exists p, process_prompt src now text = Success p /\
             parameters p !! "period" = Some (PInt 50)) /\
  (qt = "rsi_analysis" ->
   exists p, process_prompt src now text = Success p /\
             parameters p !! "period" = Some (PInt 14) /\
             parameters p !! "duration" = Some (PInt 30) /\
             parameters p !! "unit" = Some (PStr "day")) /\
  (qt = "support_resistance" ->
   exists p, process_prompt src now text = Success p /\
             parameters p !! "duration" = Some (PInt 90) /\
             parameters p !! "unit" = Some (PStr "day")) /\
  (In qt ["comparison"; "sector_performance"; "volume_analysis"] ->
   exists p, process_prompt src now text = Success p /\
             parameters p !! "duration" = Some (PInt 30) /\
             parameters p !! "unit" = Some (PStr "day")) /\
  (In qt ["trend_analysis"; "stock_details"; "market_sentiment";
          "dividend_history"; "news_sentiment"] ->
   30 * Datetime.us_per_day <= now ->
   exists p, process_prompt src now text = Success p /\
             parameters p !! "duration" = Some (PInt 30) /\
             parameters p !! "unit" = Some (PStr "day")).
Proof.
  intros Hfirst [Hlo Hhi].
  destruct (first_match_groups _ _ _ Hfirst) as (n & D & Hrule & Hinv).
  repeat split.
  - intros -> Hg Hnow. vm_compute in Hrule. injection Hrule as <- <-.
    destruct (groups_two _ _ _ Hinv eq_refl) as (g1 & g2 & ->).
    destruct Hinv as [_ Hset]. destruct (Hset 1%nat ltac:(simpl; tauto) ltac:(lia)) as [s Hs].
    simpl in Hs. injection Hs as ->. simpl in Hg. injection Hg as ->.
    assert (E : extract src now "moving_averages" [None; Some s]
                = Ok (list_to_map [("symbol", PStr (strip s)); ("period", PInt 50);
                        ("from_date", PDate (now - 50 * 1 * Datetime.us_per_day))],
                      MList [])).
    { unfold extract. simpl.
      change (10 * (10 * 0 + digit_val "5") + digit_val "0") with 50.
      rewrite (calculate_date_range_ok now 50 "day" 1);
        [reflexivity|reflexivity|lia|date_lia]. }
    use_extract E. reflexivity.
  - intros ->. vm_compute in Hrule. injection Hrule as <- <-.
    destruct (groups_one_set _ _ _ Hinv eq_refl ltac:(simpl; tauto)) as [s ->].
    assert (E : extract src now "rsi_analysis" [Some s]
                = Ok (list_to_map [("symbol", PStr (strip s)); ("period", PInt 14);
                        ("duration", PInt 30); ("unit", PStr "day")], MList []))
      by reflexivity.
    use_extract E. repeat split.
  - intros ->. vm_compute in Hrule. injection Hrule as <- <-.
    destruct (groups_one_set _ _ _ Hinv eq_refl ltac:(simpl; tauto)) as [s ->].
    assert (E : extract src now "support_resistance" [Some s]
                = Ok (list_to_map [("symbol", PStr (strip s)); ("duration", PInt 90);
                        ("unit", PStr "day")], MList []))
      by reflexivity.
    use_extract E. repeat split.
  - intros [<-|[<-|[<-|[]]]]; vm_compute in Hrule; injection Hrule as <- <-.
    + destruct (groups_two _ _ _ Hinv eq_refl) as (g1 & g2 & ->).
      destruct Hinv as [_ Hset].
      destruct (Hset 0%nat ltac:(simpl; tauto) ltac:(lia)) as [s1 Hs1].
      destruct (Hset 1%nat ltac:(simpl; tauto) ltac:(lia)) as [s2 Hs2].
      simpl in Hs1, Hs2. injection Hs1 as ->. injection Hs2 as ->.
      assert (E : extract src now "comparison" [Some s1; Some s2]
                  = Ok (list_to_map [("symbol1", PStr (strip s1)); ("symbol2", PStr (strip s2));
                          ("duration", PInt 30); ("unit", PStr "day")],
                        MPair (find_matching_instruments src (PStr s1))
                              (find_matching_instruments src (PStr s2))))
        by reflexivity.
      use_extract E. repeat split.
    + destruct (groups_one_set _ _ _ Hinv eq_refl ltac:(simpl; tauto)) as [s ->].
      assert (E : extract src now "sector_performance" [Some s]
                  = Ok (list_to_map [("sector", PStr (strip s)); ("duration", PInt 30);
                          ("unit", PStr "day")], MList []))
        by reflexivity.
      use_extract E. repeat split.
    + destruct (groups_one_set _ _ _ Hinv eq_refl ltac:(simpl; tauto)) as [s ->].
      assert (E : extract src now "volume_analysis" [Some s]
                  = Ok (list_to_map [("symbol", PStr (strip s)); ("duration", PInt 30);
                          ("unit", PStr "day")], MList []))
        by reflexivity.
      use_extract E. repeat split.
  - intros Hqt Hnow.
    assert (E : exists sym, extract src now qt m
                = Ok (list_to_map [("symbol", sym); ("duration", PInt 30);
                        ("unit", PStr "day");
                        ("from_date", PDate (now - 30 * 1 * Datetime.us_per_day))],
                      MList [])).
    { destruct Hqt as [<-|[<-|[<-|[<-|[<-|[]]]]]];
        vm_compute in Hrule; injection Hrule as <- <-;
        destruct (groups_one _ _ _ Hinv eq_refl) as [g ->];
        unfold extract, _extract_basic_parameters; simpl;
        rewrite (thirty_days_back now) by date_lia; simpl; eauto. }
    destruct E as [sym E]. use_extract E. repeat split.
Qed.

Lemma intent_defaults_witness :
  exists p,
    process_prompt (Ok Samples.listing) Samples.now "Calculate RSI analysis for Wipro"
      = Success p /\
    parameters p !! "period" = Some (PInt 14) /\
    parameters p !! "duration" = Some (PInt 30) /\
    parameters p !! "unit" = Some (PStr "day").
Proof.
  refine (proj1 (proj2 (intent_defaults (Ok Samples.listing) Samples.now
            "Calculate RSI analysis for Wipro" "rsi_analysis" [Some "Wipro"] _ _)) eq_refl).
  - vm_compute. reflexivity.
  - unfold Datetime.valid. vm_compute. split; discriminate.
Defined.

End DefaultFacts.

(* ===================================================================== *)
(** ** The instrument directory *)
(* ===================================================================== *)

Section SearchFacts.
Import Py Spec InstrumentMapper.

Variable partial_ratio : string -> string -> Z.
Hypothesis partial_ratio_nonneg : forall a b, 0 <= partial_ratio a b.

Lemma Qgtb_lt a b : Qgtb a b = true -> (b < a)%Q.
Proof.
  unfold Qgtb. intros H. apply negb_true_iff in H.
  apply Qnot_le_lt. intros Hle. apply Qle_bool_iff in Hle. congruence.
Qed.

Lemma bonus_fold_ge {A} (f : Q -> A -> Q) (l : list A) :
  (forall s x, (s <= f s x)%Q) -> forall s, (s <= fold_left f l s)%Q.
Proof.
  intros Hf. induction l as [|x l IH]; intros s; simpl.
  - apply Qle_refl.
  - eapply Qle_trans; [apply Hf|apply IH].
Qed.

Lemma type_bonus_ge parts i s :
  (s <= fold_left (fun score '(short_type, full_type) =>
      if str_in short_type parts || str_in full_type parts
      then (if existsb (jeq (get i "instrument_type")) [JStr short_type; JStr full_type]
            then (score + 50)%Q else score)
      else score) instrument_types s)%Q.
Proof.
  apply bonus_fold_ge. intros s0 [a b].
  destruct (_ || _); [|apply Qle_refl].
  destruct (existsb _ _); [lra|apply Qle_refl].
Qed.

Lemma exchange_bonus_ge parts i s :
  (s <= fold_left (fun score exchange =>
      if str_in exchange parts && jeq (get i "exchange") (JStr exchange)
      then (score + 50)%Q else score) exchanges s)%Q.
Proof.
  apply bonus_fold_ge. intros s0 x. destruct (_ && _); [lra|apply Qle_refl].
Qed.






Lemma insert_desc_In x y l : In x (insert_desc y l) <-> x = y \/ In x l.
Proof.
  induction l as [|z l IH]; simpl.
  - intuition.
  - destruct (Qgtb (score z) (score y)); simpl; rewrite ?IH; intuition.
Qed.

Lemma sort_desc_In x l : In x (sort_desc l) <-> In x l.
Proof.
  induction l as [|y l IH]; simpl; [tauto|].
  rewrite insert_desc_In, IH. intuition.
Qed.


End SearchFacts.

Section DirectoryFacts.
Import Py Spec.

(** C9.  Against a directory without instruments every lookup returns
    the empty list or None, and none raises: the fuzzy search and the
    token, ISIN, type and exchange lookups of [utils/instrument_mapper.py]
    on the cache that [__init__] leaves, the two lookups of
    [market/instrument_mapper.py] on the frame that a failed load leaves,
    and the candidate search of the prompt processor. *)
Theorem lookups_on_empty_directory
    (partial_ratio : string -> string -> Z) (query segment trading_symbol key : string)
    (limit : Z) (token isin instrument_type exchange : jval) :
  InstrumentMapper.smart_search partial_ratio InstrumentMapper.new query limit = Ok [] /\
  InstrumentMapper.get_instrument_by_token InstrumentMapper.new token = None /\
  InstrumentMapper.get_instrument_by_isin InstrumentMapper.new isin = None /\
  InstrumentMapper.get_instruments_by_type InstrumentMapper.new instrument_type = [] /\
  InstrumentMapper.get_instruments_by_exchange InstrumentMapper.new exchange = [] /\
  MarketInstrumentMapper.search_by_trading_symbol
    MarketInstrumentMapper.unloaded segment trading_symbol = None /\
  MarketInstrumentMapper.get_instrument_details MarketInstrumentMapper.unloaded key = Ok None /\
  PromptProcessor.find_matching_instruments (Ok []) (PStr query) = [] /\
  PromptProcessor.find_matching_instruments
    (InstrumentMapper.get_all_instruments InstrumentMapper.new) (PStr query) = [].
Proof.
  repeat split.
  unfold InstrumentMapper.smart_search. simpl.
  unfold slice_to. destruct (0 <=? limit)%Z; simpl; now rewrite take_nil.
Qed.

Lemma startswith_spec p s :
  startswith p s = true <-> exists b, s = p +:+ b.
Proof.
  revert s. induction p as [|a p IH]; intros s; simpl.
  - split; [eauto|auto].
  - destruct s as [|c s]; simpl.
    + split; [discriminate|]. intros [b Hb]. discriminate.
    + rewrite andb_true_iff, IH. split.
      * intros [Hac [b ->]]. apply Ascii.eqb_eq in Hac. subst. eauto.
      * intros [b Hb]. injection Hb as -> ->. split; [apply Ascii.eqb_refl|eauto].
Qed.

(** [contains] decides substring occurrence. *)
Lemma contains_spec sub s :
  contains sub s = true <-> substring_of sub s.
Proof.
  unfold substring_of. induction s as [|c s IH].
  - simpl. rewrite orb_false_r, startswith_spec. split.
    + intros [b Hb]. exists "", b. exact Hb.
    + intros ([|a0 a] & b & Hb); [eauto|discriminate].
  - simpl. rewrite orb_true_iff, startswith_spec, IH. split.
    + intros [[b Hb]|(a & b & Hb)].
      * exists "", b. exact Hb.
      * exists (String c a), b. simpl. now rewrite Hb.
    + intros ([|a0 a] & b & Hb).
      * left. eauto.
      * right. simpl in Hb. injection Hb as -> ->. eauto.
Qed.

Lemma mentions_b_spec q i : mentions_b q i = true <-> mentions q i.
Proof.
  unfold mentions_b, mentions. now rewrite orb_true_iff, !contains_spec.
Qed.

Lemma instrument_matches_well_formed q i :
  well_formed i -> PromptProcessor.instrument_matches q i = Ok (mentions_b q i).
Proof.
  intros ([ts Hts] & Hcn & _). unfold PromptProcessor.instrument_matches, getitem, mentions_b.
  rewrite Hts. simpl. destruct (contains q ts); simpl; [reflexivity|].
  destruct Hcn as [->|[n ->]]; reflexivity.
Qed.

Lemma to_candidate_well_formed i :
  well_formed i -> PromptProcessor.to_candidate i = Ok (candidate_of i).
Proof.
  intros ([ts Hts] & Hcn & [ex Hex] & [ty Hty]).
  unfold PromptProcessor.to_candidate, getitem, candidate_of.
  rewrite Hts, Hex, Hty. simpl.
  destruct Hcn as [->|[n ->]]; simpl; rewrite ?Hts; reflexivity.
Qed.

Lemma collect_well_formed q insts :
  Forall well_formed insts ->
  PromptProcessor.collect q insts = Ok (map candidate_of (List.filter (mentions_b q) insts)).
Proof.
  induction 1 as [|i insts Hi _ IH]; simpl; [reflexivity|].
  rewrite (instrument_matches_well_formed q i Hi). simpl.
  destruct (mentions_b q i); simpl.
  - rewrite (to_candidate_well_formed i Hi). simpl. now rewrite IH.
  - exact IH.
Qed.

(** C10.  With [q] the stripped, upper-cased query:
    [find_matching_instruments] returns, in directory order, the
    candidates of exactly those instruments whose trading symbol or
    upper-cased company name contains [q] as a substring; when the
    directory call or the loop raises, it returns the empty list. *)
Theorem candidates_by_containment
    (src : result (list (gmap string jval))) (query : string) :
  let q := upper (strip query) in
  (forall insts, src = Ok insts -> Forall well_formed insts ->
     PromptProcessor.find_matching_instruments src (PStr query)
       = map candidate_of (List.filter (mentions_b q) insts) /\
     forall i, In i (List.filter (mentions_b q) insts) <-> In i insts /\ mentions q i) /\
  (forall e, PromptProcessor.find_matching_body src (PStr query) = Raise e ->
     PromptProcessor.find_matching_instruments src (PStr query) = []) /\
  (forall e, src = Raise e ->
     PromptProcessor.find_matching_instruments src (PStr query) = []).
Proof.
  intros q. split; [|split].
  - intros insts -> Hwf. split.
    + unfold PromptProcessor.find_matching_instruments, PromptProcessor.find_matching_body.
      simpl. fold q. now rewrite (collect_well_formed q insts Hwf).
    + intros i. rewrite filter_In, mentions_b_spec. tauto.
  - intros e He. unfold PromptProcessor.find_matching_instruments. now rewrite He.
  - intros e ->. reflexivity.
Qed.

(** The mapper class of [utils/instrument_mapper.py], the one that [main]
    hands to the prompt processor, has no [get_all_instruments]: with it
    the search takes the failure path for every directory and query. *)
Remark candidates_with_repository_mapper (self : InstrumentMapper.mapper) (query : pyval) :
  PromptProcessor.find_matching_instruments
    (InstrumentMapper.get_all_instruments self) query = [].
Proof. destruct query; reflexivity. Qed.

Lemma candidates_by_containment_witness :
  PromptProcessor.find_matching_instruments (Ok Samples.listing) (PStr " tata ")
    = map candidate_of (List.filter (mentions_b (upper (strip " tata "))) Samples.listing) /\
  forall i, In i (List.filter (mentions_b (upper (strip " tata "))) Samples.listing)
            <-> In i Samples.listing /\ mentions (upper (strip " tata ")) i.
Proof.
  refine (proj1 (candidates_by_containment (Ok Samples.listing) " tata ")
                Samples.listing eq_refl _).
  unfold Samples.listing.
  repeat (apply List.Forall_cons;
          [split; [eexists; vm_compute; reflexivity|];
           split; [right; eexists; vm_compute; reflexivity|];
           split; vm_compute; eauto|]).
  apply List.Forall_nil.
Defined.

End DirectoryFacts.

(* ===================================================================== *)
(** ** Support and resistance *)
(* ===================================================================== *)

Section LevelFacts.
Import Py StockProcessor.

(** The [return] statement calls [tolist] on what [sorted] built, a list:
    the call raises and the [except] branch answers for every frame. *)
Lemma find_support_resistance_empty (data : list bar) (window : nat) :
  find_support_resistance data window = Levels [] [].
Proof. reflexivity. Qed.

(** C8, on the sample bars.  The local maxima and minima that the
    specification describes are computed (the high 13 and the low 0 of
    bar 12), and [find_support_resistance] returns neither: both lists
    are empty. *)
Theorem support_resistance_levels_dropped :
  elements (resistance_levels Samples.bars 20) = [13 # 1]%Q /\
  elements (support_levels Samples.bars 20) = [0 # 1]%Q /\
  find_support_resistance Samples.bars 20 = Levels [] [].
Proof. vm_compute. repeat split. Qed.

End LevelFacts.

(* ===================================================================== *)
(** ** The analysis dispatcher *)
(* ===================================================================== *)

Section DispatchFacts.
Import Py Spec AnalysisProcessor.

Variable payload : Type.
Variable get_stock_data : pyval -> pyval -> response payload.
Variable analysis : string -> list (response payload) -> gmap string pyval -> result payload.

(** The dict literal of the dispatcher names [_analyze_historical_data]
    first, which the class does not define. *)
Lemma build_methods_raises :
  build_methods payload get_stock_data analysis analysis_method_names
  = Raise (Exn AttributeError
             "'AnalysisProcessor' object has no attribute '_analyze_historical_data'").
Proof. reflexivity. Qed.

(** So every request is answered by the [except] branch, before any
    handler is looked up. *)
Lemma process_analysis_request_fails (req : request) (tr : list event) :
  process_analysis_request payload get_stock_data analysis req tr
  = (Ok (failure payload
           "'AnalysisProcessor' object has no attribute '_analyze_historical_data'"),
     tr).
Proof. reflexivity. Qed.

(** C6, on a request whose intent is not in the mapping.  No handler is
    entered and nothing is fetched, and the result has success = false,
    but its error is the AttributeError of the dict literal, not the
    "Unsupported analysis type" message of the [else] branch. *)
Theorem unknown_intent_error (params : gmap string pyval) (tr : list event) :
  let req := Request (Some "dividend_history") (Some params) in
  assoc "dividend_history" analysis_method_names = None /\
  process_analysis_request payload get_stock_data analysis req tr
  = (Ok (Response payload false None
           (Some "'AnalysisProcessor' object has no attribute '_analyze_historical_data'")),
     tr) /\
  fst (process_analysis_request payload get_stock_data analysis req tr)
  <> Ok (failure payload "Unsupported analysis type: dividend_history").
Proof.
  intros req. split; [reflexivity|]. split.
  - apply process_analysis_request_fails.
  - rewrite process_analysis_request_fails. simpl. unfold failure. intros H.
    injection H as H. discriminate.
Qed.

Lemma single_symbol_failure name params symbol from_date tr :
  params !! "symbol" = Some symbol ->
  params !! "from_date" = Some from_date ->
  success payload (get_stock_data symbol from_date) = false ->
  single_symbol payload get_stock_data analysis name params tr
  = (Ok (get_stock_data symbol from_date), tr ++ [Fetch symbol from_date]).
Proof.
  intros Hs Hd Hf.
  unfold single_symbol, try_except, fetch, emit, lift, getitem, mbind, M_bind, mret, M_ret.
  rewrite Hs, Hd. simpl. rewrite Hf. reflexivity.
Qed.

Lemma comparison_failure params symbol1 symbol2 from_date tr :
  params !! "symbol1" = Some symbol1 ->
  params !! "symbol2" = Some symbol2 ->
  params !! "from_date" = Some from_date ->
  success payload (get_stock_data symbol1 from_date) = false \/
  success payload (get_stock_data symbol2 from_date) = false ->
  _analyze_comparison payload get_stock_data analysis params tr
  = (Ok (failure payload "Failed to fetch comparison data"),
     tr ++ [Fetch symbol1 from_date; Fetch symbol2 from_date]).
Proof.
  intros H1 H2 Hd Hf.
  unfold _analyze_comparison, try_except, fetch, emit, lift, getitem, mbind, M_bind, mret, M_ret.
  rewrite H1, H2, Hd. simpl.
  assert (Hor : negb (success payload (get_stock_data symbol1 from_date))
                || negb (success payload (get_stock_data symbol2 from_date)) = true).
  { destruct Hf as [-> | ->]; simpl; [reflexivity|apply orb_true_r]. }
  rewrite Hor. rewrite <- app_assoc. reflexivity.
Qed.

(** C7, as amended.  Each handler of one symbol (price movement, market
    sentiment, volume, support and resistance, moving averages, RSI,
    stock details) returns the failure dict of its fetch as it is, after
    that one fetch and without computing anything.  The comparison
    handler fetches both symbols and, when either fetch failed, returns
    its own failure dict with the error "Failed to fetch comparison
    data", again without computing anything. *)
Theorem fetch_failure_results (params : gmap string pyval) (tr : list event) :
  (forall symbol from_date h,
     params !! "symbol" = Some symbol ->
     params !! "from_date" = Some from_date ->
     success payload (get_stock_data symbol from_date) = false ->
     In h (single_symbol_handlers payload get_stock_data analysis) ->
     h params tr = (Ok (get_stock_data symbol from_date), tr ++ [Fetch symbol from_date])) /\
  (forall symbol1 symbol2 from_date,
     params !! "symbol1" = Some symbol1 ->
     params !! "symbol2" = Some symbol2 ->
     params !! "from_date" = Some from_date ->
     success payload (get_stock_data symbol1 from_date) = false \/
     success payload (get_stock_data symbol2 from_date) = false ->
     _analyze_comparison payload get_stock_data analysis params tr
     = (Ok (Response payload false None (Some "Failed to fetch comparison data")),
        tr ++ [Fetch symbol1 from_date; Fetch symbol2 from_date])).
Proof.
  split.
  - intros symbol from_date h Hs Hd Hf Hin.
    unfold single_symbol_handlers in Hin. simpl in Hin.
    repeat (destruct Hin as [<-|Hin]; [now apply single_symbol_failure|]).
    destruct Hin.
  - intros. now apply comparison_failure.
Qed.

(** The sector handler fetches nothing, its list of stocks being empty. *)
Remark sector_handler_fetches_nothing (params : gmap string pyval) (sector : pyval)
    (tr : list event) :
  params !! "sector" = Some sector ->
  snd (_analyze_sector payload get_stock_data analysis params tr)
  = tr ++ [Analyse "_analyze_sector"].
Proof.
  intros Hs.
  unfold _analyze_sector, try_except, analyse, emit, lift, getitem, mbind, M_bind, mret, M_ret.
  rewrite Hs. simpl.
  destruct (analysis "_analyze_sector" [] params); reflexivity.
Qed.

End DispatchFacts.

Section DispatchInstances.
Import Py AnalysisProcessor.

Lemma fetch_failure_results_witness :
  _analyze_rsi unit Samples.failing_fetch Samples.no_analysis Samples.rsi_params []
  = (Ok (Samples.failing_fetch (PStr "TCS") (PDate Samples.now)),
     [] ++ [Fetch (PStr "TCS") (PDate Samples.now)]).
Proof.
  apply (proj1 (fetch_failure_results unit Samples.failing_fetch Samples.no_analysis Samples.rsi_params [])
               (PStr "TCS") (PDate Samples.now)).
  - reflexivity.
  - reflexivity.
  - reflexivity.
  - unfold Spec.single_symbol_handlers. simpl. tauto.
Defined.

(** C7, as stated, fails for the comparison handler: both fetches fail
    with "boom", and the handler answers with another error string. *)
Lemma comparison_rewrites_fetch_error :
  success unit (Samples.failing_fetch (PStr "HDFC") (PDate Samples.now)) = false /\
  _analyze_comparison unit Samples.failing_fetch Samples.no_analysis Samples.comparison_params []
  = (Ok (Response unit false None (Some "Failed to fetch comparison data")),
     [Fetch (PStr "HDFC") (PDate Samples.now); Fetch (PStr "ICICI") (PDate Samples.now)]) /\
  fst (_analyze_comparison unit Samples.failing_fetch Samples.no_analysis Samples.comparison_params [])
  <> Ok (Samples.failing_fetch (PStr "HDFC") (PDate Samples.now)).
Proof.
  split; [reflexivity|]. split; [vm_compute; reflexivity|].
  vm_compute. intros H. discriminate.
Qed.

End DispatchInstances.

(* ===================================================================== *)
(** ** The text captured by the groups *)
(* ===================================================================== *)

Section CaptureFacts.
Import Py Re Spec Captures.

Lemma append_length (a b : string) :
  String.length (a +:+ b) = (String.length a + String.length b)%nat.
Proof. induction a as [|c a IH]; simpl; [reflexivity|]. now rewrite IH. Qed.

Lemma substring_prefix (w s : string) :
  substring 0 (String.length w) (w +:+ s) = w.
Proof.
  induction w as [|c w IH]; simpl.
  - destruct s; reflexivity.
  - now rewrite IH.
Qed.

Lemma consumed_append (w s : string) : consumed (w +:+ s) s = w.
Proof.
  unfold consumed. rewrite append_length.
  replace (String.length w + String.length s - String.length s)%nat
    with (String.length w) by lia.
  apply substring_prefix.
Qed.

Lemma run_cls ic items s gs k g :
  run ic (Cls items) s gs k = Some g ->
  exists c s', s = String c s' /\ class_has ic items c = true /\ k s' gs = Some g.
Proof.
  simpl. destruct s as [|c s']; [discriminate|].
  destruct (class_has ic items c) eqn:E; [|discriminate]. eauto.
Qed.

Lemma star_cls ic items k fuel :
  forall s gs g,
    star_loop (run ic (Cls items)) k fuel s gs = Some g ->
    exists w s', s = w +:+ s' /\ string_forall (class_has ic items) w = true /\
                 k s' gs = Some g.
Proof.
  induction fuel as [|fuel IH]; intros s gs g H; cbn [star_loop] in H.
  - exists "", s. auto.
  - destruct (run ic (Cls items) s gs _) as [g0|] eqn:E.
    + inversion H; subst g0. apply run_cls in E.
      destruct E as (c & s1 & -> & Hc & Hk1). cbv beta in Hk1.
      destruct (String.length s1 <? String.length (String c s1))%nat; [|discriminate].
      destruct (IH _ _ _ Hk1) as (w & s' & -> & Hw & Hk).
      exists (String c w), s'. simpl. rewrite Hc, Hw. auto.
    + exists "", s. auto.
Qed.

(** A repeated class consumes a non-empty run of characters of the class
    and leaves the groups alone. *)
Lemma run_plus_cls ic items s gs k g :
  run ic (Plus (Cls items)) s gs k = Some g ->
  exists w s', s = w +:+ s' /\ w <> "" /\
               string_forall (class_has ic items) w = true /\ k s' gs = Some g.
Proof.
  intros H. change (run ic (Plus (Cls items)) s gs k)
    with (run ic (Cls items) s gs
            (fun s1 gs1 => star_loop (run ic (Cls items)) k (String.length s1) s1 gs1)) in H.
  apply run_cls in H. destruct H as (c & s1 & -> & Hc & Hs).
  apply star_cls in Hs. destruct Hs as (w & s' & -> & Hw & Hk).
  exists (String c w), s'. simpl. rewrite Hc, Hw.
  split; [reflexivity|]. split; [discriminate|]. split; [reflexivity|exact Hk].
Qed.

Lemma captures_ok_insert_other ic T j v gs :
  class_of T j = None -> captures_ok ic T gs -> captures_ok ic T (<[j := v]> gs).
Proof.
  intros Hj Hok j' items w Hc Hl.
  destruct (decide (j' = j)) as [->|Hne]; [congruence|].
  rewrite list_lookup_insert_ne in Hl by congruence. eauto.
Qed.

Lemma captures_ok_insert ic T j items w gs :
  class_of T j = Some items -> w <> "" ->
  string_forall (class_has ic items) w = true ->
  captures_ok ic T gs -> captures_ok ic T (<[j := Some w]> gs).
Proof.
  intros Hj Hne Hw Hok j' items' w' Hc Hl.
  destruct (decide (j' = j)) as [->|Hd].
  - destruct (decide (j < length gs)%nat) as [Hlt|Hge].
    + rewrite list_lookup_insert_eq in Hl by exact Hlt.
      injection Hl as <-. rewrite Hj in Hc. injection Hc as <-. auto.
    + rewrite list_insert_ge in Hl by lia. eauto.
  - rewrite list_lookup_insert_ne in Hl by congruence. eauto.
Qed.

Lemma star_loop_captures ic T (Q : groups -> Prop) step k :
  (forall s gs k' g, captures_ok ic T gs ->
     (forall s' gs' g', captures_ok ic T gs' -> k' s' gs' = Some g' -> Q g') ->
     step s gs k' = Some g -> Q g) ->
  (forall s' gs' g', captures_ok ic T gs' -> k s' gs' = Some g' -> Q g') ->
  forall fuel s gs g, captures_ok ic T gs -> star_loop step k fuel s gs = Some g -> Q g.
Proof.
  intros Hstep Hk. induction fuel as [|fuel IH]; intros s gs g Hok Hrun; simpl in Hrun.
  - eauto.
  - destruct (step s gs _) as [g0|] eqn:E.
    + inversion Hrun; subst g0. eapply Hstep; [exact Hok| |exact E].
      intros s' gs' g' Hok' Hk'. simpl in Hk'.
      destruct (String.length s' <? String.length s)%nat; [|discriminate]. eauto.
    + eauto.
Qed.

(** What a run hands to its continuation keeps the class groups in order. *)
Lemma run_captures ic T (Q : groups -> Prop) r :
  respects T r = true ->
  forall s gs k g,
    captures_ok ic T gs ->
    (forall s' gs' g', captures_ok ic T gs' -> k s' gs' = Some g' -> Q g') ->
    run ic r s gs k = Some g -> Q g.
Proof.
  induction r as [| c | items | r1 IH1 r2 IH2 | r1 IH1 r2 IH2 | r1 IH1 | r1 IH1 | r1 IH1 | n r1 IH1];
    intros Hr s gs k g Hok Hk Hrun; simpl in Hrun, Hr.
  - eauto.
  - destruct s as [|c' s']; [discriminate|].
    destruct (lit_eq ic c c'); [|discriminate]. eauto.
  - destruct s as [|c' s']; [discriminate|].
    destruct (class_has ic items c'); [|discriminate]. eauto.
  - apply andb_true_iff in Hr. destruct Hr as [Hr1 Hr2].
    eapply (IH1 Hr1); [exact Hok| |exact Hrun].
    intros s' gs' g' Hok' Hrun'. cbv beta in Hrun'. eapply (IH2 Hr2); eauto.
  - apply andb_true_iff in Hr. destruct Hr as [Hr1 Hr2].
    destruct (run ic r1 s gs k) as [g0|] eqn:E.
    + inversion Hrun; subst g0. eapply (IH1 Hr1); eauto.
    + eapply (IH2 Hr2); eauto.
  - destruct (run ic r1 s gs k) as [g0|] eqn:E.
    + inversion Hrun; subst g0. eapply (IH1 Hr); eauto.
    + eauto.
  - eapply (star_loop_captures ic T Q (run ic r1) k); [| |exact Hok|exact Hrun]; eauto.
  - eapply (IH1 Hr); [exact Hok| |exact Hrun].
    intros s1 gs1 g1 Hok1 Hloop. simpl in Hloop.
    eapply (star_loop_captures ic T Q (run ic r1) k); [| |exact Hok1|exact Hloop]; eauto.
  - destruct (class_of T (pred n)) as [items|] eqn:Ec.
    + destruct r1 as [| | | | | | | r2 |]; try discriminate.
      destruct r2 as [| |items'| | | | | |]; try discriminate.
      apply bool_decide_eq_true in Hr. subst items'.
      apply run_plus_cls in Hrun.
      destruct Hrun as (w & s' & -> & Hne & Hw & Hk').
      rewrite consumed_append in Hk'.
      eapply Hk; [|exact Hk']. eapply captures_ok_insert; eauto.
    + eapply (IH1 Hr); [exact Hok| |exact Hrun].
      intros s' gs' g' Hok' Hk'. simpl in Hk'.
      eapply Hk; [|exact Hk']. now apply captures_ok_insert_other.
Qed.

Lemma captures_ok_initial ic T n : captures_ok ic T (replicate n None).
Proof.
  intros j items w _ Hl. apply lookup_replicate in Hl. destruct Hl as [Hl _]. discriminate.
Qed.

Lemma search_captures p s m :
  respects (class_groups (body p)) (body p) = true ->
  search p s = Some m -> captures_ok (ignorecase p) (class_groups (body p)) m.
Proof.
  intros Hr.
  assert (Hat : forall s0 m0, match_at p s0 = Some m0 ->
                  captures_ok (ignorecase p) (class_groups (body p)) m0).
  { intros s0 m0 H. unfold match_at in H.
    eapply (run_captures _ _ (captures_ok (ignorecase p) (class_groups (body p))) _ Hr);
      [apply captures_ok_initial| |exact H].
    intros s' gs' g' Hok Hk. now inversion Hk; subst. }
  induction s as [|c s IH]; simpl; intros H.
  - destruct (match_at p "") eqn:E; [|discriminate]. inversion H; subst. eauto.
  - destruct (match_at p (String c s)) eqn:E.
    + inversion H; subst. eauto.
    + auto.
Qed.

Lemma patterns_respect_classes :
  forallb (fun rule => respects (class_groups (body (snd rule))) (body (snd rule)))
          PromptProcessor.patterns = true.
Proof. vm_compute. reflexivity. Qed.

(** A first match has the groups of its rule, and its class groups hold
    texts of their class. *)
Lemma first_match_captures text qt m :
  first_match text = Some (qt, m) ->
  exists n D ic T,
    rule_groups qt = Some (n, D) /\ rule_classes qt = Some (ic, T) /\
    groups_inv n D m /\ captures_ok ic T m.
Proof.
  intros H. apply first_match_in_split in H.
  destruct H as (pre & pat & post & Hsplit & _ & Hm).
  assert (Ha : assoc qt PromptProcessor.patterns = Some pat).
  { rewrite Hsplit. apply assoc_app_fresh.
    pose proof patterns_names_distinct as Hnd. rewrite Hsplit in Hnd.
    rewrite map_app in Hnd. simpl in Hnd.
    apply NoDup_app in Hnd. destruct Hnd as (_ & Hdisj & _).
    intros Hin. apply (Hdisj qt); [now apply list_elem_of_In|left]. }
  exists (ngroups pat), (must_set (body pat)), (ignorecase pat), (class_groups (body pat)).
  unfold rule_groups, rule_classes. rewrite Ha. simpl.
  split; [reflexivity|]. split; [reflexivity|]. split.
  - eapply search_groups; eauto.
  - apply search_captures with (s := text); [|exact Hm].
    pose proof patterns_respect_classes as Hall.
    rewrite forallb_forall in Hall. apply (Hall (qt, pat)).
    rewrite Hsplit. apply in_or_app. right. now left.
Qed.

End CaptureFacts.

Section NumberFacts.
Import Py Re Spec Captures.

Ltac each_char c := destruct c as [[] [] [] [] [] [] [] []].

Lemma digit_class ic c : class_has ic [CDigit] c = true -> is_digit c = true.
Proof. destruct ic; each_char c; vm_compute; congruence. Qed.

Lemma name_class ic c :
  class_has ic [CRange "A" "Z"; CRange "a" "z"; CSpace] c = true ->
  is_letter c || is_space c = true.
Proof. destruct ic; each_char c; vm_compute; congruence. Qed.

Lemma digit_facts c :
  is_digit c = true ->
  is_space c = false /\ 0 <= digit_val c /\
  Ascii.eqb c "-" = false /\ Ascii.eqb c "+" = false.
Proof. each_char c; vm_compute; intuition congruence. Qed.

Lemma letter_facts c :
  is_letter c = true ->
  is_space c = false /\ is_digit c = false /\ Ascii.eqb c "_" = false /\
  Ascii.eqb c "-" = false /\ Ascii.eqb c "+" = false.
Proof. each_char c; vm_compute; intuition congruence. Qed.

Lemma string_forall_impl (P Q : ascii -> bool) s :
  (forall c, P c = true -> Q c = true) ->
  string_forall P s = true -> string_forall Q s = true.
Proof.
  intros HPQ. induction s as [|c s IH]; simpl; [reflexivity|].
  rewrite !andb_true_iff. intros [Hc Hs]. auto.
Qed.

Lemma rstrip_no_space s :
  string_forall (fun c => negb (is_space c)) s = true -> rstrip s = s.
Proof.
  induction s as [|c s IH]; simpl; [reflexivity|].
  rewrite andb_true_iff. intros [Hc Hs]. rewrite (IH Hs).
  apply negb_true_iff in Hc. rewrite Hc. destruct s; reflexivity.
Qed.

Lemma strip_no_space s :
  string_forall (fun c => negb (is_space c)) s = true -> strip s = s.
Proof.
  intros H. unfold strip.
  assert (Hl : lstrip s = s).
  { destruct s as [|c s]; [reflexivity|]. simpl in *.
    apply andb_true_iff in H. destruct H as [Hc _].
    apply negb_true_iff in Hc. now rewrite Hc. }
  rewrite Hl. now apply rstrip_no_space.
Qed.

(** Under the sign test of [int], a text that starts with neither sign
    is read as digits. *)
Lemma int_literal_unsigned c r :
  strip (String c r) = String c r ->
  Ascii.eqb c "-" = false -> Ascii.eqb c "+" = false ->
  int_literal (String c r) = int_digits (String c r) 0 false.
Proof.
  intros Hs Hm Hp. unfold int_literal. rewrite Hs.
  each_char c; try reflexivity; vm_compute in Hm, Hp; discriminate.
Qed.

Lemma int_digits_all s :
  string_forall is_digit s = true ->
  forall acc b, 0 <= acc -> s <> "" \/ b = true ->
  exists n, int_digits s acc b = Some n /\ 0 <= n.
Proof.
  induction s as [|c s IH]; simpl; intros H acc b Hacc Hne.
  - destruct Hne as [Hne| ->]; [congruence|]. eauto.
  - apply andb_true_iff in H. destruct H as [Hc Hs]. rewrite Hc.
    destruct (digit_facts c Hc) as (_ & Hv & _).
    apply IH; auto. lia.
Qed.

(** [int] of a non-empty text of digits is a non-negative number. *)
Lemma int_of_digits w :
  w <> "" -> string_forall is_digit w = true ->
  exists n, int_of_str w = Ok n /\ 0 <= n.
Proof.
  intros Hne Hw. unfold int_of_str.
  destruct w as [|c r]; [congruence|].
  assert (Hc : is_digit c = true) by (simpl in Hw; now apply andb_true_iff in Hw).
  destruct (digit_facts c Hc) as (_ & _ & Hm & Hp).
  rewrite int_literal_unsigned; auto.
  - destruct (int_digits_all _ Hw 0 false) as (n & -> & Hn); [lia|now left|]. eauto.
  - apply strip_no_space. eapply string_forall_impl; [|exact Hw].
    intros c0 Hc0. destruct (digit_facts c0 Hc0) as (-> & _). reflexivity.
Qed.

Lemma lstrip_forall P s :
  string_forall P s = true -> string_forall P (lstrip s) = true.
Proof.
  induction s as [|c s IH]; simpl; [reflexivity|].
  intros H. destruct (is_space c); [|exact H].
  apply andb_true_iff in H. tauto.
Qed.

Lemma rstrip_forall P s :
  string_forall P s = true -> string_forall P (rstrip s) = true.
Proof.
  induction s as [|c s IH]; simpl; [reflexivity|].
  rewrite andb_true_iff. intros [Hc Hs]. specialize (IH Hs).
  destruct (rstrip s) as [|c' r].
  - destruct (is_space c); simpl; [reflexivity|]. now rewrite Hc.
  - simpl in *. now rewrite Hc.
Qed.

Lemma lstrip_head s c r : lstrip s = String c r -> is_space c = false.
Proof.
  induction s as [|c0 s IH]; simpl; [discriminate|].
  destruct (is_space c0) eqn:E; [exact IH|]. intros [= <- <-]. exact E.
Qed.

Lemma rstrip_head c r c' r' :
  is_space c = false -> rstrip (String c r) = String c' r' -> c' = c.
Proof.
  simpl. intros Hc. rewrite Hc. destruct (rstrip r); now intros [= <- <-].
Qed.

Lemma strip_head s c r : strip s = String c r -> is_space c = false.
Proof.
  unfold strip. destruct (lstrip s) as [|c0 r0] eqn:El; [discriminate|].
  pose proof (lstrip_head _ _ _ El) as Hc0. intros H.
  now rewrite (rstrip_head _ _ _ _ Hc0 H).
Qed.

(** [int] of a text of letters and whitespace raises ValueError. *)
Lemma int_of_letters w :
  string_forall (fun c => is_letter c || is_space c) w = true ->
  int_of_str w
  = Raise (Exn ValueError ("invalid literal for int() with base 10: '" +:+ w +:+ "'")).
Proof.
  intros Hw. unfold int_of_str.
  assert (Hn : int_literal w = None); [|now rewrite Hn].
  unfold int_literal.
  pose proof (rstrip_forall _ _ (lstrip_forall _ _ Hw)) as Hs. fold (strip w) in Hs.
  destruct (strip w) as [|c r] eqn:Es; [reflexivity|].
  pose proof (strip_head _ _ _ Es) as Hsp.
  simpl in Hs. apply andb_true_iff in Hs. destruct Hs as [Hc _].
  rewrite Hsp, orb_false_r in Hc.
  destruct (letter_facts c Hc) as (_ & Hd & Hu & Hm & Hp).
  assert (Hr : int_digits (String c r) 0 false = None) by (simpl; now rewrite Hd, Hu).
  rewrite <- Hr. clear Hr Hw Es.
  each_char c; try reflexivity; vm_compute in Hm, Hp; discriminate.
Qed.

End NumberFacts.

Section ParameterFacts.
Import Py Re Spec Captures PromptProcessor.

Lemma list_to_map_assoc {V} (l : list (string * V)) (k : string) :
  (list_to_map l : gmap string V) !! k = assoc k l.
Proof.
  induction l as [|[k' v] l IH]; simpl; [apply lookup_empty|].
  destruct (String.eqb_spec k k') as [->|Hne].
  - apply lookup_insert_eq.
  - rewrite lookup_insert_ne by congruence. exact IH.
Qed.

Lemma assoc_In {A} (k : string) (l : list (string * A)) v :
  assoc k l = Some v -> In k (map fst l).
Proof.
  induction l as [|[k' v'] l IH]; simpl; [discriminate|].
  destruct (String.eqb_spec k k') as [->|Hne]; auto.
Qed.

Lemma rule_names qt x :
  rule_groups qt = Some x ->
  In qt ["historical"; "top_performers"; "trend_analysis"; "stock_details";
         "price_movement"; "market_sentiment"; "volume_analysis";
         "sector_performance"; "comparison"; "support_resistance";
         "moving_averages"; "rsi_analysis"; "dividend_history"; "news_sentiment"].
Proof.
  unfold rule_groups. destruct (assoc qt patterns) as [p|] eqn:E; [|discriminate].
  intros _. exact (assoc_In _ _ _ E).
Qed.

(** A date that [_calculate_date_range] returns for a non-negative
    duration lies between [datetime.min] and now. *)
Lemma date_range_bounds now d u t :
  _calculate_date_range now d u = Ok t -> 0 <= d -> 0 <= t <= now.
Proof.
  unfold _calculate_date_range, unit_mapping. intros H Hd.
  assert (Hsub : forall k, 0 < k ->
            (delta ← Datetime.timedelta_days (d * k); Datetime.sub now delta) = Ok t ->
            0 <= t <= now).
  { intros k Hk. unfold Datetime.timedelta_days.
    destruct (Z.abs (d * k) <=? 999999999)%Z; simpl; [|discriminate].
    unfold Datetime.sub.
    destruct (Z.leb_spec 0 (now - d * k * Datetime.us_per_day)); simpl; [|discriminate].
    destruct (_ <=? _)%Z; [|discriminate]. intros [= <-].
    pose proof us_per_day_eq. nia. }
  destruct (String.eqb (lower u) "day").
  { apply (Hsub 1); [lia|]. now rewrite Z.mul_1_r. }
  destruct (String.eqb (lower u) "week").
  { apply (Hsub 7); [lia|]. unfold Datetime.timedelta_weeks in H. now rewrite Z.mul_comm. }
  destruct (String.eqb (lower u) "month"); [apply (Hsub 30); [lia|exact H]|].
  destruct (String.eqb (lower u) "year"); [apply (Hsub 365); [lia|exact H]|].
  discriminate.
Qed.

Ltac rule_case Hrule Hcls Hinv :=
  vm_compute in Hrule, Hcls;
  injection Hrule as <- <-; injection Hcls as <- <-;
  destruct Hinv as [Hlen Hset].

Ltac group_set Hset j w :=
  let H := fresh "H" in
  destruct (Hset j ltac:(simpl; tauto) ltac:(lia)) as [w H];
  simpl in H; injection H as ->.

Ltac digits_of Hok j w n E Hn :=
  let Hne := fresh "Hne" in let Hw := fresh "Hw" in
  destruct (Hok j [CDigit] w eq_refl eq_refl) as [Hne Hw];
  apply (string_forall_impl _ is_digit) in Hw; [|apply digit_class];
  destruct (int_of_digits w Hne Hw) as (n & E & Hn).

Ltac map_lookup :=
  repeat (rewrite lookup_insert_eq || (rewrite lookup_insert_ne by discriminate));
  rewrite ?lookup_empty.

Ltac shape m Hlen :=
  destruct m as [|? [|? [|? [|? ?]]]]; try discriminate Hlen.

Ltac found_value :=
  let Hv := fresh "Hv" in
  intros Hv;
  first [ discriminate Hv
        | injection Hv as <-; eexists; split; [reflexivity|first [assumption|lia]] ].

Ltac lookup_facts :=
  split; [discriminate|]; split;
  [ intros v; map_lookup; found_value
  | intros k v Hk; simpl in Hk;
    repeat (destruct Hk as [<-|Hk]; [map_lookup; found_value|]);
    destruct Hk ].

Ltac letters_of Hok j w E :=
  let Hne := fresh "Hne" in let Hw := fresh "Hw" in
  destruct (Hok j _ w eq_refl eq_refl) as [Hne Hw];
  apply (string_forall_impl _ (fun c => is_letter c || is_space c)) in Hw;
  [|apply name_class];
  pose proof (int_of_letters w Hw) as E.

Ltac default_case Hrule Hcls Hinv Hlen Hext m now :=
  rule_case Hrule Hcls Hinv; shape m Hlen;
  unfold extract, _extract_basic_parameters in Hext; simpl in Hext;
  let t := fresh "t" in let e := fresh "e" in let Ed := fresh "Ed" in
  destruct (_calculate_date_range now 30 "day") as [t|e] eqn:Ed; simpl in Hext; [|discriminate];
  injection Hext as <- <-;
  pose proof (date_range_bounds _ _ _ _ Ed ltac:(lia));
  lookup_facts.

Ltac one_symbol_case Hrule Hcls Hinv Hlen Hset Hext m :=
  rule_case Hrule Hcls Hinv; shape m Hlen;
  let s := fresh "s" in group_set Hset 0%nat s;
  unfold extract in Hext; simpl in Hext;
  injection Hext as <- <-;
  lookup_facts.

(** What the extraction of the rule that matched first yields: never
    for "price_movement", a from_date not after now, and non-negative
    numbers. *)
Lemma extract_facts src now text qt m ps ms :
  first_match text = Some (qt, m) ->
  extract src now qt m = Ok (ps, ms) ->
  qt <> "price_movement" /\
  (forall v, ps !! "from_date" = Some v -> exists t, v = PDate t /\ 0 <= t <= now) /\
  (forall k v, In k ["duration"; "count"; "period"] -> ps !! k = Some v ->
               exists n, v = PInt n /\ 0 <= n).
Proof.
  intros Hfirst Hext.
  destruct (first_match_captures _ _ _ Hfirst) as (n & D & ic & T & Hrule & Hcls & Hinv & Hok).
  pose proof (rule_names _ _ Hrule) as Hqt. simpl in Hqt.
  destruct Hqt as [<-|Hqt].
  { (* historical *)
    rule_case Hrule Hcls Hinv. shape m Hlen.
    group_set Hset 0%nat d. group_set Hset 1%nat u. group_set Hset 2%nat s.
    digits_of Hok 0%nat d nd E Hnd.
    unfold extract, _extract_basic_parameters in Hext. simpl in Hext.
    rewrite E in Hext. simpl in Hext.
    destruct (_calculate_date_range now nd u) as [t|e] eqn:Ed; simpl in Hext; [|discriminate].
    injection Hext as <- <-. pose proof (date_range_bounds _ _ _ _ Ed Hnd).
    lookup_facts. }
  destruct Hqt as [<-|Hqt].
  { (* top_performers *)
    rule_case Hrule Hcls Hinv. shape m Hlen.
    group_set Hset 0%nat c. group_set Hset 1%nat d. group_set Hset 2%nat u.
    digits_of Hok 0%nat c nc Ec Hnc. digits_of Hok 1%nat d nd E Hnd.
    unfold extract, _extract_basic_parameters in Hext. simpl in Hext.
    rewrite Ec in Hext. simpl in Hext. rewrite E in Hext. simpl in Hext.
    destruct (_calculate_date_range now nd u) as [t|e] eqn:Ed; simpl in Hext; [|discriminate].
    injection Hext as <- <-. pose proof (date_range_bounds _ _ _ _ Ed Hnd).
    lookup_facts. }
  destruct Hqt as [<-|Hqt]; [default_case Hrule Hcls Hinv Hlen Hext m now|].
  destruct Hqt as [<-|Hqt]; [default_case Hrule Hcls Hinv Hlen Hext m now|].
  destruct Hqt as [<-|Hqt].
  { (* price_movement: int of the symbol *)
    rule_case Hrule Hcls Hinv. shape m Hlen.
    group_set Hset 0%nat s. group_set Hset 1%nat d. group_set Hset 2%nat u.
    letters_of Hok 0%nat s E.
    unfold extract, _extract_basic_parameters in Hext. simpl in Hext.
    rewrite E in Hext. discriminate. }
  destruct Hqt as [<-|Hqt]; [default_case Hrule Hcls Hinv Hlen Hext m now|].
  destruct Hqt as [<-|Hqt]; [one_symbol_case Hrule Hcls Hinv Hlen Hset Hext m|].
  destruct Hqt as [<-|Hqt]; [one_symbol_case Hrule Hcls Hinv Hlen Hset Hext m|].
  destruct Hqt as [<-|Hqt].
  { (* comparison *)
    rule_case Hrule Hcls Hinv. shape m Hlen.
    group_set Hset 0%nat s1. group_set Hset 1%nat s2.
    unfold extract in Hext. simpl in Hext. injection Hext as <- <-.
    lookup_facts. }
  destruct Hqt as [<-|Hqt]; [one_symbol_case Hrule Hcls Hinv Hlen Hset Hext m|].
  destruct Hqt as [<-|Hqt].
  { (* moving_averages *)
    rule_case Hrule Hcls Hinv. shape m Hlen.
    group_set Hset 1%nat s.
    unfold extract in Hext.
    match type of Hext with context [Re.group [?g; _] 1] => destruct g as [d|] end.
    - digits_of Hok 0%nat d nd E Hnd.
      destruct d as [|c r]; [congruence|]. simpl in Hext.
      rewrite E in Hext. simpl in Hext.
      destruct (_calculate_date_range now nd "day") as [t|e] eqn:Ed; simpl in Hext; [|discriminate].
      injection Hext as <- <-. pose proof (date_range_bounds _ _ _ _ Ed Hnd).
      lookup_facts.
    - simpl in Hext.
      change (10 * (10 * 0 + digit_val "5") + digit_val "0") with 50 in Hext.
      destruct (_calculate_date_range now 50 "day") as [t|e] eqn:Ed; simpl in Hext; [|discriminate].
      injection Hext as <- <-. pose proof (date_range_bounds _ _ _ _ Ed ltac:(lia)).
      lookup_facts. }
  destruct Hqt as [<-|Hqt]; [one_symbol_case Hrule Hcls Hinv Hlen Hset Hext m|].
  destruct Hqt as [<-|Hqt]; [default_case Hrule Hcls Hinv Hlen Hext m now|].
  destruct Hqt as [<-|[]]. default_case Hrule Hcls Hinv Hlen Hext m now.
Qed.

Ltac keys_case Hrule Hinv Hlen Hset Hext m :=
  vm_compute in Hrule; injection Hrule as <- <-; destruct Hinv as [Hlen Hset];
  shape m Hlen;
  let s := fresh "s" in group_set Hset 0%nat s;
  unfold extract in Hext; simpl in Hext; injection Hext as <- <-;
  split; [map_lookup; reflexivity|];
  split; [try discriminate|intros _; map_lookup; eauto].

(** The parameters extracted for these four intents have the symbol (or
    the two symbols) and no from_date. *)
Lemma extract_lacks_from_date src now text qt m ps ms :
  first_match text = Some (qt, m) ->
  In qt ["volume_analysis"; "support_resistance"; "rsi_analysis"; "comparison"] ->
  extract src now qt m = Ok (ps, ms) ->
  ps !! "from_date" = None /\
  (qt = "comparison" -> is_Some (ps !! "symbol1")) /\
  (qt <> "comparison" -> is_Some (ps !! "symbol")).
Proof.
  intros Hfirst Hqt Hext.
  destruct (first_match_groups _ _ _ Hfirst) as (n & D & Hrule & Hinv).
  simpl in Hqt. destruct Hqt as [<-|[<-|[<-|[<-|[]]]]].
  - keys_case Hrule Hinv Hlen Hset Hext m.
  - keys_case Hrule Hinv Hlen Hset Hext m.
  - keys_case Hrule Hinv Hlen Hset Hext m.
  - vm_compute in Hrule; injection Hrule as <- <-; destruct Hinv as [Hlen Hset].
    shape m Hlen. group_set Hset 0%nat s1. group_set Hset 1%nat s2.
    unfold extract in Hext; simpl in Hext; injection Hext as <- <-.
    split; [map_lookup; reflexivity|].
    split; [intros _; map_lookup; eauto|congruence].
Qed.

End ParameterFacts.

(* ===================================================================== *)
(** ** More on the intent matcher *)
(* ===================================================================== *)

Section ParsedRequestFacts.
Import Py Re Spec Captures PromptProcessor.

(** A parsed request comes from the extraction of the first rule that
    matched, or is the empty request of a text that no rule matches. *)
Lemma success_cases src now text p :
  process_prompt src now text = Success p ->
  (first_match text = None /\ p = Parsed None ∅ (MList []) None text) \/
  (exists qt m ps ms,
     first_match text = Some (qt, m) /\ extract src now qt m = Ok (ps, ms) /\
     p = Parsed (Some ("get_" +:+ qt)) (fst (resolve_symbol src ps ms))
                (snd (resolve_symbol src ps ms)) (Some qt) text).
Proof.
  rewrite process_prompt_first_match.
  destruct (first_match text) as [[qt m]|] eqn:Hf.
  - intros H. right. exists qt, m.
    pose proof (commit_outcome src now text qt m) as Hc.
    destruct (extract src now qt m) as [[ps ms]|e]; rewrite Hc in H; simpl in H.
    + injection H as <-. eauto.
    + discriminate.
  - intros [= <-]. now left.
Qed.

(** X1.  No text is ever parsed as a price_movement request: when that
    rule is the first to match, the extraction applies [int] to the
    captured symbol and the error dict is returned. *)
Theorem price_movement_never_parsed
    (src : result (list (gmap string jval))) (now : Z) (text : string) :
  result_query_type (process_prompt src now text) <> Some "price_movement" /\
  forall m, first_match text = Some ("price_movement", m) ->
            exists e, process_prompt src now text = Failure e text.
Proof.
  split.
  - destruct (process_prompt src now text) as [p|e t] eqn:Hp; [|discriminate].
    simpl. destruct (success_cases _ _ _ _ Hp) as [[_ ->]|(qt & m & ps & ms & Hf & He & ->)].
    + discriminate.
    + simpl. destruct (extract_facts _ _ _ _ _ _ _ Hf He) as [Hne _]. congruence.
  - intros m Hf. rewrite process_prompt_first_match, Hf.
    pose proof (commit_outcome src now text "price_movement" m) as Hc.
    destruct (extract src now "price_movement" m) as [[ps ms]|e] eqn:He.
    + destruct (extract_facts _ _ _ _ _ _ _ Hf He) as [Hne _]. congruence.
    + rewrite Hc. simpl. eauto.
Qed.

(** X2.  A from_date in a parsed request is a datetime between
    [datetime.min] and now. *)
Theorem from_date_not_after_now
    (src : result (list (gmap string jval))) (now : Z) (text : string)
    (p : parsed) (v : pyval) :
  process_prompt src now text = Success p ->
  parameters p !! "from_date" = Some v ->
  exists t, v = PDate t /\ 0 <= t <= now.
Proof.
  intros Hp Hv.
  destruct (success_cases _ _ _ _ Hp) as [[_ ->]|(qt & m & ps & ms & Hf & He & ->)].
  - simpl in Hv. rewrite lookup_empty in Hv. discriminate.
  - simpl in Hv. rewrite resolve_symbol_other in Hv by discriminate.
    destruct (extract_facts _ _ _ _ _ _ _ Hf He) as (_ & Hd & _). eauto.
Qed.

Lemma from_date_not_after_now_witness :
  exists t, PDate 63836764200000000 = PDate t /\ 0 <= t <= Samples.now.
Proof.
  eapply (from_date_not_after_now (Ok Samples.listing) Samples.now
            "Show 200 day moving average for Infosys");
    vm_compute; reflexivity.
Defined.

(** X3.  The numbers of a parsed request (duration, count, period) are
    never negative. *)
Theorem parsed_numbers_nonnegative
    (src : result (list (gmap string jval))) (now : Z) (text k : string)
    (p : parsed) (v : pyval) :
  process_prompt src now text = Success p ->
  In k ["duration"; "count"; "period"] ->
  parameters p !! k = Some v ->
  exists n, v = PInt n /\ 0 <= n.
Proof.
  intros Hp Hk Hv.
  destruct (success_cases _ _ _ _ Hp) as [[_ ->]|(qt & m & ps & ms & Hf & He & ->)].
  - simpl in Hv. rewrite lookup_empty in Hv. discriminate.
  - simpl in Hv.
    rewrite resolve_symbol_other in Hv
      by (simpl in Hk; intuition (subst; discriminate)).
    destruct (extract_facts _ _ _ _ _ _ _ Hf He) as (_ & _ & Hn). eauto.
Qed.

Lemma parsed_numbers_nonnegative_witness :
  exists n, PInt 10 = PInt n /\ 0 <= n.
Proof.
  eapply (parsed_numbers_nonnegative (Ok Samples.listing) Samples.now
            "Get top 10 performing stocks in last 30 days" "count").
  - vm_compute. reflexivity.
  - simpl. tauto.
  - vm_compute. reflexivity.
Defined.

End ParsedRequestFacts.

(* ===================================================================== *)
(** ** From the message to the answer *)
(* ===================================================================== *)

Section PipelineFacts.
Import Py Spec PromptProcessor AnalysisProcessor Main.

Variable payload : Type.
Variable get_stock_data : pyval -> pyval -> response payload.
Variable analysis : string -> list (response payload) -> gmap string pyval -> result payload.
Variable data_truthy has_chart_data : payload -> bool.
Variable format_analysis_result : payload -> string.
Variable str_datetime : Z -> string.

(** X4.  Whatever the message and the instrument directory, [main] never
    sends an analysis and nothing is fetched: it answers that it could not
    understand, or that no instrument matches the symbol, or it announces
    the processing and then reports the AttributeError of the dispatcher. *)
Theorem main_never_answers
    (src : result (list (gmap string jval))) (now : Z) (content : string) :
  let out := main payload src get_stock_data analysis data_truthy has_chart_data
                  format_analysis_result str_datetime now content in
  snd out = [] /\
  (fst out = [Message not_understood] \/
   (exists symbol, fst out = [Message (no_instruments +:+ symbol)]) \/
   fst out = [Message processing;
              Message (error_prefix +:+
                "'AnalysisProcessor' object has no attribute '_analyze_historical_data'")]).
Proof.
  unfold main. destruct (process_prompt src now content) as [p|e t]; simpl; [|auto].
  destruct (negb (action_truthy (action p))); simpl; [auto|].
  destruct (_ && _); simpl; [eauto|].
  split; [reflexivity|]. right. right. reflexivity.
Qed.

Lemma resolve_symbol_without_directory e ps ms :
  resolve_symbol (Raise e) ps ms
  = (ps, if truthy (default PNone (ps !! "symbol")) then MList [] else ms).
Proof.
  unfold resolve_symbol. destruct (ps !! "symbol") as [sym|]; simpl; [|reflexivity].
  destruct (truthy sym); [|reflexivity].
  destruct sym; reflexivity.
Qed.

(** X5.  With the mapper class of [utils/instrument_mapper.py], which is
    the one [start] builds, every request that carries a non-empty symbol
    is answered "No matching instruments found" for the symbol as typed. *)
Theorem symbol_requests_find_no_instrument
    (self : InstrumentMapper.mapper) (now : Z) (content : string)
    (p : parsed) (symbol : pyval) :
  process_prompt (InstrumentMapper.get_all_instruments self) now content = Success p ->
  parameters p !! "symbol" = Some symbol ->
  truthy symbol = true ->
  main payload (InstrumentMapper.get_all_instruments self) get_stock_data analysis
       data_truthy has_chart_data format_analysis_result str_datetime now content
  = ([Message (no_instruments +:+ pystr str_datetime symbol)], []).
Proof.
  intros Hp Hs Ht. unfold main. rewrite Hp.
  destruct (success_cases _ _ _ _ Hp) as [[_ ->]|(qt & m & ps & ms & Hf & He & ->)].
  - simpl in Hs. rewrite lookup_empty in Hs. discriminate.
  - unfold InstrumentMapper.get_all_instruments in *.
    rewrite resolve_symbol_without_directory in *. simpl in *.
    rewrite Hs. simpl. rewrite Ht. simpl. reflexivity.
Qed.

Lemma single_symbol_without_from_date name params tr :
  is_Some (params !! "symbol") -> params !! "from_date" = None ->
  single_symbol payload get_stock_data analysis name params tr
  = (Ok (failure payload "'from_date'"), tr).
Proof.
  intros [sym Hs] Hd.
  unfold single_symbol, try_except, lift, getitem, mbind, M_bind.
  rewrite Hs, Hd. reflexivity.
Qed.

Lemma comparison_without_from_date params tr :
  is_Some (params !! "symbol1") -> params !! "from_date" = None ->
  _analyze_comparison payload get_stock_data analysis params tr
  = (Ok (failure payload "'from_date'"), tr).
Proof.
  intros [sym Hs] Hd.
  unfold _analyze_comparison, try_except, lift, getitem, mbind, M_bind.
  rewrite Hs, Hd. reflexivity.
Qed.

Lemma resolve_symbol_keeps_symbol src ps ms :
  is_Some (ps !! "symbol") -> is_Some (fst (resolve_symbol src ps ms) !! "symbol").
Proof.
  intros [sym Hs]. unfold resolve_symbol. rewrite Hs.
  destruct (truthy sym); [|simpl; rewrite Hs; eauto].
  destruct (find_matching_instruments src sym) as [|c [|c' l]]; simpl; rewrite ?Hs; eauto.
  rewrite lookup_insert_ne by discriminate. rewrite lookup_insert_eq. eauto.
Qed.

(** X6.  The parameters that the prompt processor extracts for
    volume_analysis, support_resistance, rsi_analysis and comparison have
    no from_date: the handler that the dispatcher names for the intent
    fails on that key, with the error 'from_date', before it fetches. *)
Theorem parsed_request_cannot_fetch
    (src : result (list (gmap string jval))) (now : Z) (text qt : string)
    (p : parsed) (h : gmap string pyval -> M (response payload)) (tr : list event) :
  process_prompt src now text = Success p ->
  query_type p = Some qt ->
  In qt ["volume_analysis"; "support_resistance"; "rsi_analysis"; "comparison"] ->
  intended_handler payload get_stock_data analysis qt = Some h ->
  h (parameters p) tr = (Ok (Response payload false None (Some "'from_date'")), tr).
Proof.
  intros Hp Hq Hqt Hh.
  destruct (success_cases _ _ _ _ Hp) as [[_ ->]|(qt' & m & ps & ms & Hf & He & ->)];
    [discriminate|].
  simpl in Hq. injection Hq as ->.
  destruct (extract_lacks_from_date _ _ _ _ _ _ _ Hf Hqt He) as (Hd & Hc & Hs).
  assert (Hd' : fst (resolve_symbol src ps ms) !! "from_date" = None)
    by (rewrite resolve_symbol_other by discriminate; exact Hd).
  simpl in Hqt. destruct Hqt as [<-|[<-|[<-|[<-|[]]]]];
    match type of Hh with
    | intended_handler _ _ _ ?q = _ =>
        let Hi := fresh "Hi" in
        assert (Hi := eq_refl : intended_handler payload get_stock_data analysis q
                                = ltac:(let t := eval cbn in
                                          (intended_handler payload get_stock_data analysis q)
                                        in exact t));
        rewrite Hi in Hh; clear Hi
    end;
    injection Hh as <-; simpl.
  - apply single_symbol_without_from_date; [|exact Hd'].
    apply resolve_symbol_keeps_symbol, Hs. discriminate.
  - apply single_symbol_without_from_date; [|exact Hd'].
    apply resolve_symbol_keeps_symbol, Hs. discriminate.
  - apply single_symbol_without_from_date; [|exact Hd'].
    apply resolve_symbol_keeps_symbol, Hs. discriminate.
  - apply comparison_without_from_date; [|exact Hd'].
    rewrite resolve_symbol_other by discriminate. now apply Hc.
Qed.

End PipelineFacts.

Lemma symbol_requests_find_no_instrument_witness :
  Main.main unit (InstrumentMapper.get_all_instruments (InstrumentMapper.Mapper Samples.cache))
    Samples.failing_fetch Samples.no_analysis (fun _ => true) (fun _ => false)
    (fun _ => "") (fun _ => "") Samples.now "Calculate RSI analysis for Wipro"
  = ([Main.Message (Main.no_instruments +:+ "Wipro")], []).
Proof.
  eapply (symbol_requests_find_no_instrument unit Samples.failing_fetch Samples.no_analysis
            (fun _ => true) (fun _ => false) (fun _ => "") (fun _ => "")
            (InstrumentMapper.Mapper Samples.cache) Samples.now
            "Calculate RSI analysis for Wipro" _ (Py.PStr "Wipro"));
    vm_compute; reflexivity.
Defined.

Lemma parsed_request_cannot_fetch_witness :
  AnalysisProcessor._analyze_rsi unit Samples.failing_fetch Samples.no_analysis
    (list_to_map [("symbol", Py.PStr "Wipro"); ("period", Py.PInt 14);
                  ("duration", Py.PInt 30); ("unit", Py.PStr "day")]) []
  = (Py.Ok (AnalysisProcessor.Response unit false None (Some "'from_date'")), []).
Proof.
  pose (p := PromptProcessor.Parsed (Some "get_rsi_analysis")
               (list_to_map [("symbol", Py.PStr "Wipro"); ("period", Py.PInt 14);
                             ("duration", Py.PInt 30); ("unit", Py.PStr "day")])
               (PromptProcessor.MList []) (Some "rsi_analysis")
               "Calculate RSI analysis for Wipro").
  assert (Hp : PromptProcessor.process_prompt (Py.Ok Samples.listing) Samples.now
                 "Calculate RSI analysis for Wipro" = PromptProcessor.Success p)
    by (vm_compute; reflexivity).
  exact (parsed_request_cannot_fetch unit Samples.failing_fetch Samples.no_analysis
           (Py.Ok Samples.listing) Samples.now "Calculate RSI analysis for Wipro"
           "rsi_analysis" p
           (AnalysisProcessor._analyze_rsi unit Samples.failing_fetch Samples.no_analysis) []
           Hp eq_refl (or_intror (or_intror (or_introl eq_refl))) eq_refl).
Defined.

(* ===================================================================== *)
(** ** More on the fuzzy search *)
(* ===================================================================== *)

Section RankingFacts.
Import Py Spec InstrumentMapper MasterData.

Variable partial_ratio : string -> string -> Z.

Lemma Qgtb_false a b : Qgtb a b = false -> (a <= b)%Q.
Proof.
  unfold Qgtb. intros H. apply negb_false_iff in H. now apply Qle_bool_iff.
Qed.

Lemma lt_Qgtb a b : (b < a)%Q -> Qgtb a b = true.
Proof.
  intros H. unfold Qgtb. apply negb_true_iff.
  destruct (Qle_bool a b) eqn:E; [|reflexivity].
  apply Qle_bool_iff in E. exfalso. apply (Qlt_not_le _ _ H E).
Qed.

Lemma insert_desc_sorted x l :
  StronglySorted by_score l -> StronglySorted by_score (insert_desc x l).
Proof.
  induction 1 as [|y l Hl IH Hy]; simpl.
  - repeat constructor.
  - destruct (Qgtb (score y) (score x)) eqn:E.
    + constructor; [exact IH|].
      apply List.Forall_forall. intros z Hz. apply insert_desc_In in Hz.
      destruct Hz as [->|Hz].
      * apply Qgtb_lt in E. unfold by_score. now apply Qlt_le_weak.
      * rewrite List.Forall_forall in Hy. now apply Hy.
    + apply Qgtb_false in E. constructor; [now constructor|].
      constructor; [exact E|].
      apply List.Forall_forall. intros z Hz. rewrite List.Forall_forall in Hy.
      unfold by_score in *. eapply Qle_trans; [apply (Hy z Hz)|exact E].
Qed.

Lemma sort_desc_sorted l : StronglySorted by_score (sort_desc l).
Proof.
  induction l as [|x l IH]; simpl; [constructor|]. now apply insert_desc_sorted.
Qed.

Lemma take_sorted {A} (R : A -> A -> Prop) n l :
  StronglySorted R l -> StronglySorted R (take n l).
Proof.
  intros H. revert n. induction H as [|x l Hl IH Hx]; intros [|n]; simpl; try constructor.
  - apply IH.
  - apply List.Forall_forall. intros y Hy. rewrite List.Forall_forall in Hx. apply Hx.
    rewrite <- (take_drop n l). apply in_or_app. now left.
Qed.

Lemma sorted_app_order {A} (R : A -> A -> Prop) l1 l2 a b :
  StronglySorted R (l1 ++ l2) -> In a l1 -> In b l2 -> R a b.
Proof.
  induction l1 as [|x l1 IH]; simpl; intros H Ha Hb; [destruct Ha|].
  inversion H as [|? ? Hs Hx]; subst. destruct Ha as [->|Ha]; [|now apply IH].
  rewrite List.Forall_forall in Hx. apply Hx. apply in_or_app. now right.
Qed.

Lemma slice_to_take {A} (limit : Z) (l : list A) :
  0 <= limit -> slice_to limit l = take (Z.to_nat limit) l.
Proof. intros H. unfold slice_to. destruct (Z.leb_spec 0 limit); [reflexivity|lia]. Qed.

(** X7.  The entries that [smart_search] returns are in order of
    non-increasing score, and for a limit that is not negative there are
    at most [limit] of them. *)
Theorem smart_search_ranked (self : mapper) (query : string) (limit : Z)
    (res : list search_match) :
  smart_search partial_ratio self query limit = Ok res ->
  StronglySorted by_score res /\
  (0 <= limit -> Z.of_nat (length res) <= limit).
Proof.
  unfold smart_search. destruct (scored _ _ _ _) as [ms|e]; simpl; [|discriminate].
  intros [= <-]. split.
  - unfold slice_to. destruct (0 <=? limit)%Z; apply take_sorted, sort_desc_sorted.
  - intros Hl. rewrite slice_to_take by exact Hl. rewrite length_take. lia.
Qed.

Lemma scored_complete query parts insts ms i s :
  scored partial_ratio query parts insts = Ok ms ->
  In i insts -> score_of partial_ratio query parts i = Ok s -> (50 < s)%Q ->
  In (SearchMatch i s (_format_instrument_display i)) ms.
Proof.
  revert ms. induction insts as [|i0 insts IH]; simpl; intros ms Hs Hin Hi Hgt; [destruct Hin|].
  destruct (score_of partial_ratio query parts i0) as [s0|e] eqn:E0; simpl in Hs; [|discriminate].
  destruct (scored partial_ratio query parts insts) as [ms'|e] eqn:Em; simpl in Hs; [|discriminate].
  destruct Hin as [->|Hin].
  - rewrite Hi in E0. injection E0 as <-.
    rewrite (lt_Qgtb _ _ Hgt) in Hs. injection Hs as <-. now left.
  - specialize (IH _ eq_refl Hin Hi Hgt).
    destruct (Qgtb s0 50); injection Hs as <-; [now right|exact IH].
Qed.

(** X8.  [smart_search] returns the best matches: an instrument of the
    cache that scores above 50 is among the results with that score, or
    the results are [limit] entries none of which scores lower. *)
Theorem smart_search_keeps_the_best (self : mapper) (query : string) (limit : Z)
    (res : list search_match) (i : gmap string jval) (s : Q) :
  smart_search partial_ratio self query limit = Ok res ->
  0 <= limit ->
  In i (_instruments_cache self) ->
  score_of partial_ratio (strip (upper query)) (split (strip (upper query))) i = Ok s ->
  (50 < s)%Q ->
  (exists m, In m res /\ instrument m = i /\ score m = s) \/
  (Z.of_nat (length res) = limit /\ forall r, In r res -> (s <= score r)%Q).
Proof.
  unfold smart_search. intros Hs Hl Hin Hi Hgt.
  destruct (scored _ _ _ _) as [ms|e] eqn:Em; simpl in Hs; [|discriminate].
  injection Hs as <-. rewrite slice_to_take by exact Hl.
  pose proof (scored_complete _ _ _ _ _ _ Em Hin Hi Hgt) as Hm.
  apply (proj2 (sort_desc_In _ _)) in Hm.
  set (L := sort_desc ms) in *. set (k := Z.to_nat limit).
  rewrite <- (take_drop k L) in Hm. apply in_app_or in Hm. destruct Hm as [Hm|Hm].
  - left. eexists. split; [exact Hm|]. split; reflexivity.
  - right. split.
    + rewrite length_take. assert (k < length L)%nat; [|lia].
      destruct (Nat.lt_ge_cases k (length L)) as [?|Hge]; [assumption|].
      rewrite drop_ge in Hm by exact Hge. destruct Hm.
    + intros r Hr.
      pose proof (sort_desc_sorted ms) as Hsorted. fold L in Hsorted.
      rewrite <- (take_drop k L) in Hsorted.
      exact (sorted_app_order _ _ _ _ _ Hsorted Hr Hm).
Qed.

Hypothesis partial_ratio_nonneg : forall a b, 0 <= partial_ratio a b.

Lemma process_instrument_get raw k :
  process_instrument raw !! k
  = assoc k
      [ ("instrument_key",
         JStr (jstr (get raw "exchange") +:+ "-" +:+ jstr (get raw "symbol")));
        ("exchange", get raw "exchange"); ("trading_symbol", get raw "symbol");
        ("name", get raw "name"); ("instrument_type", get raw "type");
        ("short_name", get raw "symbol"); ("isin", get raw "isin");
        ("lot_size", get raw "lot_size"); ("tick_size", get raw "tick_size");
        ("strike", get raw "strike"); ("expiry", get raw "expiry");
        ("token", get raw "token") ].
Proof. unfold process_instrument. now rewrite list_to_map_assoc. Qed.

Lemma process_instrument_field raw k v :
  assoc k
      [ ("instrument_key",
         JStr (jstr (get raw "exchange") +:+ "-" +:+ jstr (get raw "symbol")));
        ("exchange", get raw "exchange"); ("trading_symbol", get raw "symbol");
        ("name", get raw "name"); ("instrument_type", get raw "type");
        ("short_name", get raw "symbol"); ("isin", get raw "isin");
        ("lot_size", get raw "lot_size"); ("tick_size", get raw "tick_size");
        ("strike", get raw "strike"); ("expiry", get raw "expiry");
        ("token", get raw "token") ] = Some v ->
  get (process_instrument raw) k = v.
Proof. intros H. unfold get. now rewrite process_instrument_get, H. Qed.

Lemma score_of_exact_both query parts i name :
  get i "trading_symbol" = JStr query ->
  get i "short_name" = JStr query ->
  i !! "name" = Some (JStr name) ->
  exists s, score_of partial_ratio query parts i = Ok s /\ (190 <= s)%Q.
Proof.
  intros Hsym Hshort Hname. unfold score_of. rewrite Hsym, Hshort, Hname.
  assert (Hj : jeq (JStr query) (JStr query) = true)
    by (unfold jeq; now rewrite bool_decide_eq_true_2).
  rewrite !Hj. simpl. eexists. split; [reflexivity|].
  pose proof (partial_ratio_nonneg query (upper name)) as Hn.
  rewrite Zle_Qle in Hn. change (inject_Z 0) with 0%Q in Hn.
  eapply Qle_trans; [|apply exchange_bonus_ge].
  eapply Qle_trans; [|apply type_bonus_ge].
  repeat match goal with
         | |- context [if ?c then _ else _] => destruct c
         end; lra.
Qed.

(** X9.  In a directory built by [_process_master_data] the short name
    of a record is its trading symbol, so an instrument whose symbol is
    the stripped, upper-cased query earns both exact-match bonuses and
    scores at least 190. *)
Theorem exact_symbol_scores_190 (raw : gmap string jval) (query name : string) :
  raw !! "symbol" = Some (JStr (strip (upper query))) ->
  raw !! "name" = Some (JStr name) ->
  exists s,
    score_of partial_ratio (strip (upper query)) (split (strip (upper query)))
      (process_instrument raw) = Ok s /\
    (190 <= s)%Q.
Proof.
  intros Hsym Hname.
  assert (Hg : get raw "symbol" = JStr (strip (upper query)))
    by (unfold get; now rewrite Hsym).
  apply (score_of_exact_both _ _ _ name).
  - rewrite <- Hg. now apply process_instrument_field.
  - rewrite <- Hg. now apply process_instrument_field.
  - rewrite process_instrument_get. simpl. unfold get. now rewrite Hname.
Qed.

End RankingFacts.

(* ===================================================================== *)
(** ** The processed directory *)
(* ===================================================================== *)

Section MasterDataFacts.
Import Py Spec InstrumentMapper MasterData.

Variable partial_ratio : string -> string -> Z.

Lemma score_of_raises query parts i e :
  score_of partial_ratio query parts i = Raise e -> exists msg, e = Exn AttributeError msg.
Proof.
  unfold score_of. destruct (default (JStr "") (i !! "name")); simpl; intros [= <-]; eauto.
Qed.

Lemma score_of_no_text query parts i :
  (forall s, default (JStr "") (i !! "name") <> JStr s) ->
  exists msg, score_of partial_ratio query parts i = Raise (Exn AttributeError msg).
Proof.
  intros Hname. unfold score_of.
  destruct (default (JStr "") (i !! "name")) as [|s|n]; simpl; eauto.
  now destruct (Hname s).
Qed.

Lemma score_of_nameless query parts raw :
  (forall s, raw !! "name" <> Some (JStr s)) ->
  exists msg,
    score_of partial_ratio query parts (process_instrument raw)
    = Raise (Exn AttributeError msg).
Proof.
  intros Hname. apply score_of_no_text. intros s.
  assert (Hn : process_instrument raw !! "name" = Some (get raw "name"))
    by (rewrite process_instrument_get; reflexivity).
  rewrite Hn. change (get raw "name" <> JStr s). unfold get.
  destruct (raw !! "name") as [v|] eqn:E.
  - change (v <> JStr s). intros ->. now apply (Hname s).
  - discriminate.
Qed.

Lemma scored_raises query parts insts i msg :
  In i insts ->
  score_of partial_ratio query parts i = Raise (Exn AttributeError msg) ->
  exists msg', scored partial_ratio query parts insts = Raise (Exn AttributeError msg').
Proof.
  induction insts as [|i0 insts IH]; simpl; intros Hin Hi; [destruct Hin|].
  destruct (score_of partial_ratio query parts i0) as [s0|e0] eqn:E0; simpl.
  - destruct Hin as [->|Hin]; [congruence|].
    destruct (IH Hin Hi) as [msg' ->]. simpl. eauto.
  - destruct (score_of_raises _ _ _ _ E0) as [msg' ->]. eauto.
Qed.

(** X10.  [_process_master_data] gives every record the key [name], with
    None where the master file has no name.  If one record of the file
    has no name that is a string, [smart_search] on the processed
    directory raises AttributeError for every query. *)
Theorem nameless_record_breaks_search (raw_data : list (gmap string jval))
    (raw : gmap string jval) (query : string) (limit : Z) :
  In raw raw_data ->
  (forall s, raw !! "name" <> Some (JStr s)) ->
  exists msg,
    smart_search partial_ratio (loaded raw_data) query limit
    = Raise (Exn AttributeError msg).
Proof.
  intros Hin Hname. unfold smart_search, loaded, _process_master_data. simpl.
  destruct (score_of_nameless (strip (upper query)) (split (strip (upper query))) raw Hname)
    as [msg Hmsg].
  destruct (scored_raises _ _ _ _ _ (in_map process_instrument _ _ Hin) Hmsg) as [msg' ->].
  simpl. eauto.
Qed.

Lemma find_map {A B} (f : A -> B) (p : B -> bool) (l : list A) :
  List.find p (map f l) = option_map f (List.find (fun x => p (f x)) l).
Proof.
  induction l as [|x l IH]; simpl; [reflexivity|]. rewrite IH. now destruct (p (f x)).
Qed.

Lemma filter_map_comm {A B} (f : A -> B) (p : B -> bool) (l : list A) :
  List.filter p (map f l) = map f (List.filter (fun x => p (f x)) l).
Proof.
  induction l as [|x l IH]; simpl; [reflexivity|]. rewrite IH. now destruct (p (f x)).
Qed.

(** X11.  The four exact lookups on a processed directory are lookups in
    the master file by its own field names: by [token] and [isin] the
    processed form of the first record that matches, by [type] and
    [exchange] the processed forms of all that match, in file order. *)
Theorem lookups_read_the_master_file (raw_data : list (gmap string jval)) (v : jval) :
  get_instrument_by_token (loaded raw_data) v
  = option_map process_instrument (List.find (fun r => jeq (get r "token") v) raw_data) /\
  get_instrument_by_isin (loaded raw_data) v
  = option_map process_instrument (List.find (fun r => jeq (get r "isin") v) raw_data) /\
  get_instruments_by_type (loaded raw_data) v
  = map process_instrument (List.filter (fun r => jeq (get r "type") v) raw_data) /\
  get_instruments_by_exchange (loaded raw_data) v
  = map process_instrument (List.filter (fun r => jeq (get r "exchange") v) raw_data).
Proof.
  unfold get_instrument_by_token, get_instrument_by_isin, get_instruments_by_type,
    get_instruments_by_exchange, loaded, _process_master_data. simpl.
  rewrite !find_map, !filter_map_comm.
  repeat split.
Qed.

End MasterDataFacts.

Lemma ratio_nonneg a b : 0 <= Samples.ratio a b.
Proof. unfold Samples.ratio. destruct (_ || _); lia. Qed.

Lemma smart_search_ranked_witness :
  exists res,
    InstrumentMapper.smart_search Samples.ratio
      (InstrumentMapper.Mapper (Samples.cache ++ Samples.cache))
      "tcs nse infosys limited" 3 = Py.Ok res /\
    map (fun m => Qred (InstrumentMapper.score m)) res = [200; 200; 100]%Q /\
    StronglySorted MasterData.by_score res /\
    (0 <= 3 -> Z.of_nat (length res) <= 3).
Proof.
  eexists. split; [vm_compute; reflexivity|]. split; [vm_compute; reflexivity|].
  apply (smart_search_ranked Samples.ratio
           (InstrumentMapper.Mapper (Samples.cache ++ Samples.cache))
           "tcs nse infosys limited" 3).
  vm_compute. reflexivity.
Defined.

Lemma smart_search_keeps_the_best_witness :
  exists res i s,
    InstrumentMapper.smart_search Samples.ratio
      (MasterData.loaded (take 2 MasterData.master)) "infy nse" 1 = Py.Ok res /\
    In i (InstrumentMapper._instruments_cache (MasterData.loaded (take 2 MasterData.master))) /\
    (50 < s)%Q /\
    ((exists m, In m res /\ InstrumentMapper.instrument m = i /\ InstrumentMapper.score m = s) \/
     (Z.of_nat (length res) = 1 /\
      forall r, In r res -> (s <= InstrumentMapper.score r)%Q)).
Proof.
  eexists. exists (MasterData.process_instrument
                     (list_to_map [("exchange", Py.JStr "NSE"); ("symbol", Py.JStr "INFY");
                                   ("name", Py.JStr "Infosys Limited"); ("type", Py.JStr "EQ");
                                   ("isin", Py.JStr "INE009A01021"); ("lot_size", Py.JInt 1);
                                   ("token", Py.JInt 1594)])).
  eexists.
  assert (Hs : InstrumentMapper.smart_search Samples.ratio
      (MasterData.loaded (take 2 MasterData.master)) "infy nse" 1 = Py.Ok _)
    by (vm_compute; reflexivity).
  assert (Hi : InstrumentMapper.score_of Samples.ratio (Py.strip (Py.upper "infy nse"))
      (Py.split (Py.strip (Py.upper "infy nse")))
      (MasterData.process_instrument
         (list_to_map [("exchange", Py.JStr "NSE"); ("symbol", Py.JStr "INFY");
                       ("name", Py.JStr "Infosys Limited"); ("type", Py.JStr "EQ");
                       ("isin", Py.JStr "INE009A01021"); ("lot_size", Py.JInt 1);
                       ("token", Py.JInt 1594)])) = Py.Ok _)
    by (vm_compute; reflexivity).
  assert (Hin : In (MasterData.process_instrument
         (list_to_map [("exchange", Py.JStr "NSE"); ("symbol", Py.JStr "INFY");
                       ("name", Py.JStr "Infosys Limited"); ("type", Py.JStr "EQ");
                       ("isin", Py.JStr "INE009A01021"); ("lot_size", Py.JInt 1);
                       ("token", Py.JInt 1594)]))
      (InstrumentMapper._instruments_cache (MasterData.loaded (take 2 MasterData.master))))
    by (left; reflexivity).
  split; [exact Hs|]. split; [exact Hin|].
  match type of Hi with
  | _ = Py.Ok ?s => assert (Hgt : (50 < s)%Q) by (vm_compute; reflexivity)
  end.
  split; [exact Hgt|].
  apply (smart_search_keeps_the_best Samples.ratio _ "infy nse" 1 _ _ _ Hs ltac:(lia) Hin Hi Hgt).
Defined.

Lemma exact_symbol_scores_190_witness :
  exists s,
    InstrumentMapper.score_of Samples.ratio (Py.strip (Py.upper " infy "))
      (Py.split (Py.strip (Py.upper " infy ")))
      (MasterData.process_instrument
         (list_to_map [("exchange", Py.JStr "NSE"); ("symbol", Py.JStr "INFY");
                       ("name", Py.JStr "Infosys Limited")])) = Py.Ok s /\
    (190 <= s)%Q.
Proof.
  apply (exact_symbol_scores_190 Samples.ratio ratio_nonneg _ " infy " "Infosys Limited");
    vm_compute; reflexivity.
Defined.

Lemma nameless_record_breaks_search_witness :
  exists msg,
    InstrumentMapper.smart_search Samples.ratio (MasterData.loaded MasterData.master) "infy" 5
    = Py.Raise (Py.Exn Py.AttributeError msg).
Proof.
  apply (nameless_record_breaks_search Samples.ratio MasterData.master
           (list_to_map [("exchange", Py.JStr "BSE"); ("symbol", Py.JStr "XYZ");
                         ("type", Py.JStr "EQ"); ("token", Py.JInt 7)])).
  - right. right. left. reflexivity.
  - intros s. vm_compute. discriminate.
Defined.

(* ===================================================================== *)
(** ** The frame lookups of [market/instrument_mapper.py] *)
(* ===================================================================== *)

Section FrameFacts.
Import Py Captures MarketInstrumentMapper Keys.

Lemma upper_char_idem c : upper_char (upper_char c) = upper_char c.
Proof. destruct c as [[] [] [] [] [] [] [] []]; reflexivity. Qed.

Lemma upper_lower_char c : upper_char (lower_char c) = upper_char c.
Proof. destruct c as [[] [] [] [] [] [] [] []]; reflexivity. Qed.

Lemma is_space_upper c : is_space (upper_char c) = is_space c.
Proof. destruct c as [[] [] [] [] [] [] [] []]; reflexivity. Qed.

Lemma is_space_lower c : is_space (lower_char c) = is_space c.
Proof. destruct c as [[] [] [] [] [] [] [] []]; reflexivity. Qed.

Lemma upper_idem s : upper (upper s) = upper s.
Proof.
  unfold upper. induction s as [|c s IH]; simpl; [reflexivity|].
  now rewrite upper_char_idem, IH.
Qed.

Lemma upper_lower s : upper (lower s) = upper s.
Proof.
  unfold upper, lower. induction s as [|c s IH]; simpl; [reflexivity|].
  now rewrite upper_lower_char, IH.
Qed.

Lemma lstrip_map f s :
  (forall c, is_space (f c) = is_space c) ->
  lstrip (map_string f s) = map_string f (lstrip s).
Proof.
  intros Hf. induction s as [|c s IH]; simpl; [reflexivity|].
  rewrite Hf. now destruct (is_space c).
Qed.

Lemma rstrip_map f s :
  (forall c, is_space (f c) = is_space c) ->
  rstrip (map_string f s) = map_string f (rstrip s).
Proof.
  intros Hf. induction s as [|c s IH]; simpl; [reflexivity|].
  rewrite IH, Hf. destruct (rstrip s); simpl; [|reflexivity].
  now destruct (is_space c).
Qed.

Lemma strip_map f s :
  (forall c, is_space (f c) = is_space c) ->
  strip (map_string f s) = map_string f (strip s).
Proof. intros Hf. unfold strip. now rewrite lstrip_map, rstrip_map. Qed.

Lemma rstrip_spaces r : string_forall is_space r = true -> rstrip r = "".
Proof.
  induction r as [|c r IH]; simpl; [reflexivity|].
  rewrite andb_true_iff. intros [Hc Hr]. now rewrite (IH Hr), Hc.
Qed.

Lemma lstrip_spaces l y : string_forall is_space l = true -> lstrip (l +:+ y) = lstrip y.
Proof.
  induction l as [|c l IH]; simpl; [reflexivity|].
  rewrite andb_true_iff. intros [Hc Hl]. now rewrite Hc, IH.
Qed.

Lemma rstrip_app_spaces y r : string_forall is_space r = true -> rstrip (y +:+ r) = rstrip y.
Proof.
  intros Hr. induction y as [|c y IH]; simpl.
  - now apply rstrip_spaces.
  - now rewrite IH.
Qed.

Lemma strip_app_spaces y r :
  string_forall is_space r = true -> rstrip (lstrip (y +:+ r)) = rstrip (lstrip y).
Proof.
  intros Hr. induction y as [|c y IH].
  - simpl. apply rstrip_spaces. now apply lstrip_forall.
  - change (String c y +:+ r) with (String c (y +:+ r)). cbn [lstrip].
    destruct (is_space c); [exact IH|].
    now apply (rstrip_app_spaces (String c y)).
Qed.

Lemma strip_padded l y r :
  string_forall is_space l = true -> string_forall is_space r = true ->
  strip (l +:+ y +:+ r) = strip y.
Proof.
  intros Hl Hr. unfold strip. rewrite lstrip_spaces by exact Hl.
  now apply strip_app_spaces.
Qed.

Lemma rstrip_cons c s :
  rstrip (String c s)
  = match rstrip s with
    | EmptyString => if is_space c then EmptyString else String c EmptyString
    | r => String c r
    end.
Proof. reflexivity. Qed.

Lemma rstrip_idem s : rstrip (rstrip s) = rstrip s.
Proof.
  induction s as [|c s IH]; [reflexivity|].
  rewrite rstrip_cons. destruct (rstrip s) as [|a r] eqn:E.
  - destruct (is_space c) eqn:Ec; [reflexivity|]. rewrite rstrip_cons. simpl. now rewrite Ec.
  - rewrite rstrip_cons, IH. reflexivity.
Qed.

Lemma strip_idem s : strip (strip s) = strip s.
Proof.
  assert (Hl : lstrip (strip s) = strip s).
  { destruct (strip s) as [|c r] eqn:E; [reflexivity|].
    pose proof (strip_head s c r E) as Hc. simpl. now rewrite Hc. }
  unfold strip at 1. rewrite Hl. unfold strip. apply rstrip_idem.
Qed.

Lemma upper_strip s : upper (strip s) = strip (upper s).
Proof. unfold upper. symmetry. apply strip_map, is_space_upper. Qed.

Lemma lower_strip s : lower (strip s) = strip (lower s).
Proof. unfold lower. symmetry. apply strip_map, is_space_lower. Qed.

Lemma search_by_normal_form self segment trading_symbol :
  search_by_trading_symbol self segment trading_symbol
  = search_by_trading_symbol self (upper segment) (upper (strip trading_symbol)).
Proof.
  unfold search_by_trading_symbol, search_body.
  rewrite upper_idem.
  assert (Hs : upper (strip (upper (strip trading_symbol))) = upper (strip trading_symbol))
    by now rewrite <- upper_strip, strip_idem, upper_idem.
  now rewrite Hs.
Qed.

(** X12.  On ASCII text (the two arguments and the cells of the frame)
    [search_by_trading_symbol] ignores the letter case of both arguments
    and the whitespace around the trading symbol. *)
Theorem search_ignores_case_and_padding (self : mapper)
    (segment trading_symbol l r : string) :
  ascii_frame (df self) ->
  ascii_text segment = true ->
  ascii_text trading_symbol = true ->
  string_forall is_space l = true ->
  string_forall is_space r = true ->
  search_by_trading_symbol self (lower segment) (l +:+ lower trading_symbol +:+ r)
  = search_by_trading_symbol self segment trading_symbol /\
  search_by_trading_symbol self (upper segment) (l +:+ upper trading_symbol +:+ r)
  = search_by_trading_symbol self segment trading_symbol.
Proof.
  intros _ _ _ Hl Hr. split.
  - rewrite search_by_normal_form, (search_by_normal_form self segment trading_symbol).
    rewrite upper_lower, strip_padded by assumption.
    now rewrite <- lower_strip, upper_lower.
  - rewrite search_by_normal_form, (search_by_normal_form self segment trading_symbol).
    rewrite upper_idem, strip_padded by assumption.
    now rewrite <- upper_strip, upper_idem.
Qed.

Lemma append_cons a x y : String a x +:+ y = String a (x +:+ y).
Proof. reflexivity. Qed.

Lemma append_nil_l y : "" +:+ y = y.
Proof. reflexivity. Qed.

Lemma append_char cur c s : (cur +:+ String c "") +:+ s = cur +:+ String c s.
Proof.
  induction cur as [|a cur IH]; [reflexivity|]. rewrite !append_cons. now rewrite IH.
Qed.

Lemma split_bar_length cur s :
  length (split_bar_aux cur s) = S (count_char "|" s).
Proof.
  revert cur. induction s as [|c s IH]; intros cur; simpl; [reflexivity|].
  destruct (Ascii.eqb c "|"); simpl; now rewrite IH.
Qed.

Lemma append_empty s : s +:+ "" = s.
Proof. induction s as [|c s IH]; [reflexivity|]. rewrite append_cons. now rewrite IH. Qed.

Lemma split_bar_plain cur b :
  count_char "|" b = O -> split_bar_aux cur b = [cur +:+ b].
Proof.
  revert cur. induction b as [|c b IH]; intros cur Hb; simpl in *.
  - now rewrite append_empty.
  - destruct (Ascii.eqb c "|"); [discriminate|].
    rewrite IH by exact Hb. now rewrite append_char.
Qed.

Lemma split_bar_key cur a b :
  count_char "|" a = O -> count_char "|" b = O ->
  split_bar_aux cur (a +:+ "|" +:+ b) = [cur +:+ a; b].
Proof.
  intros Ha Hb. revert cur Ha. induction a as [|c a IH]; intros cur Ha.
  - rewrite append_nil_l, append_cons, append_nil_l. simpl.
    rewrite split_bar_plain by exact Hb. now rewrite append_empty, append_nil_l.
  - rewrite append_cons. simpl in *. destruct (Ascii.eqb c "|"); [discriminate|].
    rewrite IH by exact Ha. now rewrite append_char.
Qed.

Lemma has_column_In c frame row v :
  In row frame -> row !! c = Some v -> has_column c frame = true.
Proof.
  intros Hin Hv. unfold has_column. apply existsb_exists. exists row. split; [exact Hin|].
  apply bool_decide_eq_true. eauto.
Qed.

Lemma empty_In frame row c v :
  In row frame -> row !! c = Some v -> empty frame = false.
Proof.
  intros Hin Hv. unfold empty. apply not_true_is_false. intros H.
  rewrite forallb_forall in H. specialize (H row Hin).
  apply bool_decide_eq_true in H. subst. rewrite lookup_empty in Hv. discriminate.
Qed.

(** X13.  On a frame whose rows all carry a segment and an ISIN free of
    bars, a key returned by [search_by_trading_symbol] is accepted by
    [get_instrument_details]: it returns a row of the frame whose segment
    and ISIN are the two halves of the key, and the segment is the one
    asked for up to letter case. *)
Theorem found_key_has_details (self : mapper) (segment trading_symbol key : string) :
  Forall keyed (df self) ->
  search_by_trading_symbol self segment trading_symbol = Some key ->
  exists row s i,
    get_instrument_details self key = Ok (Some row) /\
    In row (df self) /\
    row !! "segment" = Some s /\ row !! "isin" = Some i /\
    key = s +:+ "|" +:+ i /\ upper s = upper segment.
Proof.
  intros Hk. unfold search_by_trading_symbol.
  destruct (empty (df self)) eqn:Ee; [discriminate|].
  unfold search_body.
  destruct (column "segment" (df self)) as [[]|e]; simpl; [|discriminate].
  destruct (column "trading_symbol" (df self)) as [[]|e]; simpl; [|discriminate].
  match goal with
  | |- context [List.filter ?f (df self)] => set (p := f)
  end.
  destruct (List.filter p (df self)) as [|r rest] eqn:Ef; [discriminate|].
  assert (Hr : In r (List.filter p (df self))) by (rewrite Ef; now left).
  apply filter_In in Hr. destruct Hr as [Hin Hp].
  rewrite List.Forall_forall in Hk.
  destruct (Hk r Hin) as (s & i & Hs & Hi & Hbs & Hbi).
  unfold column. rewrite (has_column_In "isin" _ r i Hin Hi). simpl.
  unfold cell. rewrite Hs, Hi. simpl. intros [= <-].
  unfold get_instrument_details. rewrite Ee.
  rewrite (split_bar_key "" s i Hbs Hbi), append_nil_l. simpl. unfold column.
  rewrite (has_column_In "segment" _ r s Hin Hs), (has_column_In "isin" _ r i Hin Hi). simpl.
  match goal with
  | |- context [List.find ?f (df self)] => set (q := f)
  end.
  destruct (List.find q (df self)) as [row|] eqn:Efind.
  - apply find_some in Efind. destruct Efind as [Hrow Hq].
    unfold q in Hq. apply andb_true_iff in Hq. destruct Hq as [Hq1 Hq2].
    apply bool_decide_eq_true in Hq1. apply bool_decide_eq_true in Hq2.
    exists row, s, i. repeat split; try assumption.
    unfold p in Hp. rewrite Hs in Hp.
    destruct (r !! "trading_symbol"); [|discriminate].
    apply andb_true_iff in Hp. destruct Hp as [Hp _]. now apply String.eqb_eq in Hp.
  - exfalso. pose proof (find_none _ _ Efind r Hin) as Hn.
    unfold q in Hn. rewrite !bool_decide_eq_true_2 in Hn by assumption. discriminate.
Qed.

(** X14.  On a frame that is not empty, [get_instrument_details] raises
    ValueError for every key that does not hold exactly one bar: the
    unpacking of the split key is outside any try block. *)
Theorem malformed_key_raises (self : mapper) (instrument_key : string) :
  empty (df self) = false ->
  count_char "|" instrument_key <> 1%nat ->
  exists msg, get_instrument_details self instrument_key = Raise (Exn ValueError msg).
Proof.
  intros He Hc. unfold get_instrument_details. rewrite He.
  pose proof (split_bar_length "" instrument_key) as Hlen.
  destruct (split_bar_aux "" instrument_key) as [|a [|b [|c l]]]; simpl in Hlen.
  - discriminate.
  - unfold unpack_error. simpl. eauto.
  - exfalso. apply Hc. congruence.
  - unfold unpack_error. simpl. eauto.
Qed.

End FrameFacts.

Lemma ascii_sample_frame : Keys.ascii_frame Keys.frame.
Proof.
  intros row c v [<-|[<-|[]]] H;
    apply (elem_of_list_to_map_2 (M := gmap string)) in H;
    repeat (apply elem_of_cons in H; destruct H as [[= -> ->]|H]; [reflexivity|]);
    now apply elem_of_nil in H.
Qed.

Lemma search_ignores_case_and_padding_witness :
  MarketInstrumentMapper.search_by_trading_symbol (MarketInstrumentMapper.Mapper Keys.frame)
    (Py.lower "NSE_EQ") ("  " +:+ Py.lower "Infy" +:+ " ")
  = MarketInstrumentMapper.search_by_trading_symbol (MarketInstrumentMapper.Mapper Keys.frame)
      "NSE_EQ" "Infy" /\
  MarketInstrumentMapper.search_by_trading_symbol (MarketInstrumentMapper.Mapper Keys.frame)
    (Py.upper "NSE_EQ") ("  " +:+ Py.upper "Infy" +:+ " ")
  = MarketInstrumentMapper.search_by_trading_symbol (MarketInstrumentMapper.Mapper Keys.frame)
      "NSE_EQ" "Infy".
Proof.
  apply (search_ignores_case_and_padding (MarketInstrumentMapper.Mapper Keys.frame)
           "NSE_EQ" "Infy" "  " " "); try reflexivity.
  exact ascii_sample_frame.
Defined.

Lemma keyed_frame : Forall Keys.keyed Keys.frame.
Proof.
  repeat constructor.
  - exists "NSE_EQ", "INE009A01021". repeat split; reflexivity.
  - exists "NSE_EQ", "INE467B01029". repeat split; reflexivity.
Qed.

Lemma found_key_has_details_witness :
  exists row s i,
    MarketInstrumentMapper.get_instrument_details (MarketInstrumentMapper.Mapper Keys.frame)
      "NSE_EQ|INE009A01021" = Py.Ok (Some row) /\
    In row (MarketInstrumentMapper.df (MarketInstrumentMapper.Mapper Keys.frame)) /\
    row !! "segment" = Some s /\ row !! "isin" = Some i /\
    "NSE_EQ|INE009A01021" = s +:+ "|" +:+ i /\ Py.upper s = Py.upper "nse_eq".
Proof.
  apply (found_key_has_details (MarketInstrumentMapper.Mapper Keys.frame) "nse_eq" " infy").
  - exact keyed_frame.
  - vm_compute. reflexivity.
Defined.

Lemma malformed_key_raises_witness :
  exists msg,
    MarketInstrumentMapper.get_instrument_details (MarketInstrumentMapper.Mapper Keys.frame)
      "NSE_EQ" = Py.Raise (Py.Exn Py.ValueError msg).
Proof.
  apply (malformed_key_raises (MarketInstrumentMapper.Mapper Keys.frame) "NSE_EQ").
  - vm_compute. reflexivity.
  - vm_compute. discriminate.
Defined.

(* ===================================================================== *)
(** ** The cache of [get_stock_data] *)
(* ===================================================================== *)

Section StockCacheFacts.
Import Py Net StockData.

Variable clock : nat -> Z.
Variable http : nat -> request -> reply.
Variable repr : string -> string.
Variable strftime : string -> Z -> string.
Variable access_token : string.


Lemma bind_inv {D A B} (m : IO D A) (f : A -> IO D B) st b st' :
  (m ≫= f) st = (b, st') ->
  (exists a st1, m st = (Done a, st1) /\ f a st1 = (b, st')) \/
  (exists msg, m st = (Failed msg, st') /\ b = Failed msg).
Proof.
  unfold mbind, IO_bind. destruct (m st) as [[a|msg] st1].
  - intros H. left. eauto.
  - intros [= <- <-]. right. eauto.
Qed.

Lemma requests_get_inv {D} r (st : state D) a st' :
  requests_get http r st = (a, st') ->
  st' = State (cache st) (ticks st) (sent st ++ [r]).
Proof. unfold requests_get. destruct (http _ _); now intros [= <- <-]. Qed.

Lemma now_inv {D} (st : state D) a st' :
  now clock st = (a, st') ->
  a = Done (clock (ticks st)) /\ st' = State (cache st) (S (ticks st)) (sent st).
Proof. unfold now. now intros [= <- <-]. Qed.

Lemma subscript_inv {D} v k (st : state D) a st' :
  subscript repr v k st = (a, st') -> st' = st.
Proof.
  unfold subscript, raise, mret, IO_ret.
  destruct v; try (now intros [= <- <-]).
  destruct (assoc k l); now intros [= <- <-].
Qed.

Lemma store_inv {D} key entry (st : state D) a st' :
  store key entry st = (a, st') ->
  a = Done tt /\ st' = State (<[key := entry]> (cache st)) (ticks st) (sent st).
Proof. unfold store. now intros [= <- <-]. Qed.

Lemma mret_inv {D A} (x : A) (st : state D) a st' :
  (mret x : IO D A) st = (a, st') -> a = Done x /\ st' = st.
Proof. unfold mret, IO_ret. now intros [= <- <-]. Qed.

Ltac io_prim E :=
  first
    [ apply requests_get_inv in E
    | apply now_inv in E; destruct E as [E ?]; try discriminate E;
      try (injection E as E)
    | apply subscript_inv in E
    | apply store_inv in E; destruct E as [E ?]; try discriminate E
    | apply mret_inv in E; destruct E as [E ?]; try discriminate E;
      try (injection E as E) ];
  subst.

Ltac io_inv H :=
  let E := fresh "E" in
  apply bind_inv in H;
  destruct H as [(? & ? & E & H)|(? & E & ->)];
  io_prim E.

(** A fetch leaves the cache alone, sends one or two requests, and what
    it returns is a data record for the symbol asked. *)
Lemma fetch_frame symbol from_date st a st' :
  StockData.fetch clock http repr strftime access_token symbol from_date st = (a, st') ->
  cache st' = cache st /\
  (length (sent st) < length (sent st') <= length (sent st) + 2)%nat /\
  (forall r, a = Done r -> exists c h t, r = StockData symbol c h t).
Proof.
  unfold StockData.fetch. intros H.
  assert (Hlen : forall (l : list request) r1 r2,
             (length l < length ((l ++ [r1]) ++ [r2]) <= length l + 2)%nat)
    by (intros; rewrite !length_app; simpl; lia).
  assert (Hlen1 : forall (l : list request) r1,
             (length l < length (l ++ [r1]) <= length l + 2)%nat)
    by (intros; rewrite !length_app; simpl; lia).
  io_inv H; [|cbn; split; [reflexivity|]; split; [apply Hlen1|discriminate]].
  io_inv H.
  io_inv H; [|cbn; split; [reflexivity|]; split; [apply Hlen|discriminate]].
  io_inv H; [|cbn; split; [reflexivity|]; split; [apply Hlen|discriminate]].
  io_inv H; [|cbn; split; [reflexivity|]; split; [apply Hlen|discriminate]].
  io_inv H; [|cbn; split; [reflexivity|]; split; [apply Hlen|discriminate]].
  io_inv H.
  io_prim H.
  cbn. split; [reflexivity|]. split; [apply Hlen|].
  intros r [= <-]. eauto.
Qed.

Lemma fetch_and_store_frame symbol from_date st a st' :
  StockData.fetch_and_store clock http repr strftime access_token symbol from_date st = (a, st') ->
  (length (sent st) < length (sent st') <= length (sent st) + 2)%nat /\
  ((exists msg, a = Failed msg /\ cache st' = cache st) \/
   (exists c h t ts,
      a = Done (StockData symbol c h t) /\
      cache st' = <[StockData.cache_key strftime symbol from_date := (StockData symbol c h t, ts)]> (cache st) /\
      ts = clock (Nat.pred (ticks st')))).
Proof.
  unfold StockData.fetch_and_store. intros H.
  apply bind_inv in H. destruct H as [(r & st1 & Ef & H)|(msg & Ef & ->)];
    destruct (fetch_frame _ _ _ _ _ Ef) as (Hc & Hs & Hr).
  - destruct (Hr r eq_refl) as (c & h & t & ->).
    io_inv H. io_inv H. io_prim H. cbn [cache ticks sent] in *.
    split; [exact Hs|]. right. exists c, h, t. eexists.
    split; [reflexivity|]. rewrite Hc. split; reflexivity.
  - split; [exact Hs|]. left. eauto.
Qed.

(** What a call does, case by case. *)
Lemma get_stock_data_cases symbol from_date st r st' :
  StockData.get_stock_data clock http repr strftime access_token symbol from_date st = (r, st') ->
  (exists t, cache st !! StockData.cache_key strftime symbol from_date = Some (r, t) /\
             clock (ticks st) - t < _cache_timeout /\
             st' = State (cache st) (S (ticks st)) (sent st)) \/
  ((length (sent st) < length (sent st'))%nat /\
   (length (sent st') <= length (sent st) + 2)%nat /\
   ((succeeded r = false /\ cache st' = cache st) \/
    (exists c h t ts,
       r = StockData symbol c h t /\
       cache st' = <[StockData.cache_key strftime symbol from_date := (r, ts)]> (cache st) /\
       ts = clock (Nat.pred (ticks st'))))).
Proof.
  unfold StockData.get_stock_data, StockData.body.
  unfold mbind at 1, IO_bind at 1, lookup_cache.
  assert (Hmiss : forall st0 : state stock_result,
             cache st0 = cache st -> sent st0 = sent st ->
             match StockData.fetch_and_store clock http repr strftime access_token symbol from_date st0 with
             | (Done r0, st'0) => (r0, st'0)
             | (Failed msg, st'0) => (StockError msg, st'0)
             end = (r, st') ->
             (length (sent st) < length (sent st'))%nat /\
             (length (sent st') <= length (sent st) + 2)%nat /\
             ((succeeded r = false /\ cache st' = cache st) \/
              (exists c h t ts,
                 r = StockData symbol c h t /\
                 cache st' = <[StockData.cache_key strftime symbol from_date := (r, ts)]> (cache st) /\
                 ts = clock (Nat.pred (ticks st'))))).
  { intros st0 Hc0 Hs0.
    destruct (StockData.fetch_and_store clock http repr strftime access_token symbol from_date st0) as [a st1] eqn:Ef.
    destruct (fetch_and_store_frame _ _ _ _ _ Ef) as [Hlen Hres].
    rewrite Hs0 in Hlen. rewrite Hc0 in Hres.
    destruct Hres as [(msg & -> & Hc)|(c & h & t & ts & -> & Hc & Hts)];
      intros [= <- <-].
    - split; [lia|]. split; [lia|]. left. split; [reflexivity|exact Hc].
    - split; [lia|]. split; [lia|]. right. exists c, h, t, ts. auto. }
  destruct (cache st !! StockData.cache_key strftime symbol from_date) as [[data timestamp]|] eqn:El.
  - unfold mbind, IO_bind, now. cbn [cache ticks sent].
    destruct (clock (ticks st) - timestamp <? _cache_timeout)%Z eqn:Et.
    + unfold mret, IO_ret. intros [= <- <-]. left. exists timestamp.
      apply Z.ltb_lt in Et. auto.
    + intros H. right.
      apply (Hmiss (State (cache st) (S (ticks st)) (sent st)) eq_refl eq_refl H).
  - intros H. right. apply (Hmiss st eq_refl eq_refl H).
Qed.

Lemma get_stock_data_hit symbol from_date st r t :
  cache st !! StockData.cache_key strftime symbol from_date = Some (r, t) ->
  clock (ticks st) - t < _cache_timeout ->
  StockData.get_stock_data clock http repr strftime access_token symbol from_date st = (r, State (cache st) (S (ticks st)) (sent st)).
Proof.
  intros Hc Ht. unfold StockData.get_stock_data, StockData.body.
  unfold mbind, IO_bind, lookup_cache, now. rewrite Hc. cbn [cache ticks sent].
  apply Z.ltb_lt in Ht. rewrite Ht. reflexivity.
Qed.

(** X15.  A data record returned by [(StockData.get_stock_data clock http repr strftime access_token)] is in the cache
    under the key of the call, and a later call for the same symbol and
    the same day that reads the clock less than 300 seconds after the
    entry was stored returns the same record without sending a request
    or changing the cache. *)
Theorem stock_data_replayed (symbol : string) (from_date from_date' : Z)
    (st st1 : state stock_result) (r : stock_result) :
  StockData.get_stock_data clock http repr strftime access_token symbol from_date st = (r, st1) ->
  succeeded r = true ->
  strftime "%Y%m%d" from_date' = strftime "%Y%m%d" from_date ->
  exists timestamp,
    cache st1 !! StockData.cache_key strftime symbol from_date = Some (r, timestamp) /\
    (clock (ticks st1) - timestamp < _cache_timeout ->
     StockData.get_stock_data clock http repr strftime access_token symbol from_date' st1
     = (r, State (cache st1) (S (ticks st1)) (sent st1))).
Proof.
  intros Hcall Hok Hday.
  assert (Hkey : StockData.cache_key strftime symbol from_date'
                 = StockData.cache_key strftime symbol from_date)
    by (unfold StockData.cache_key; now rewrite Hday).
  assert (Hreplay : forall ts,
             cache st1 !! StockData.cache_key strftime symbol from_date = Some (r, ts) ->
             clock (ticks st1) - ts < _cache_timeout ->
             StockData.get_stock_data clock http repr strftime access_token
               symbol from_date' st1
             = (r, State (cache st1) (S (ticks st1)) (sent st1))).
  { intros ts Hl Ht. apply (get_stock_data_hit _ _ _ _ ts); [now rewrite Hkey|exact Ht]. }
  destruct (get_stock_data_cases _ _ _ _ _ Hcall)
    as [(t & Hc & _ & Hst)|(_ & _ & [[Hf _]|(c & h & t & ts & Hr & Hc & _)])].
  - exists t. assert (Hl : cache st1 !! StockData.cache_key strftime symbol from_date
                           = Some (r, t)) by (rewrite Hst; exact Hc).
    split; [exact Hl|apply Hreplay, Hl].
  - congruence.
  - exists ts.
    assert (Hl : cache st1 !! StockData.cache_key strftime symbol from_date = Some (r, ts))
      by (rewrite Hc; apply lookup_insert_eq).
    split; [exact Hl|apply Hreplay, Hl].
Qed.

(** X16.  A call of [(StockData.get_stock_data clock http repr strftime access_token)] that returns a failure leaves the
    cache as it was, and a cache that holds no failure holds none after
    the call: failures are never stored, so they are never replayed. *)
Theorem failures_are_not_cached (symbol : string) (from_date : Z)
    (st st1 : state stock_result) (r : stock_result) :
  StockData.get_stock_data clock http repr strftime access_token symbol from_date st = (r, st1) ->
  (succeeded r = false -> cache st1 = cache st) /\
  (no_failure (cache st) -> no_failure (cache st1)).
Proof.
  intros Hcall.
  destruct (get_stock_data_cases _ _ _ _ _ Hcall)
    as [(t & Hc & _ & ->)|(_ & _ & [[Hf Hc]|(c & h & t & ts & Hr & Hc & _)])].
  - split; [reflexivity|auto].
  - split; [intros _; exact Hc|]. now rewrite Hc.
  - split; [subst r; discriminate|]. intros Hinv k r' t' Hk. rewrite Hc in Hk.
    destruct (decide (k = StockData.cache_key strftime symbol from_date)) as [->|Hne].
    + rewrite lookup_insert_eq in Hk. injection Hk as <- <-. now subst r.
    + rewrite lookup_insert_ne in Hk by congruence. eapply Hinv, Hk.
Qed.

Lemma key_length (a x : string) :
  String.length (a +:+ "_" +:+ x) = (String.length a + S (String.length x))%nat.
Proof. now rewrite append_length, append_cons, append_nil_l. Qed.

Lemma key_injective (a b x y : string) :
  String.length x = String.length y ->
  a +:+ "_" +:+ x = b +:+ "_" +:+ y -> a = b.
Proof.
  intros Hlen. revert b. induction a as [|c a IH]; intros [|c' b] H.
  - reflexivity.
  - exfalso. apply (f_equal String.length) in H.
    rewrite !key_length in H. simpl in H. lia.
  - exfalso. apply (f_equal String.length) in H.
    rewrite !key_length in H. simpl in H. lia.
  - rewrite !append_cons in H. injection H as -> H. f_equal. now apply IH.
Qed.

Hypothesis day_width : forall d, String.length (strftime "%Y%m%d" d) = 8%nat.

Lemma call_about symbol from_date st r st' :
  well_keyed strftime (cache st) ->
  StockData.get_stock_data clock http repr strftime access_token symbol from_date st
  = (r, st') ->
  about symbol r /\ well_keyed strftime (cache st') /\
  (length (sent st') <= length (sent st) + 2)%nat.
Proof.
  intros Hinv Hcall.
  destruct (get_stock_data_cases _ _ _ _ _ Hcall)
    as [(t & Hc & _ & ->)|(_ & Hlen & [[Hf Hc]|(c & h & t & ts & Hr & Hc & _)])].
  - cbn [cache sent]. split; [|split; [exact Hinv|lia]].
    destruct (Hinv _ _ _ Hc) as (s & c & h & ts & d & -> & Hk). simpl.
    unfold StockData.cache_key in Hk. symmetry.
    apply (key_injective _ _ _ _ (eq_trans (day_width _) (eq_sym (day_width _))) Hk).
  - split; [destruct r; [discriminate|exact I]|]. rewrite Hc. auto.
  - split; [now subst r|]. split; [|exact Hlen].
    intros k r' t' Hk. rewrite Hc in Hk.
    destruct (decide (k = StockData.cache_key strftime symbol from_date)) as [->|Hne].
    + rewrite lookup_insert_eq in Hk. injection Hk as <- <-. subst r. eauto 10.
    + rewrite lookup_insert_ne in Hk by congruence. eapply Hinv, Hk.
Qed.

Lemma gather_about symbols from_date st results st' :
  well_keyed strftime (cache st) ->
  StockData.gather clock http repr strftime access_token symbols from_date st
  = (results, st') ->
  Forall2 about symbols results /\ well_keyed strftime (cache st') /\
  (length (sent st') <= length (sent st) + 2 * length symbols)%nat.
Proof.
  revert st results st'. induction symbols as [|s symbols IH]; intros st results st' Hinv.
  - simpl. intros [= <- <-]. split; [constructor|]. split; [exact Hinv|lia].
  - cbn [StockData.gather].
    destruct (StockData.get_stock_data clock http repr strftime access_token s from_date st)
      as [r st1] eqn:E1.
    destruct (StockData.gather clock http repr strftime access_token symbols from_date st1)
      as [rs st2] eqn:E2.
    intros [= <- <-].
    destruct (call_about _ _ _ _ _ Hinv E1) as (Ha & Hinv1 & Hl1).
    destruct (IH _ _ _ Hinv1 E2) as (Hrs & Hinv2 & Hl2).
    split; [now constructor|]. split; [exact Hinv2|]. simpl. lia.
Qed.

Lemma zip_dict_lookup (l : list (string * stock_result))
    (acc : gmap string stock_result) s r :
  foldl (fun d '(symbol, result) => <[symbol := result]> d) acc l !! s = Some r ->
  acc !! s = Some r \/ In (s, r) l.
Proof.
  revert acc. induction l as [|[s0 r0] l IH]; intros acc; simpl; [auto|].
  intros H. destruct (IH _ H) as [Hacc|Hin]; [|auto].
  destruct (decide (s0 = s)) as [->|Hne].
  - rewrite lookup_insert_eq in Hacc. injection Hacc as ->. auto.
  - rewrite lookup_insert_ne in Hacc by exact Hne. auto.
Qed.

Lemma zip_dict_dom (l : list (string * stock_result))
    (acc : gmap string stock_result) s :
  is_Some (foldl (fun d '(symbol, result) => <[symbol := result]> d) acc l !! s) <->
  is_Some (acc !! s) \/ In s (map fst l).
Proof.
  revert acc. induction l as [|[s0 r0] l IH]; intros acc; simpl; [tauto|].
  rewrite IH. destruct (decide (s0 = s)) as [->|Hne].
  - rewrite lookup_insert_eq. split; [auto|]. intros _. left. eauto.
  - rewrite lookup_insert_ne by exact Hne. tauto.
Qed.

Lemma Forall2_zip_In {A B} (P : A -> B -> Prop) l k a b :
  Forall2 P l k -> In (a, b) (zip l k) -> P a b.
Proof.
  induction 1 as [|x y l k Hxy _ IH]; simpl; [tauto|].
  intros [[= <- <-]|Hin]; auto.
Qed.

(** X17.  [get_multiple_stocks_data] from a cache whose entries are data
    records stored under keys of their own symbols: the dict it returns
    has exactly the requested symbols as keys, each entry is a failure or
    a data record for the symbol of its key, at most two requests are
    sent per symbol, and the cache keeps its form.  The dates are taken
    to print as eight characters. *)
Theorem multiple_stocks_data (symbols : list string) (from_date : Z)
    (st st' : state stock_result) (data : gmap string stock_result) :
  well_keyed strftime (cache st) ->
  StockData.get_multiple_stocks_data clock http repr strftime access_token
    symbols from_date st = (data, st') ->
  (forall s, is_Some (data !! s) <-> In s symbols) /\
  (forall s r, data !! s = Some r -> about s r) /\
  (length (sent st') <= length (sent st) + 2 * length symbols)%nat /\
  well_keyed strftime (cache st').
Proof.
  intros Hinv. unfold StockData.get_multiple_stocks_data.
  destruct (StockData.gather clock http repr strftime access_token symbols from_date st)
    as [results st1] eqn:Eg.
  intros [= <- <-].
  destruct (gather_about _ _ _ _ _ Hinv Eg) as (Hrs & Hinv1 & Hlen).
  split; [|split; [|split; assumption]].
  - intros s. unfold zip_dict. rewrite zip_dict_dom, lookup_empty.
    rewrite fst_zip by (apply Forall2_length in Hrs; lia).
    split; [intros [[? [=]]|H]; exact H|auto].
  - intros s r H. unfold zip_dict in H. apply zip_dict_lookup in H.
    destruct H as [H|H]; [rewrite lookup_empty in H; discriminate|].
    exact (Forall2_zip_In _ _ _ _ _ Hrs H).
Qed.

End StockCacheFacts.

Lemma stock_data_replayed_witness :
  exists r st1 timestamp,
    StockData.get_stock_data StockData.sample_clock StockData.sample_http
      StockData.sample_repr StockData.sample_strftime "token" "TCS" Samples.now
      StockData.fresh = (r, st1) /\
    Net.cache st1 !! StockData.cache_key StockData.sample_strftime "TCS" Samples.now
    = Some (r, timestamp) /\
    (StockData.sample_clock (Net.ticks st1) - timestamp < StockData._cache_timeout ->
     StockData.get_stock_data StockData.sample_clock StockData.sample_http
       StockData.sample_repr StockData.sample_strftime "token" "TCS" (Samples.now + 1) st1
     = (r, Net.State (Net.cache st1) (S (Net.ticks st1)) (Net.sent st1))).
Proof.
  destruct (StockData.get_stock_data StockData.sample_clock StockData.sample_http
      StockData.sample_repr StockData.sample_strftime "token" "TCS" Samples.now
      StockData.fresh) as [r st1] eqn:E.
  exists r, st1.
  assert (Hok : StockData.succeeded r = true).
  { assert (Hr : r = fst (StockData.get_stock_data StockData.sample_clock StockData.sample_http
      StockData.sample_repr StockData.sample_strftime "token" "TCS" Samples.now
      StockData.fresh)) by now rewrite E.
    rewrite Hr. vm_compute. reflexivity. }
  destruct (stock_data_replayed StockData.sample_clock StockData.sample_http
              StockData.sample_repr StockData.sample_strftime "token" "TCS"
              Samples.now (Samples.now + 1) StockData.fresh st1 r E Hok eq_refl)
    as (timestamp & H).
  exists timestamp. split; [reflexivity|exact H].
Defined.

Lemma failures_are_not_cached_witness :
  (StockData.succeeded (StockData.StockError "503 Server Error") = false ->
   Net.cache (Net.State (D := StockData.stock_result) ∅ 0
                [Net.Request (StockData.base_url +:+ "/market-quote/quotes")
                   (StockData.get_headers "token")
                   [("symbol", "NSE_EQ|TCS"); ("interval", "1day")]])
   = Net.cache StockData.fresh) /\
  (StockData.no_failure (Net.cache StockData.fresh) ->
   StockData.no_failure
     (Net.cache (Net.State (D := StockData.stock_result) ∅ 0
                   [Net.Request (StockData.base_url +:+ "/market-quote/quotes")
                      (StockData.get_headers "token")
                      [("symbol", "NSE_EQ|TCS"); ("interval", "1day")]]))).
Proof.
  apply (failures_are_not_cached StockData.sample_clock StockData.sample_down
           StockData.sample_repr StockData.sample_strftime "token" "TCS" Samples.now
           StockData.fresh).
  vm_compute. reflexivity.
Defined.

Lemma well_keyed_fresh strftime : StockData.well_keyed strftime (Net.cache StockData.fresh).
Proof. intros k r t H. simpl in H. rewrite lookup_empty in H. discriminate. Qed.

Lemma multiple_stocks_data_witness :
  exists data st',
    StockData.get_multiple_stocks_data StockData.sample_clock StockData.sample_http
      StockData.sample_repr StockData.sample_strftime "token" ["TCS"; "INFY"; "TCS"]
      Samples.now StockData.fresh = (data, st') /\
    (forall s, is_Some (data !! s) <-> In s ["TCS"; "INFY"; "TCS"]) /\
    (forall s r, data !! s = Some r -> StockData.about s r) /\
    (length (Net.sent st') <= length (Net.sent StockData.fresh) + 2 * 3)%nat /\
    StockData.well_keyed StockData.sample_strftime (Net.cache st').
Proof.
  destruct (StockData.get_multiple_stocks_data StockData.sample_clock StockData.sample_http
      StockData.sample_repr StockData.sample_strftime "token" ["TCS"; "INFY"; "TCS"]
      Samples.now StockData.fresh) as [data st'] eqn:E.
  exists data, st'. split; [reflexivity|].
  apply (multiple_stocks_data StockData.sample_clock StockData.sample_http
           StockData.sample_repr StockData.sample_strftime "token"
           (fun d => eq_refl) ["TCS"; "INFY"; "TCS"] Samples.now StockData.fresh st' data
           (well_keyed_fresh _) E).
Defined.

(* ===================================================================== *)
(** ** [utils/historical_data.py]: the fetcher *)
(* ===================================================================== *)

Section HistoryFacts.
Import Py Net HistoricalDataFetcher.

Variable payload : Type.
Variable clock : nat -> Z.
Variable http : nat -> request -> reply.
Variable repr : string -> string.
Variable strftime : string -> Z -> string.
Variable access_token : string.
Variable _process_historical_data : json -> gmap string jval -> hist_result payload.

(** X18.  With the mapper class of [utils/instrument_mapper.py], which is
    the one [start] hands to the fetcher, [get_historical_data],
    [get_intraday_data] and [get_daily_data] return a failure for every
    input, send no request and leave the cache as it was: the lookup of
    [get_instrument_by_symbol] raises AttributeError. *)
Theorem history_unavailable (symbol interval : string) (from_date days : Z)
    (to_date : option Z) (st : state (hist_result payload)) :
  let msg := "'InstrumentMapper' object has no attribute 'get_instrument_by_symbol'" in
  get_historical_data payload clock http repr strftime access_token missing_lookup
    _process_historical_data symbol from_date to_date interval st
  = (Failure msg, st) /\
  get_intraday_data payload clock http repr strftime access_token missing_lookup
    _process_historical_data symbol interval st
  = (Failure msg, State (cache st) (S (ticks st)) (sent st)) /\
  exists e,
    get_daily_data payload clock http repr strftime access_token missing_lookup
      _process_historical_data symbol days st
    = (Failure e, State (cache st) (S (ticks st)) (sent st)).
Proof.
  intros msg.
  assert (Hh : forall from_date to_date interval (st0 : state (hist_result payload)),
             get_historical_data payload clock http repr strftime access_token missing_lookup
               _process_historical_data symbol from_date to_date interval st0
             = (Failure msg, st0)) by reflexivity.
  split; [apply Hh|]. split.
  - unfold get_intraday_data, try_except, call. unfold mbind, IO_bind, now.
    now rewrite Hh.
  - unfold get_daily_data, try_except, call. unfold mbind, IO_bind, now, lift.
    destruct (Datetime.timedelta_days days) as [delta|e1]; [|eexists; reflexivity].
    unfold mret, IO_ret.
    destruct (Datetime.sub (clock (ticks st)) delta) as [d|e2]; [|eexists; reflexivity].
    rewrite Hh. eexists. reflexivity.
Qed.

Variable get_instrument_by_symbol : string -> result (option (gmap string jval)).

Lemma get_from_cache_inv key (st : state (hist_result payload)) a st' :
  _get_from_cache payload clock key st = (a, st') ->
  (exists d ts, cache st !! key = Some (d, ts) /\ clock (ticks st) - ts < _cache_duration /\
                a = Done (Some d) /\ st' = State (cache st) (S (ticks st)) (sent st)) \/
  (a = Done None /\ cache st' !! key = None /\ sent st' = sent st).
Proof.
  unfold _get_from_cache, lookup_cache, evict. unfold mbind, IO_bind, mret, IO_ret, now.
  destruct (cache st !! key) as [[d ts]|] eqn:E.
  - cbn [cache ticks sent].
    destruct (clock (ticks st) - ts <? _cache_duration)%Z eqn:Et; intros [= <- <-].
    + left. exists d, ts. apply Z.ltb_lt in Et. auto.
    + right. cbn [cache sent]. split; [reflexivity|]. split; [apply lookup_delete_eq|reflexivity].
  - intros [= <- <-]. right. auto.
Qed.

Lemma add_to_cache_inv key d (st : state (hist_result payload)) a st' :
  _add_to_cache payload clock key d st = (a, st') ->
  a = Done tt /\
  st' = State (<[key := (d, clock (ticks st))]> (cache st)) (S (ticks st)) (sent st).
Proof.
  unfold _add_to_cache, store, now. unfold mbind, IO_bind. now intros [= <- <-].
Qed.

Lemma json_get_inv {D} v k (st : state D) a st' :
  json_get v k st = (a, st') -> st' = st.
Proof.
  unfold json_get, raise, mret, IO_ret. destruct v; now intros [= <- <-].
Qed.

Lemma get_historical_data_hit symbol from_date to_date interval instrument st d ts :
  get_instrument_by_symbol symbol = Ok (Some instrument) ->
  instrument <> ∅ ->
  cache st !! cache_key strftime symbol from_date to_date interval = Some (d, ts) ->
  clock (ticks st) - ts < _cache_duration ->
  get_historical_data payload clock http repr strftime access_token
    get_instrument_by_symbol _process_historical_data
    symbol from_date (Some to_date) interval st
  = (d, State (cache st) (S (ticks st)) (sent st)).
Proof.
  intros Hlook Hne Hc Ht.
  unfold get_historical_data, try_except, body. rewrite Hlook.
  unfold lift, _get_from_cache, lookup_cache. unfold mbind, IO_bind, mret, IO_ret, now.
  cbn [falsy]. rewrite bool_decide_eq_false_2 by exact Hne.
  rewrite Hc. cbn [cache ticks sent]. apply Z.ltb_lt in Ht. now rewrite Ht.
Qed.

(** What a call for a known symbol leaves under its key. *)
Lemma get_historical_data_cases symbol from_date to_date interval instrument st r st1 :
  get_instrument_by_symbol symbol = Ok (Some instrument) ->
  instrument <> ∅ ->
  get_historical_data payload clock http repr strftime access_token
    get_instrument_by_symbol _process_historical_data
    symbol from_date (Some to_date) interval st = (r, st1) ->
  (sent st1 = sent st /\
   exists ts, cache st1 !! cache_key strftime symbol from_date to_date interval
              = Some (r, ts)) \/
  (length (sent st1) = S (length (sent st)) /\
   (cache st1 !! cache_key strftime symbol from_date to_date interval = None \/
    exists raw,
      r = _process_historical_data raw instrument /\
      cache st1 !! cache_key strftime symbol from_date to_date interval
      = Some (r, clock (Nat.pred (ticks st1))))).
Proof.
  intros Hlook Hne. unfold get_historical_data, try_except.
  destruct (body payload clock http repr strftime access_token get_instrument_by_symbol
              _process_historical_data symbol from_date (Some to_date) interval st)
    as [a st'] eqn:Eb.
  intros Hr. unfold body in Eb. rewrite Hlook in Eb. unfold lift in Eb.
  apply bind_inv in Eb. destruct Eb as [(i & s0 & E0 & Eb)|(m & E0 & _)];
    apply mret_inv in E0; destruct E0 as [E0 ->]; [|discriminate].
  injection E0 as ->. cbn [falsy default] in Eb.
  rewrite bool_decide_eq_false_2 in Eb by exact Hne.
  apply bind_inv in Eb. destruct Eb as [(t & s0 & E0 & Eb)|(m & E0 & _)];
    apply mret_inv in E0; destruct E0 as [E0 ->]; [|discriminate].
  injection E0 as ->.
  apply bind_inv in Eb. destruct Eb as [(c & s0 & E0 & Eb)|(m & E0 & _)];
    apply get_from_cache_inv in E0;
    destruct E0 as [(d & ts & Hc & Ht & E0 & ->)|(E0 & Hnone & Hsent)]; try discriminate.
  - injection E0 as ->. apply mret_inv in Eb. destruct Eb as [-> ->].
    injection Hr as <- <-. left. cbn [cache sent]. eauto.
  - injection E0 as ->. right.
    apply bind_inv in Eb. destruct Eb as [(data & s1 & E1 & Eb)|(m & E1 & ->)];
      apply requests_get_inv in E1; subst.
    2:{ injection Hr as <- <-. cbn [cache sent]. rewrite length_app, Hsent. simpl.
        split; [lia|]. now left. }
    apply bind_inv in Eb. destruct Eb as [(received & s2 & E2 & Eb)|(m & E2 & ->)];
      apply json_get_inv in E2; subst.
    2:{ injection Hr as <- <-. cbn [cache sent]. rewrite length_app, Hsent. simpl.
        split; [lia|]. now left. }
    destruct (negb (json_truthy received)).
    { apply mret_inv in Eb. destruct Eb as [-> ->]. injection Hr as <- <-.
      cbn [cache sent]. rewrite length_app, Hsent. simpl. split; [lia|]. now left. }
    apply bind_inv in Eb. destruct Eb as [(raw & s3 & E3 & Eb)|(m & E3 & ->)];
      apply subscript_inv in E3; subst.
    2:{ injection Hr as <- <-. cbn [cache sent]. rewrite length_app, Hsent. simpl.
        split; [lia|]. now left. }
    apply bind_inv in Eb. destruct Eb as [(u & s4 & E4 & Eb)|(m & E4 & ->)];
      apply add_to_cache_inv in E4; destruct E4 as [E4 ->]; [|discriminate].
    apply mret_inv in Eb. destruct Eb as [-> ->]. injection Hr as <- <-.
    cbn [cache sent ticks Nat.pred]. rewrite length_app, Hsent. simpl. split; [lia|].
    right. exists raw. split; [reflexivity|]. apply lookup_insert_eq.
Qed.

(** X19.  After [get_historical_data] for a symbol that the mapper knows,
    the entry under the key of the call, if there is one, is the dict
    just returned, be it a success or the failure dict of
    [_process_historical_data]; and a later call with the same arguments
    that reads the clock less than five minutes after the entry was
    stored returns that dict again without sending a request. *)
Theorem history_cache_agrees (symbol interval : string) (from_date to_date : Z)
    (instrument : gmap string jval) (st st1 : state (hist_result payload))
    (r : hist_result payload) :
  get_instrument_by_symbol symbol = Ok (Some instrument) ->
  instrument <> ∅ ->
  get_historical_data payload clock http repr strftime access_token
    get_instrument_by_symbol _process_historical_data
    symbol from_date (Some to_date) interval st = (r, st1) ->
  forall d ts,
    cache st1 !! cache_key strftime symbol from_date to_date interval = Some (d, ts) ->
    d = r /\
    (clock (ticks st1) - ts < _cache_duration ->
     get_historical_data payload clock http repr strftime access_token
       get_instrument_by_symbol _process_historical_data
       symbol from_date (Some to_date) interval st1
     = (r, State (cache st1) (S (ticks st1)) (sent st1))).
Proof.
  intros Hlook Hne Hcall d ts Hc.
  assert (Hd : d = r).
  { destruct (get_historical_data_cases _ _ _ _ _ _ _ _ Hlook Hne Hcall)
      as [(_ & ts' & H)|(_ & [H|(raw & _ & H)])]; congruence. }
  split; [exact Hd|]. subst d. intros Ht.
  now apply (get_historical_data_hit _ _ _ _ instrument _ _ ts).
Qed.

End HistoryFacts.

Lemma history_cache_agrees_witness :
  exists r st1,
    HistoricalDataFetcher.get_historical_data unit StockData.sample_clock
      HistoricalDataFetcher.sample_candles StockData.sample_repr StockData.sample_strftime
      "token" HistoricalDataFetcher.sample_lookup HistoricalDataFetcher.sample_process
      "TCS" Samples.now (Some Samples.now) "1day" HistoricalDataFetcher.fresh = (r, st1) /\
    r = HistoricalDataFetcher.Failure "'instrument_type'" /\
    Net.cache st1 !! HistoricalDataFetcher.cache_key StockData.sample_strftime
                       "TCS" Samples.now Samples.now "1day"
    = Some (r, StockData.sample_clock 0) /\
    (StockData.sample_clock (Net.ticks st1) - StockData.sample_clock 0
       < HistoricalDataFetcher._cache_duration ->
     HistoricalDataFetcher.get_historical_data unit StockData.sample_clock
       HistoricalDataFetcher.sample_candles StockData.sample_repr StockData.sample_strftime
       "token" HistoricalDataFetcher.sample_lookup HistoricalDataFetcher.sample_process
       "TCS" Samples.now (Some Samples.now) "1day" st1
     = (r, Net.State (Net.cache st1) (S (Net.ticks st1)) (Net.sent st1))).
Proof.
  destruct (HistoricalDataFetcher.get_historical_data unit StockData.sample_clock
      HistoricalDataFetcher.sample_candles StockData.sample_repr StockData.sample_strftime
      "token" HistoricalDataFetcher.sample_lookup HistoricalDataFetcher.sample_process
      "TCS" Samples.now (Some Samples.now) "1day" HistoricalDataFetcher.fresh)
    as [r st1] eqn:E.
  exists r, st1. split; [reflexivity|].
  assert (Hst : (r, st1) = (HistoricalDataFetcher.Failure "'instrument_type'",
                            snd (HistoricalDataFetcher.get_historical_data unit
      StockData.sample_clock
      HistoricalDataFetcher.sample_candles StockData.sample_repr StockData.sample_strftime
      "token" HistoricalDataFetcher.sample_lookup HistoricalDataFetcher.sample_process
      "TCS" Samples.now (Some Samples.now) "1day" HistoricalDataFetcher.fresh)))
    by (rewrite E; vm_compute in E; now injection E as <- <-).
  assert (Hr : r = HistoricalDataFetcher.Failure "'instrument_type'") by congruence.
  assert (Hc : Net.cache st1 !! HistoricalDataFetcher.cache_key StockData.sample_strftime
                       "TCS" Samples.now Samples.now "1day"
               = Some (r, StockData.sample_clock 0)).
  { injection Hst as _ ->. rewrite Hr. vm_compute. reflexivity. }
  split; [exact Hr|]. split; [exact Hc|].
  assert (Hne : (list_to_map [("tradingsymbol", Py.JStr "TCS"); ("exchange", Py.JStr "NSE")]
                 : gmap string Py.jval) <> ∅)
    by (intros H; apply (f_equal (fun m => m !! "exchange")) in H; vm_compute in H;
        discriminate).
  exact (proj2 (history_cache_agrees unit StockData.sample_clock
           HistoricalDataFetcher.sample_candles StockData.sample_repr
           StockData.sample_strftime "token" HistoricalDataFetcher.sample_process
           HistoricalDataFetcher.sample_lookup "TCS" "1day" Samples.now Samples.now
           _ HistoricalDataFetcher.fresh st1 r eq_refl Hne E r _ Hc)).
Defined.

(* ===================================================================== *)
(** ** Exact matches among the results of the fuzzy search *)
(* ===================================================================== *)

Section ExactMatchFacts.
Import Py Spec InstrumentMapper MasterData.

Variable partial_ratio : string -> string -> Z.
Hypothesis partial_ratio_nonneg : forall a b, 0 <= partial_ratio a b.




End ExactMatchFacts.


